(** * Bulk File Renamer: the rename engine and its undo, verified

    A shallow embedding of [src/bulk_file_renamer/renamer.py] and
    [src/undo.py].  The two modules are sequential Python code over the
    file system; they are modelled as functions in a state-and-exception
    monad over an explicit [world] (file system, working directory, clock,
    system-call trace, standard output).

    Library calls ([os], [shutil], [glob], [time], [json], [re]) are the
    environment of the program.  Their model is in the first half of the
    file; its simplifications are stated where they are made:
    - paths are byte strings, resolved lexically as [os.path.abspath] does
      (no symbolic links);
    - permissions are not modelled;
    - the clock is an arbitrary sequence of readings in seconds;
    - [re.sub] and [time.strftime] are parameters ([Libs]). *)

From Stdlib Require Import ZArith Ascii String DecimalString.
From stdpp Require Import base decidable option list sorting gmap strings.

Set Warnings "-register-all".

Local Open Scope Z_scope.

(* ===================================================================== *)
(** * Python strings *)
(* ===================================================================== *)

Module Py.

(** [s.startswith(t)] *)
Fixpoint startswith (t s : string) : bool :=
  match t, s with
  | EmptyString, _ => true
  | String a t', String b s' => bool_decide (a = b) && startswith t' s'
  | String _ _, EmptyString => false
  end.

(** [s.endswith(t)] *)
Definition endswith (t s : string) : bool :=
  startswith (String.rev t) (String.rev s).

Definition lower_char (c : ascii) : ascii :=
  let n := nat_of_ascii c in
  if ((65 <=? n) && (n <=? 90))%nat then ascii_of_nat (n + 32) else c.

(** [s.lower()], on the ASCII range *)
Fixpoint lower (s : string) : string :=
  match s with
  | EmptyString => EmptyString
  | String c s' => String (lower_char c) (lower s')
  end.

(** [s.replace(a, b)] for one-character [a] and [b] *)
Fixpoint replace_char (a b : ascii) (s : string) : string :=
  match s with
  | EmptyString => EmptyString
  | String c s' =>
      String (if bool_decide (c = a) then b else c) (replace_char a b s')
  end.

(** [s.rfind(c)]: index of the last occurrence of [c], or [-1] *)
Fixpoint rfind_from (i : Z) (c : ascii) (s : string) : Z :=
  match s with
  | EmptyString => -1
  | String a s' =>
      let r := rfind_from (i + 1) c s' in
      if 0 <=? r then r else if bool_decide (a = c) then i else -1
  end.
Definition rfind (c : ascii) (s : string) : Z := rfind_from 0 c s.

Definition len (s : string) : Z := Z.of_nat (String.length s).

(** the slice [s[i:j]], for [0 <= i] and [0 <= j] *)
Definition slice (i j : Z) (s : string) : string :=
  String.substring (Z.to_nat i) (Z.to_nat (j - i)) s.

(** [s[i:]] *)
Definition slice_from (i : Z) (s : string) : string := slice i (len s) s.

(** [str(n)] for an [int] *)
Definition str (n : Z) : string := NilZero.string_of_int (Z.to_int n).

Fixpoint zeros (n : nat) : string :=
  match n with O => EmptyString | S n' => String "0" (zeros n') end.

(** [s.zfill(width)]: pad with zeros on the left, after a leading sign *)
Definition zfill (width : Z) (s : string) : string :=
  if width <=? len s then s
  else
    let fill := zeros (Z.to_nat (width - len s)) in
    match s with
    | String c rest =>
        if bool_decide (c = "+"%char) || bool_decide (c = "-"%char)
        then String c (fill +:+ rest)
        else fill +:+ s
    | EmptyString => fill
    end.

(** [s.split("/")] *)
Fixpoint split_slash (s : string) : list string :=
  match s with
  | EmptyString => [EmptyString]
  | String c s' =>
      if bool_decide (c = "/"%char) then EmptyString :: split_slash s'
      else match split_slash s' with
           | h :: t => String c h :: t
           | [] => [String c EmptyString]
           end
  end.

(** [s.rstrip("/")] *)
Fixpoint rstrip_slash (s : string) : string :=
  match s with
  | EmptyString => EmptyString
  | String c s' =>
      let r := rstrip_slash s' in
      if bool_decide (r = EmptyString) && bool_decide (c = "/"%char)
      then EmptyString else String c r
  end.

Fixpoint all_slashes (s : string) : bool :=
  match s with
  | EmptyString => true
  | String c s' => bool_decide (c = "/"%char) && all_slashes s'
  end.

Fixpoint contains_char (c : ascii) (s : string) : bool :=
  match s with
  | EmptyString => false
  | String a s' => bool_decide (a = c) || contains_char c s'
  end.

End Py.

(* ===================================================================== *)
(** * [os.path]: string-level path functions (posixpath) *)
(* ===================================================================== *)

Module OsPath.

(** [os.path.join(a, b)] *)
Definition join (a b : string) : string :=
  if Py.startswith "/" b then b
  else if bool_decide (a = EmptyString) || Py.endswith "/" a then a +:+ b
  else a +:+ "/" +:+ b.

(** [os.path.split(p)]: the head keeps everything up to the last slash,
    with trailing slashes stripped unless it is all slashes *)
Definition split (p : string) : string * string :=
  let i := Py.rfind "/" p + 1 in
  let head := Py.slice 0 i p in
  let tail := Py.slice_from i p in
  let head' :=
    if negb (bool_decide (head = EmptyString)) && negb (Py.all_slashes head)
    then Py.rstrip_slash head else head in
  (head', tail).

Definition dirname (p : string) : string := fst (split p).
Definition basename (p : string) : string := snd (split p).

(** the loop of [genericpath._splitext] that skips leading dots *)
Fixpoint splitext_scan (fuel : nat) (p : string) (k dot : Z) : bool :=
  match fuel with
  | O => false
  | S fuel' =>
      if k <? dot then
        if negb (bool_decide (Py.slice k (k + 1) p = ".")) then true
        else splitext_scan fuel' p (k + 1) dot
      else false
  end.

(** [os.path.splitext(p)] *)
Definition splitext (p : string) : string * string :=
  let sepIndex := Py.rfind "/" p in
  let dotIndex := Py.rfind "." p in
  if (sepIndex <? dotIndex)
     && splitext_scan (String.length p) p (sepIndex + 1) dotIndex
  then (Py.slice 0 dotIndex p, Py.slice_from dotIndex p)
  else (p, EmptyString).

End OsPath.


(* ===================================================================== *)
(** * The world: file system, clock, trace *)
(* ===================================================================== *)

(** A resolved path: the components below the root. *)
Abbreviation path := (list string).

(** What [json.load] returns. *)
Inductive json :=
  | JNull
  | JBool (b : bool)
  | JNum (n : Z)
  | JStr (s : string)
  | JList (items : list json)
  | JObj (fields : list (string * json)).

(** File contents, seen through [json.load]: [JsonDoc j] is any text that
    parses to [j], [Raw s] is text that [json.load] rejects. *)
Inductive content :=
  | Raw (bytes : string)
  | JsonDoc (j : json).

Inductive node :=
  | File (c : content) (mtime : Z)
  | Dir (mtime : Z).

(** System calls that change the file system, as issued. *)
Inductive event :=
  | EvMkdir (k : path)
  | EvCopy (src dst : path)
  | EvReplace (src dst : path)
  | EvRemove (k : path)
  | EvWrite (k : path).

Record world := World {
  fs : gmap path node;
  cwd : path;
  ticks : nat → Z;       (* the clock: the n-th reading, in seconds *)
  tpos : nat;            (* number of readings taken so far *)
  trace : list event;
  stdout : list string
}.

Definition set_fs (f : gmap path node) (w : world) : world :=
  World f (cwd w) (ticks w) (tpos w) (trace w) (stdout w).
Definition set_tpos (n : nat) (w : world) : world :=
  World (fs w) (cwd w) (ticks w) n (trace w) (stdout w).
Definition log_event (e : event) (w : world) : world :=
  World (fs w) (cwd w) (ticks w) (tpos w) (trace w ++ [e]) (stdout w).
Definition log_stdout (s : string) (w : world) : world :=
  World (fs w) (cwd w) (ticks w) (tpos w) (trace w) (stdout w ++ [s]).

(* ===================================================================== *)
(** * Exceptions and the monad *)
(* ===================================================================== *)

(** The messages of the [ValueError]s the renamer raises. *)
Inductive value_error :=
  | DirectoryRequired            (* "A directory path is required." *)
  | DirectoryNotFound            (* "Directory not found: ..." *)
  | PathNotDirectory             (* "Path is not a directory: ..." *)
  | PaddingNegative              (* "Numbering padding must be non-negative." *)
  | StartNegative                (* "Numbering start must be non-negative." *)
  | RegexPairRequired            (* "Both --regex-pattern and --regex-replacement ..." *)
  | NoFilesFound                 (* "No files found to rename. ..." *)
  | InvalidRegex                 (* "Invalid regex pattern: ..." *)
  | EmptyFileName (original_name : string).
                                 (* "Regex produced an empty file name for ..." *)

Inductive errno := ENOENT | EISDIR | ENOTDIR | EEXIST.

Inductive exn :=
  | ValueError (m : value_error)
  | FileExistsError (target : string)   (* raised by [rename_files] itself *)
  | OSError (e : errno)                 (* FileNotFoundError, IsADirectoryError,
                                           NotADirectoryError, FileExistsError
                                           as raised by the operating system *)
  | SameFileError
  | PermissionError (directory : string)
  | AttributeError
  | TypeError
  | KeyError
  | JSONDecodeError
  | Unmodelled.                         (* behaviour outside this model *)

Inductive outcome (A : Type) :=
  | Ok (a : A)
  | Raise (e : exn).
Arguments Ok {A} a.
Arguments Raise {A} e.

Definition M (A : Type) : Type := world → outcome A * world.

Definition ret {A} (a : A) : M A := fun w => (Ok a, w).
Definition raise {A} (e : exn) : M A := fun w => (Raise e, w).
Definition bind {A B} (m : M A) (k : A → M B) : M B :=
  fun w => match m w with
           | (Ok a, w') => k a w'
           | (Raise e, w') => (Raise e, w')
           end.

Notation "'let*' x ':=' m 'in' k" := (bind m (fun x => k))
  (at level 10, x name, m at level 100, k at level 200).
Notation "'let*' ' p ':=' m 'in' k" := (bind m (fun x => let 'p := x in k))
  (at level 10, p pattern, m at level 100, k at level 200).
Notation "m1 ';;' m2" := (bind m1 (fun _ => m2))
  (at level 100, m2 at level 200, right associativity).

(** [try: m except e: h e] for the exceptions [handles] selects; the state
    reached when the exception was raised is kept. *)
Definition try_except {A} (m : M A) (handles : exn → bool) (h : exn → M A) : M A :=
  fun w => match m w with
           | (Raise e, w') =>
               match e with
               | Unmodelled => (Raise e, w')
               | _ => if handles e then h e w' else (Raise e, w')
               end
           | r => r
           end.

(* ===================================================================== *)
(** * The operating system *)
(* ===================================================================== *)

(** ** Path resolution *)

(** The component loop of [posixpath.normpath] on an absolute path. *)
Fixpoint norm_comps (stack : path) (comps : list string) : path :=
  match comps with
  | [] => stack
  | c :: cs =>
      if bool_decide (c = "") || bool_decide (c = ".") then norm_comps stack cs
      else if bool_decide (c = "..") then norm_comps (removelast stack) cs
      else norm_comps (stack ++ [c]) cs
  end.

(** The file system entry a path string names. *)
Definition resolve (w : world) (p : string) : path :=
  norm_comps (if Py.startswith "/" p then [] else cwd w) (Py.split_slash p).

(** [os.path.abspath(p)]: the normalised components, and whether the result
    keeps two leading slashes (which [normpath] does not collapse). *)
Definition os_path_abspath (w : world) (p : string) : bool * path :=
  (Py.startswith "//" p && negb (Py.startswith "///" p), resolve w p).

(** A path ending in a slash or a dot component names a directory only. *)
Definition wants_dir (p : string) : bool :=
  let c := List.last (Py.split_slash p) "" in
  bool_decide (c = "") || bool_decide (c = ".").

Definition lookup_path (w : world) (p : string) : outcome node :=
  if bool_decide (p = "") then Raise (OSError ENOENT)
  else match fs w !! resolve w p with
       | None => Raise (OSError ENOENT)
       | Some (File c m) =>
           if wants_dir p then Raise (OSError ENOTDIR) else Ok (File c m)
       | Some (Dir m) => Ok (Dir m)
       end.

Definition now (w : world) : Z := ticks w (tpos w).
Definition advance (w : world) : world := set_tpos (S (tpos w)) w.

(** Adding or removing an entry updates the directory's modification time. *)
Definition touch (t : Z) (k : path) (f : gmap path node) : gmap path node :=
  match f !! k with
  | Some (Dir _) => <[k := Dir t]> f
  | _ => f
  end.

(** Create or overwrite the regular file that [p] names. *)
Definition store (w : world) (p : string) (n : node) : outcome (gmap path node) :=
  let k := resolve w p in
  match fs w !! k with
  | Some (Dir _) => Raise (OSError EISDIR)
  | Some (File _ _) =>
      if wants_dir p then Raise (OSError ENOTDIR) else Ok (<[k := n]> (fs w))
  | None =>
      if bool_decide (p = "") then Raise (OSError ENOENT)
      else if wants_dir p then Raise (OSError EISDIR)
      else match fs w !! removelast k with
           | Some (Dir _) => Ok (<[k := n]> (touch (now w) (removelast k) (fs w)))
           | Some (File _ _) => Raise (OSError ENOTDIR)
           | None => Raise (OSError ENOENT)
           end
  end.

(** ** [os.path] queries *)

Definition os_path_exists (p : string) : M bool :=
  fun w => (Ok (if lookup_path w p is Ok _ then true else false), w).

Definition os_path_isdir (p : string) : M bool :=
  fun w => (Ok (if lookup_path w p is Ok (Dir _) then true else false), w).

Definition os_path_getmtime (p : string) : M Z :=
  fun w => match lookup_path w p with
           | Ok (File _ m) | Ok (Dir m) => (Ok m, w)
           | Raise e => (Raise e, w)
           end.

(** [os.path.abspath(p) == os.path.abspath(q)] *)
Definition same_abspath (p q : string) : M bool :=
  fun w => (Ok (bool_decide (os_path_abspath w p = os_path_abspath w q)), w).

(** ** [os.scandir] *)

Record DirEntry := {
  entry_name : string;
  entry_path : string;       (* [os.path.join(scandir_path, name)] *)
  entry_is_file : bool
}.

Definition children (f : gmap path node) (k : path) : list (string * node) :=
  omap (fun '(k', n) =>
          match k' with
          | [] => None
          | _ => if bool_decide (removelast k' = k)
                 then Some (List.last k' "", n) else None
          end) (map_to_list f).

Definition os_scandir (p : string) : M (list DirEntry) :=
  fun w => match lookup_path w p with
           | Ok (Dir _) =>
               (Ok (map (fun '(name, n) =>
                           {| entry_name := name;
                              entry_path := OsPath.join p name;
                              entry_is_file := if n is File _ _ then true else false |})
                        (children (fs w) (resolve w p))), w)
           | Ok (File _ _) => (Raise (OSError ENOTDIR), w)
           | Raise e => (Raise e, w)
           end.

(** ** Mutating calls *)

(** [os.makedirs]: create the missing directories along [pre ++ rest]. *)
Fixpoint mkdir_chain (t : Z) (pre : path) (rest : list string)
    (f : gmap path node) : outcome unit * gmap path node :=
  match rest with
  | [] => (Ok tt, f)
  | c :: rest' =>
      let k := pre ++ [c] in
      match f !! k with
      | Some (Dir _) =>
          if rest' is [] then (Raise (OSError EEXIST), f)
          else mkdir_chain t k rest' f
      | Some (File _ _) =>
          (Raise (OSError (if rest' is [] then EEXIST else ENOTDIR)), f)
      | None =>
          match f !! pre with
          | Some (Dir _) => mkdir_chain t k rest' (<[k := Dir t]> (touch t pre f))
          | Some (File _ _) => (Raise (OSError ENOTDIR), f)
          | None => (Raise (OSError ENOENT), f)
          end
      end
  end.

Definition os_makedirs (p : string) : M unit :=
  fun w =>
    let k := resolve w p in
    let w1 := log_event (EvMkdir k) w in
    if bool_decide (p = "") then (Raise (OSError ENOENT), w1)
    else match k with
         | [] => (Raise (OSError EEXIST), w1)
         | _ => let '(r, f') := mkdir_chain (now w) [] k (fs w) in
                (r, advance (set_fs f' w1))
         end.

(** [shutil.copy2(src, dst)]: contents and modification time are copied; a
    directory as [dst] receives the file under the source's base name.
    (The returned destination is not used by the program.) *)
Definition shutil_copy2 (src dst : string) : M unit :=
  fun w =>
    let dst' := if lookup_path w dst is Ok (Dir _)
                then OsPath.join dst (OsPath.basename src) else dst in
    let ks := resolve w src in
    let kd := resolve w dst' in
    let w1 := log_event (EvCopy ks kd) w in
    match lookup_path w src with
    | Raise e => (Raise e, w1)
    | Ok n =>
        if (if lookup_path w dst' is Ok _ then true else false)
           && bool_decide (ks = kd)
        then (Raise SameFileError, w1)
        else match n with
             | Dir _ => (Raise (OSError EISDIR), w1)
             | File c m =>
                 match store w dst' (File c m) with
                 | Ok f' => (Ok tt, advance (set_fs f' w1))
                 | Raise e => (Raise e, w1)
                 end
             end
    end.

(** [os.replace(src, dst)] for a regular file [src]; renaming a directory
    moves a subtree and is outside the model. *)
Definition os_replace (src dst : string) : M unit :=
  fun w =>
    let ks := resolve w src in
    let kd := resolve w dst in
    let w1 := log_event (EvReplace ks kd) w in
    match lookup_path w src with
    | Raise e => (Raise e, w1)
    | Ok (Dir _) => (Raise Unmodelled, w1)
    | Ok (File c m) =>
        if (if lookup_path w dst is Ok (File _ _) then true else false)
           && bool_decide (ks = kd)
        then (Ok tt, w1)
        else match store w dst (File c m) with
             | Ok f' =>
                 (Ok tt, advance (set_fs (touch (now w) (removelast ks) (delete ks f')) w1))
             | Raise e => (Raise e, w1)
             end
    end.

(** [os.remove(p)] *)
Definition os_remove (p : string) : M unit :=
  fun w =>
    let k := resolve w p in
    let w1 := log_event (EvRemove k) w in
    match lookup_path w p with
    | Raise e => (Raise e, w1)
    | Ok (Dir _) => (Raise (OSError EISDIR), w1)
    | Ok (File _ _) =>
        (Ok tt, advance (set_fs (touch (now w) (removelast k) (delete k (fs w))) w1))
    end.

(** [with open(p, "w") as f: json.dump(data, f)] *)
Definition write_json (p : string) (data : json) : M unit :=
  fun w =>
    let w1 := log_event (EvWrite (resolve w p)) w in
    match store w p (File (JsonDoc data) (now w)) with
    | Ok f' => (Ok tt, advance (set_fs f' w1))
    | Raise e => (Raise e, w1)
    end.

(** [with open(p, "r") as f: f.read()] *)
Definition read_file (p : string) : M content :=
  fun w => match lookup_path w p with
           | Ok (File c _) => (Ok c, w)
           | Ok (Dir _) => (Raise (OSError EISDIR), w)
           | Raise e => (Raise e, w)
           end.

(** ** [glob.glob] *)

(** [fnmatch] for patterns made of literal characters, [*] and [?]. *)
Fixpoint fnmatch (pat name : string) : bool :=
  match pat with
  | EmptyString => bool_decide (name = EmptyString)
  | String c pat' =>
      if bool_decide (c = "*"%char) then
        (fix star (n : string) : bool :=
           fnmatch pat' n
           || match n with
              | EmptyString => false
              | String _ n' => star n'
              end) name
      else match name with
           | EmptyString => false
           | String d name' =>
               (bool_decide (c = "?"%char) || bool_decide (c = d))
               && fnmatch pat' name'
           end
  end.

Definition has_magic (s : string) : bool :=
  Py.contains_char "*" s || Py.contains_char "?" s || Py.contains_char "[" s.

(** [glob.glob(pathname)].  Modelled for a literal directory part and a
    last component without character classes; other patterns are outside
    the model. *)
Definition glob_glob (pathname : string) : M (list string) :=
  fun w =>
    let '(dirname, basename) := OsPath.split pathname in
    if negb (has_magic pathname) then
      let found :=
        if bool_decide (basename = "")
        then (if lookup_path w dirname is Ok (Dir _) then true else false)
        else (if lookup_path w pathname is Ok _ then true else false) in
      (Ok (if found then [pathname] else []), w)
    else if has_magic dirname || Py.contains_char "[" basename
    then (Raise Unmodelled, w)
    else
      let names :=
        match os_scandir (if bool_decide (dirname = "") then "." else dirname) w with
        | (Ok entries, _) => map entry_name entries
        | (Raise _, _) => []
        end in
      let visible :=
        if Py.startswith "." basename then names
        else List.filter (fun n => negb (Py.startswith "." n)) names in
      (Ok (map (OsPath.join dirname) (List.filter (fnmatch basename) visible)), w).

(** ** Clock, output and the other libraries *)

(** [int(time.time())] *)
Definition time_time : M Z :=
  fun w => (Ok (now w), advance w).

Definition print (line : string) : M unit :=
  fun w => (Ok tt, log_stdout line w).

(** The libraries the program takes from outside: the regular expression
    engine ([None] stands for [re.error]) and the formatting of a clock
    reading. *)
Class Libs := {
  re_sub : string → string → string → option string;
                        (* [re.sub(pattern, repl, string)] *)
  strftime : string → Z → string
}.

(** [time.strftime(format)] *)
Definition time_strftime {libs : Libs} (format : string) : M string :=
  fun w => (Ok (strftime format (now w)), advance w).

(* ===================================================================== *)
(** * [bulk_file_renamer/renamer.py] *)
(* ===================================================================== *)

(** Python truthiness of an optional string ([None] and [""] are false). *)
Definition truthy (o : option string) : bool :=
  match o with
  | Some s => negb (bool_decide (s = ""))
  | None => false
  end.

(** [sorted(files)] on strings *)
Definition sorted (l : list string) : list string := merge_sort String.le l.

Module Config.

(** The attributes of a [BulkRenameConfig]. *)
Record t := {
  directory : string;
  prefix : string;
  suffix : string;
  numbering : bool;
  numbering_start : Z;
  numbering_padding : Z;
  timestamp : bool;
  timestamp_format : string;
  regex_pattern : option string;
  regex_replacement : option string;
  extensions : option (list string);
  dry_run : bool;
  backup_dir : option string;
  log_file : option string
}.

(** [BulkRenameConfig._normalize_extensions] *)
Fixpoint normalize_loop (extensions normalized : list string) : list string :=
  match extensions with
  | [] => normalized
  | ext :: rest =>
      if bool_decide (ext = "") then normalize_loop rest normalized
      else
        let ext := Py.lower ext in
        let ext := if negb (Py.startswith "." ext) then "." +:+ ext else ext in
        normalize_loop rest (normalized ++ [ext])
  end.

Definition _normalize_extensions (extensions : option (list string))
    : option (list string) :=
  match extensions with
  | None | Some [] => None
  | Some exts =>
      match normalize_loop exts [] with
      | [] => None
      | normalized => Some normalized
      end
  end.

(** [BulkRenameConfig.__init__], with the defaults of the signature
    supplied by the caller *)
Definition init (directory : string) (prefix suffix : option string)
    (numbering : bool) (numbering_start numbering_padding : Z)
    (timestamp : bool) (timestamp_format : string)
    (regex_pattern regex_replacement : option string)
    (extensions : option (list string)) (dry_run : bool)
    (backup_dir log_file : option string) : t :=
  {| directory := directory;
     prefix := if truthy prefix then default "" prefix else "";
     suffix := if truthy suffix then default "" suffix else "";
     numbering := numbering;
     numbering_start := numbering_start;
     numbering_padding := numbering_padding;
     timestamp := timestamp;
     timestamp_format := timestamp_format;
     regex_pattern := regex_pattern;
     regex_replacement := regex_replacement;
     extensions := _normalize_extensions extensions;
     dry_run := dry_run;
     backup_dir := backup_dir;
     log_file := log_file |}.

(** [BulkRenameConfig.validate] *)
Definition validate (self : t) : M unit :=
  if bool_decide (directory self = "")
  then raise (ValueError DirectoryRequired)
  else
    let* found := os_path_exists (directory self) in
    if negb found then raise (ValueError DirectoryNotFound)
    else
      let* isdir := os_path_isdir (directory self) in
      if negb isdir then raise (ValueError PathNotDirectory)
      else if numbering self && (numbering_padding self <? 0)
      then raise (ValueError PaddingNegative)
      else if numbering self && (numbering_start self <? 0)
      then raise (ValueError StartNegative)
      else if negb (Bool.eqb (truthy (regex_pattern self))
                             (truthy (regex_replacement self)))
      then raise (ValueError RegexPairRequired)
      else ret tt.

End Config.

(** One row of the plan and of the log: the four keys every record has and
    the two keys the engine adds. *)
Record RenameRecord := {
  original_name : string;
  new_name : string;
  original_path : string;
  new_path : string;
  skipped : option string;
  renamed_at : option string
}.

Module Result.
(** The dictionary [rename_files] returns. *)
Record t := {
  renamed_count : Z;
  backup_dir : option string;
  log_file : option string;
  dry_run : bool;
  records : list RenameRecord
}.
End Result.

(** The entries [_collect_files] keeps, in scan order. *)
Definition keeps (extensions : option (list string)) (entry : DirEntry) : bool :=
  entry_is_file entry
  && match extensions with
     | Some ((_ :: _) as exts) =>
         let ext := snd (OsPath.splitext (entry_name entry)) in
         bool_decide (Py.lower ext ∈ exts)
     | _ => true
     end.

(** [_collect_files] *)
Definition _collect_files (directory : string) (extensions : option (list string))
    : M (list string) :=
  let* files :=
    try_except
      (let* entries := os_scandir directory in
       ret (map entry_path (List.filter (keeps extensions) entries)))
      (fun e => if e is PermissionError _ then true else false)
      (fun _ => raise (PermissionError directory)) in
  ret (sorted files).

(** [_ensure_directory] *)
Definition _ensure_directory (path : string) : M unit :=
  let* found := os_path_exists path in
  if negb found then os_makedirs path else ret tt.

Definition record_to_json (r : RenameRecord) : json :=
  JObj ([("original_name", JStr (original_name r));
         ("new_name", JStr (new_name r));
         ("original_path", JStr (original_path r));
         ("new_path", JStr (new_path r))]
        ++ (if skipped r is Some s then [("skipped", JStr s)] else [])
        ++ (if renamed_at r is Some s then [("renamed_at", JStr s)] else [])).

Section Renamer.
Context {libs : Libs}.

(** [_build_new_name] *)
Definition _build_new_name (original_name : string) (config : Config.t)
    (counter : Z) : M string :=
  let '(stem, extension) := OsPath.splitext original_name in
  let new_stem := stem in
  let* new_stem :=
    if truthy (Config.regex_pattern config)
       && truthy (Config.regex_replacement config)
    then match re_sub (default "" (Config.regex_pattern config))
                      (default "" (Config.regex_replacement config)) new_stem with
         | Some s => ret s
         | None => raise (ValueError InvalidRegex)
         end
    else ret new_stem in
  if bool_decide (new_stem = "")
  then raise (ValueError (EmptyFileName original_name))
  else
    let new_stem :=
      if negb (bool_decide (Config.prefix config = ""))
      then Config.prefix config +:+ new_stem else new_stem in
    let new_stem :=
      if negb (bool_decide (Config.suffix config = ""))
      then new_stem +:+ Config.suffix config else new_stem in
    let new_stem :=
      if Config.numbering config then
        let padding := Z.max 0 (Config.numbering_padding config) in
        let number_token :=
          if negb (padding =? 0) then Py.zfill padding (Py.str counter)
          else Py.str counter in
        new_stem +:+ number_token
      else new_stem in
    let* new_stem :=
      if Config.timestamp config then
        let* formatted := time_strftime (Config.timestamp_format config) in
        ret (new_stem +:+ Py.replace_char " " "_" formatted)
      else ret new_stem in
    ret (new_stem +:+ extension).

(** [_write_log] *)
Definition _write_log (log_path : string) (records : list RenameRecord) : M unit :=
  let* generated_at := time_strftime "%Y-%m-%d %H:%M:%S" in
  write_json log_path
    (JObj [("renamed_files", JList (map record_to_json records));
           ("generated_at", JStr generated_at)]).

(** The body of the loop of [rename_files] for one file: the record it
    appends. *)
Definition rename_one (config : Config.t) (backup_dir : string)
    (file_path : string) (counter : Z) : M RenameRecord :=
  let original_name := OsPath.basename file_path in
  let* new_name := _build_new_name original_name config counter in
  let new_path := OsPath.join (Config.directory config) new_name in
  let record := {| original_name := original_name;
                   new_name := new_name;
                   original_path := file_path;
                   new_path := new_path;
                   skipped := None;
                   renamed_at := None |} in
  if Config.dry_run config then
    print ("[DRY-RUN] " +:+ original_name +:+ " -> " +:+ new_name);;
    ret record
  else
    let* same := same_abspath file_path new_path in
    if same then
      ret {| original_name := original_name;
             new_name := new_name;
             original_path := file_path;
             new_path := new_path;
             skipped := Some "Name unchanged.";
             renamed_at := None |}
    else
      let* taken := os_path_exists new_path in
      if taken then raise (FileExistsError new_path)
      else
        _ensure_directory backup_dir;;
        let backup_path := OsPath.join backup_dir original_name in
        shutil_copy2 file_path backup_path;;
        os_replace file_path new_path;;
        let* stamp := time_strftime "%Y-%m-%d %H:%M:%S" in
        ret {| original_name := original_name;
               new_name := new_name;
               original_path := file_path;
               new_path := new_path;
               skipped := None;
               renamed_at := Some stamp |}.

(** The loop of [rename_files] over the collected files. *)
Fixpoint rename_loop (config : Config.t) (backup_dir : string)
    (files : list string) (counter : Z) (rename_records : list RenameRecord)
    : M (list RenameRecord) :=
  match files with
  | [] => ret rename_records
  | file_path :: rest =>
      let* record := rename_one config backup_dir file_path counter in
      let counter := if Config.numbering config then counter + 1 else counter in
      rename_loop config backup_dir rest counter (rename_records ++ [record])
  end.

(** [rename_files] *)
Definition rename_files (config : Config.t) : M Result.t :=
  Config.validate config;;
  let* files := _collect_files (Config.directory config) (Config.extensions config) in
  if files is [] then raise (ValueError NoFilesFound)
  else
    let* backup_dir :=
      if truthy (Config.backup_dir config)
      then ret (default "" (Config.backup_dir config))
      else let* t := time_time in
           ret (OsPath.join (Config.directory config) ("backup_" +:+ Py.str t)) in
    let* log_file :=
      if truthy (Config.log_file config)
      then ret (default "" (Config.log_file config))
      else let* t := time_time in
           ret (OsPath.join (Config.directory config)
                  ("rename_log_" +:+ Py.str t +:+ ".json")) in
    let* rename_records :=
      rename_loop config backup_dir files (Config.numbering_start config) [] in
    (if negb (Config.dry_run config) then _write_log log_file rename_records
     else ret tt);;
    ret {| Result.renamed_count := Z.of_nat (length rename_records);
           Result.backup_dir :=
             if negb (Config.dry_run config) then Some backup_dir else None;
           Result.log_file :=
             if negb (Config.dry_run config) then Some log_file else None;
           Result.dry_run := Config.dry_run config;
           Result.records := rename_records |}.

End Renamer.

(* ===================================================================== *)
(** * [undo.py] *)
(* ===================================================================== *)

(** ** Python values read back from the log *)

(** Truthiness of a value. *)
Definition py_truthy (j : json) : bool :=
  match j with
  | JNull => false
  | JBool b => b
  | JNum n => negb (n =? 0)
  | JStr s => negb (bool_decide (s = ""))
  | JList items => if items is [] then false else true
  | JObj fields => if fields is [] then false else true
  end.

(** Lookup in a dictionary built by [json.load]: a repeated key keeps its
    last value. *)
Fixpoint dict_lookup (key : string) (fields : list (string * json)) : option json :=
  match fields with
  | [] => None
  | (k, v) :: rest =>
      match dict_lookup key rest with
      | Some v' => Some v'
      | None => if bool_decide (k = key) then Some v else None
      end
  end.

(** [obj.get(key, default)]; only dictionaries have [get]. *)
Definition py_get (obj : json) (key : string) (dflt : json) : M json :=
  match obj with
  | JObj fields => ret (default dflt (dict_lookup key fields))
  | _ => raise AttributeError
  end.

(** [obj[0]] on a truthy value *)
Definition py_first (obj : json) : M json :=
  match obj with
  | JList (x :: _) => ret x
  | JStr (String c _) => ret (JStr (String c EmptyString))
  | JObj _ => raise KeyError
  | _ => raise TypeError
  end.

(** [for record in obj] *)
Definition py_iter (obj : json) : M (list json) :=
  match obj with
  | JList items => ret items
  | JStr s => ret (map (fun c => JStr (String c EmptyString)) (list_ascii_of_string s))
  | JObj fields => ret (map (fun kv => JStr (fst kv)) fields)
  | _ => raise TypeError
  end.

(** A value used as a path; other values than strings raise [TypeError]. *)
Definition py_path (j : json) : M string :=
  match j with
  | JStr s => ret s
  | _ => raise TypeError
  end.

(** ** Results *)

(** The status lines of the per-record details. *)
Inductive undo_status :=
  | SkippedNotRenamed            (* "Skipped (was not renamed)" *)
  | BackupFileNotFound           (* "Backup file not found: ..." *)
  | CurrentFileMissing           (* "Current file missing: ..." *)
  | RestoredSuccessfully         (* "Restored successfully" *)
  | ErrorStatus (e : exn).       (* "Error: ..." *)

(** The error messages of the result. *)
Inductive undo_error :=
  | NoLogFiles                   (* "No rename log files found in directory." *)
  | FailedToReadLog              (* "Failed to read log file: ..." *)
  | NoRenameRecords              (* "Log file contains no rename records." *)
  | FormatInvalid                (* "Log file format invalid (missing original_path)." *)
  | NoBackupDirectories          (* "No backup directories found in ..." *)
  | BackupDirectoryNotFound      (* "Backup directory not found: ..." *)
  | NoFilesRestored.             (* "No files could be restored. ..." *)

Module Detail.
Record t := {
  original_name : json;
  status : undo_status
}.
End Detail.

Module UndoResult.
(** The dictionary [undo_rename] returns; [error_message] is [None] for
    the empty string. *)
Record t := {
  success : bool;
  restored_count : Z;
  skipped_count : Z;
  error_message : option undo_error;
  log_file : string;
  backup_dir : string;
  details : list Detail.t
}.

Definition failed (msg : undo_error) (log_file backup_dir : string) : t :=
  {| success := false; restored_count := 0; skipped_count := 0;
     error_message := Some msg; log_file := log_file;
     backup_dir := backup_dir; details := [] |}.
End UndoResult.

(** ** Discovery *)

Fixpoint mapM {A B} (f : A → M B) (l : list A) : M (list B) :=
  match l with
  | [] => ret []
  | x :: xs => let* y := f x in let* ys := mapM f xs in ret (y :: ys)
  end.

(** [l.sort(key=..., reverse=True)] on (element, key) pairs: descending,
    elements with equal keys keep their order. *)
Fixpoint insert_desc (x : string * Z) (l : list (string * Z)) : list (string * Z) :=
  match l with
  | [] => [x]
  | y :: ys => if snd x <? snd y then y :: insert_desc x ys else x :: y :: ys
  end.

Definition sort_desc (l : list (string * Z)) : list (string * Z) :=
  foldr insert_desc [] l.

(** [paths.sort(key=os.path.getmtime, reverse=True)] *)
Definition sort_by_mtime_desc (paths : list string) : M (list string) :=
  let* keys := mapM os_path_getmtime paths in
  ret (map fst (sort_desc (zip paths keys))).

(** [find_latest_log] *)
Definition find_latest_log (directory : string) : M (option string) :=
  let log_pattern := OsPath.join directory "rename_log_*.json" in
  let* log_files := glob_glob log_pattern in
  if log_files is [] then ret None
  else
    let* log_files := sort_by_mtime_desc log_files in
    ret (head log_files).

(** [load_rename_log]; Python's [None] is [JNull]. *)
Definition load_rename_log (log_file : string) : M json :=
  try_except
    (let* text := read_file log_file in
     match text with
     | JsonDoc data => ret data
     | Raw _ => raise JSONDecodeError
     end)
    (fun e => match e with
              | OSError ENOENT | JSONDecodeError => true
              | _ => false
              end)
    (fun _ => ret JNull).

(** The backup directory [undo_rename] uses: the most recently modified
    [backup_*] entry beside the first record's original path. *)
Definition find_backup_dir (original_path : string) : M (option string) :=
  let parent_dir := OsPath.dirname original_path in
  let backup_pattern := OsPath.join parent_dir "backup_*" in
  let* backup_dirs := glob_glob backup_pattern in
  if backup_dirs is [] then ret None
  else
    let* backup_dirs := sort_by_mtime_desc backup_dirs in
    ret (head backup_dirs).

(** ** Restoration *)

(** The body of the loop of [undo_rename] for one record: whether it was
    restored, and its detail. *)
Definition restore_one (backup_dir : string) (record : json) : M (bool * Detail.t) :=
  let* original_name := py_get record "original_name" (JStr "") in
  let* new_name := py_get record "new_name" (JStr "") in
  let* original_path := py_get record "original_path" (JStr "") in
  let* new_path := py_get record "new_path" (JStr "") in
  let detail st := {| Detail.original_name := original_name; Detail.status := st |} in
  let* was_skipped := py_get record "skipped" JNull in
  if py_truthy was_skipped then ret (false, detail SkippedNotRenamed)
  else
    let* name := py_path original_name in
    let backup_file_path := OsPath.join backup_dir name in
    let* have_backup := os_path_exists backup_file_path in
    if negb have_backup then ret (false, detail BackupFileNotFound)
    else
      let* current := py_path new_path in
      let* have_current := os_path_exists current in
      if negb have_current then ret (false, detail CurrentFileMissing)
      else
        try_except
          (let* target := py_path original_path in
           shutil_copy2 backup_file_path target;;
           let* still := os_path_exists current in
           (if still && negb (bool_decide (current = target))
            then os_remove current else ret tt);;
           ret (true, detail RestoredSuccessfully))
          (fun _ => true)
          (fun e => ret (false, detail (ErrorStatus e))).

(** The loop of [undo_rename]: the counters and the details. *)
Fixpoint restore_loop (backup_dir : string) (renamed_files : list json)
    (restored skipped : Z) (details : list Detail.t)
    : M (Z * Z * list Detail.t) :=
  match renamed_files with
  | [] => ret (restored, skipped, details)
  | record :: rest =>
      let* '(ok, detail) := restore_one backup_dir record in
      if ok then restore_loop backup_dir rest (restored + 1) skipped (details ++ [detail])
      else restore_loop backup_dir rest restored (skipped + 1) (details ++ [detail])
  end.

(** [undo_rename] *)
Definition undo_rename (directory : string) (log_file : option string)
    : M UndoResult.t :=
  let* found :=
    match log_file with
    | None => find_latest_log directory
    | Some l => ret (Some l)
    end in
  match found with
  | None => ret (UndoResult.failed NoLogFiles "" "")
  | Some log_file =>
      let* log_data := load_rename_log log_file in
      if log_data is JNull then ret (UndoResult.failed FailedToReadLog log_file "")
      else
        let* renamed_files := py_get log_data "renamed_files" (JList []) in
        if negb (py_truthy renamed_files)
        then ret (UndoResult.failed NoRenameRecords log_file "")
        else
          let* first_record := py_first renamed_files in
          let* original_path := py_get first_record "original_path" (JStr "") in
          if negb (py_truthy original_path)
          then ret (UndoResult.failed FormatInvalid log_file "")
          else
            let* first_path := py_path original_path in
            let* backup := find_backup_dir first_path in
            match backup with
            | None => ret (UndoResult.failed NoBackupDirectories log_file "")
            | Some backup_dir =>
                let* present := os_path_exists backup_dir in
                if negb present
                then ret (UndoResult.failed BackupDirectoryNotFound log_file backup_dir)
                else
                  let* records := py_iter renamed_files in
                  let* '(restored, skipped, details) :=
                    restore_loop backup_dir records 0 0 [] in
                  ret {| UndoResult.success := 0 <? restored;
                         UndoResult.restored_count := restored;
                         UndoResult.skipped_count := skipped;
                         UndoResult.error_message :=
                           if restored =? 0 then Some NoFilesRestored else None;
                         UndoResult.log_file := log_file;
                         UndoResult.backup_dir := backup_dir;
                         UndoResult.details := details |}
            end
  end.

(* ===================================================================== *)
(** * [bulk_file_renamer/cli.py] *)
(* ===================================================================== *)


Module Cli.






End Cli.


(* ===================================================================== *)
(** * [utils.py] *)
(* ===================================================================== *)

Module Utils.

(** The characters [str.strip] and [str.split] take for white space, on
    the ASCII range: tab to carriage return, the four separators and the
    space. *)
Definition is_space (c : ascii) : bool :=
  let n := nat_of_ascii c in
  ((9 <=? n) && (n <=? 13) || (28 <=? n) && (n <=? 32))%nat.

Fixpoint lstrip (s : string) : string :=
  match s with
  | EmptyString => EmptyString
  | String c s' => if is_space c then lstrip s' else s
  end.

Fixpoint rstrip (s : string) : string :=
  match s with
  | EmptyString => EmptyString
  | String c s' =>
      let r := rstrip s' in
      if bool_decide (r = EmptyString) && is_space c then EmptyString
      else String c r
  end.

(** [s.strip()] *)
Definition strip (s : string) : string := lstrip (rstrip s).

(** [s.split()]: the maximal runs of characters that are not white space *)
Fixpoint split (s : string) : list string :=
  match s with
  | EmptyString => []
  | String c s' =>
      let rest := split s' in
      if is_space c then rest
      else match s' with
           | EmptyString => [String c EmptyString]
           | String d _ =>
               if is_space d then String c EmptyString :: rest
               else match rest with
                    | token :: tokens => String c token :: tokens
                    | [] => [String c EmptyString]
                    end
           end
  end.



(** The messages of the [ValueError]s of [validate_directory]. *)
Inductive directory_error :=
  | PathEmpty                    (* "Directory path cannot be empty." *)
  | NotFound                     (* "Directory not found: ..." *)
  | NotADirectory.               (* "Path is not a directory: ..." *)

(** [validate_directory]: [inr True], or the [ValueError] it raises. *)
Definition validate_directory (path : string) : M (directory_error + bool) :=
  if bool_decide (path = "") || bool_decide (strip path = "")
  then ret (inl PathEmpty)
  else
    let* found := os_path_exists path in
    if negb found then ret (inl NotFound)
    else
      let* isdir := os_path_isdir path in
      if negb isdir then ret (inl NotADirectory)
      else ret (inr true).

(** [get_default_backup_dir] *)
Definition get_default_backup_dir (target_directory : string) : M string :=
  let* t := time_time in
  ret (OsPath.join target_directory ("backup_" +:+ Py.str t)).

(** [get_default_log_file] *)
Definition get_default_log_file (target_directory : string) : M string :=
  let* t := time_time in
  ret (OsPath.join target_directory ("rename_log_" +:+ Py.str t +:+ ".json")).

End Utils.

(* ===================================================================== *)
(** * Vocabulary of the specification *)
(* ===================================================================== *)

(** [m] moves the world only along [R]. *)
Definition preserves {A} (R : relation world) (m : M A) : Prop :=
  ∀ w, R w (snd (m w)).

(** Nothing on disk changed and no system call that could change it was
    issued; the clock and the standard output may have moved. *)
Definition same_disk (w w' : world) : Prop :=
  fs w' = fs w ∧ cwd w' = cwd w ∧ trace w' = trace w ∧ ticks w' = ticks w.

(** The decimal digits of [n], padded with zeros on the left to [width]
    characters when they are fewer. *)
Definition padded (width n : Z) : string :=
  Py.zeros (Z.to_nat (width - Py.len (Py.str n))) +:+ Py.str n.

Section RunVocabulary.
Context {libs : Libs}.

(** The counter after one more file. *)
Definition next_counter (config : Config.t) (counter : Z) : Z :=
  if Config.numbering config then counter + 1 else counter.

(** The counter after [i] more files. *)
Definition counter_after (config : Config.t) (counter : Z) (i : nat) : Z :=
  if Config.numbering config then counter + Z.of_nat i else counter.

(** A run of the loop in which every file yields its record. *)
Inductive loop_run (config : Config.t) (backup_dir : string)
    : list string → Z → world → list RenameRecord → world → Prop :=
  | loop_run_nil counter w :
      loop_run config backup_dir [] counter w [] w
  | loop_run_cons file_path files counter w record w1 records w' :
      rename_one config backup_dir file_path counter w = (Ok record, w1) →
      loop_run config backup_dir files (next_counter config counter) w1 records w' →
      loop_run config backup_dir (file_path :: files) counter w (record :: records) w'.

(** What [rename_files] does before the loop: validation, discovery and
    the names of the backup directory and of the log. *)
Definition prepare (config : Config.t) : M (list string * string * string) :=
  Config.validate config;;
  let* files := _collect_files (Config.directory config) (Config.extensions config) in
  if files is [] then raise (ValueError NoFilesFound)
  else
    let* backup_dir :=
      if truthy (Config.backup_dir config)
      then ret (default "" (Config.backup_dir config))
      else let* t := time_time in
           ret (OsPath.join (Config.directory config) ("backup_" +:+ Py.str t)) in
    let* log_file :=
      if truthy (Config.log_file config)
      then ret (default "" (Config.log_file config))
      else let* t := time_time in
           ret (OsPath.join (Config.directory config)
                  ("rename_log_" +:+ Py.str t +:+ ".json")) in
    ret (files, backup_dir, log_file).

(** What [rename_files] does after the loop. *)
Definition finish (config : Config.t) (backup_dir log_file : string)
    (rename_records : list RenameRecord) : M Result.t :=
  (if negb (Config.dry_run config) then _write_log log_file rename_records
   else ret tt);;
  ret {| Result.renamed_count := Z.of_nat (length rename_records);
         Result.backup_dir :=
           if negb (Config.dry_run config) then Some backup_dir else None;
         Result.log_file :=
           if negb (Config.dry_run config) then Some log_file else None;
         Result.dry_run := Config.dry_run config;
         Result.records := rename_records |}.

(** The stem after the regular expression. *)
Definition regex_active (config : Config.t) : bool :=
  truthy (Config.regex_pattern config) && truthy (Config.regex_replacement config).

Definition substituted (config : Config.t) (stem : string) : option string :=
  if regex_active config
  then re_sub (default "" (Config.regex_pattern config))
              (default "" (Config.regex_replacement config)) stem
  else Some stem.

(** The three ways in which [rename_one] yields a record. *)
Inductive step_kind (config : Config.t) (backup_dir : string)
    (w1 : world) (r : RenameRecord) (w' : world) : Prop :=
  | step_dry_run :
      Config.dry_run config = true →
      skipped r = None → renamed_at r = None →
      w' = log_stdout ("[DRY-RUN] " +:+ original_name r +:+ " -> " +:+ new_name r) w1 →
      step_kind config backup_dir w1 r w'
  | step_skipped :
      Config.dry_run config = false →
      os_path_abspath w1 (original_path r) = os_path_abspath w1 (new_path r) →
      skipped r = Some "Name unchanged." → renamed_at r = None →
      w' = w1 →
      step_kind config backup_dir w1 r w'
  | step_renamed w2 w3 w4 :
      Config.dry_run config = false →
      os_path_abspath w1 (original_path r) ≠ os_path_abspath w1 (new_path r) →
      os_path_exists (new_path r) w1 = (Ok false, w1) →
      _ensure_directory backup_dir w1 = (Ok tt, w2) →
      shutil_copy2 (original_path r) (OsPath.join backup_dir (original_name r)) w2
      = (Ok tt, w3) →
      os_replace (original_path r) (new_path r) w3 = (Ok tt, w4) →
      skipped r = None →
      renamed_at r = Some (strftime "%Y-%m-%d %H:%M:%S" (now w4)) →
      w' = advance w4 →
      step_kind config backup_dir w1 r w'.

End RunVocabulary.

(* ===================================================================== *)
(** * Example worlds *)
(* ===================================================================== *)

(** A regular expression engine known on the listed (pattern, replacement,
    subject, result) rows, which are what [re.sub] returns for them; any
    other subject is taken not to match and comes back unchanged. *)
Definition regex_rows : list (string * string * string * string) :=
  [ ("^IMG_", "Photo_", "IMG_001", "Photo_001");
    ("^IMG_", "Photo_", "notes", "notes");
    ("^(z*)b$", "\1", "a", "a");
    ("^(z*)b$", "\1", "pa", "pa");
    ("^(z*)b$", "\1", "b", "");
    ("^(z*)x$", "\1", "x", "") ].

Definition rows_re_sub (pattern repl subject : string) : option string :=
  match List.find (fun '(p, r, s, _) =>
                     bool_decide (p = pattern) && bool_decide (r = repl)
                     && bool_decide (s = subject)) regex_rows with
  | Some (_, _, _, out) => Some out
  | None => Some subject
  end.

(** The libraries of the examples; the formatter is a stand-in that prints
    the format and the reading, no example depends on its text. *)
Definition example_libs : Libs :=
  {| re_sub := rows_re_sub;
     strftime := fun format t => format +:+ "@" +:+ Py.str t |}.

(** A world with the given entries, the root as working directory, a clock
    that advances by one second per reading, and nothing done yet. *)
Definition example_world (entries : list (path * node)) : world :=
  {| fs := list_to_map entries;
     cwd := [];
     ticks := fun n => 1700000000 + Z.of_nat n;
     tpos := 0;
     trace := [];
     stdout := [] |}.

(** The configuration with every option at its default. *)
Definition default_config (directory : string) : Config.t :=
  Config.init directory None None false 1 3 false "%Y%m%d%H%M%S"
    None None None false None None.

(** [/photos] with one picture and one text file; the pattern renames the
    picture and leaves the text file alone. *)
Definition photos_world : world :=
  example_world
    [ ([], Dir 0); (["photos"], Dir 10);
      (["photos"; "IMG_001.jpg"], File (Raw "jpeg bytes") 20);
      (["photos"; "notes.txt"], File (Raw "remember") 30) ].

Definition photos_config : Config.t :=
  Config.init "/photos" None None false 1 3 false "%Y%m%d%H%M%S"
    (Some "^IMG_") (Some "Photo_") None false None None.

Definition photos_result : Result.t :=
  {| Result.renamed_count := 2;
     Result.backup_dir := Some "/photos/backup_1700000000";
     Result.log_file := Some "/photos/rename_log_1700000001.json";
     Result.dry_run := false;
     Result.records :=
       [ {| original_name := "IMG_001.jpg"; new_name := "Photo_001.jpg";
            original_path := "/photos/IMG_001.jpg";
            new_path := "/photos/Photo_001.jpg";
            skipped := None;
            renamed_at := Some "%Y-%m-%d %H:%M:%S@1700000005" |};
         {| original_name := "notes.txt"; new_name := "notes.txt";
            original_path := "/photos/notes.txt";
            new_path := "/photos/notes.txt";
            skipped := Some "Name unchanged.";
            renamed_at := None |} ] |}.

(** [/docs] with the three files [a.txt], [b.txt], [c.txt], numbered from 5
    with width 3, as a dry run. *)
Definition docs_world : world :=
  example_world
    [ ([], Dir 0); (["docs"], Dir 10);
      (["docs"; "b.txt"], File (Raw "bbb") 21);
      (["docs"; "c.txt"], File (Raw "ccc") 22);
      (["docs"; "a.txt"], File (Raw "aaa") 20) ].

Definition docs_config (dry_run : bool) : Config.t :=
  Config.init "/docs" None None true 5 3 false "%Y%m%d%H%M%S"
    None None None dry_run None None.

(** The new names of a plan, when there is one. *)
Definition planned_names (o : outcome Result.t) : option (list string) :=
  match o with
  | Ok res => Some (map new_name (Result.records res))
  | Raise _ => None
  end.

Definition docs_record_c : RenameRecord :=
  {| original_name := "c.txt"; new_name := "c007.txt";
     original_path := "/docs/c.txt"; new_path := "/docs/c007.txt";
     skipped := None; renamed_at := None |}.

(** The plan of the dry run over [/docs]. *)
Definition docs_plan : Result.t :=
  {| Result.renamed_count := 3;
     Result.backup_dir := None;
     Result.log_file := None;
     Result.dry_run := true;
     Result.records :=
       [ {| original_name := "a.txt"; new_name := "a005.txt";
            original_path := "/docs/a.txt"; new_path := "/docs/a005.txt";
            skipped := None; renamed_at := None |};
         {| original_name := "b.txt"; new_name := "b006.txt";
            original_path := "/docs/b.txt"; new_path := "/docs/b006.txt";
            skipped := None; renamed_at := None |};
         docs_record_c ] |}.

(* ===================================================================== *)
(** * Observations of the file system *)
(* ===================================================================== *)

(** The regular file at an entry: its contents and modification time. *)
Definition file_at (f : gmap path node) (k : path) : option (content * Z) :=
  match f !! k with
  | Some (File c m) => Some (c, m)
  | _ => None
  end.

(** Whether an entry is a directory. *)
Definition dir_at (f : gmap path node) (k : path) : bool :=
  if f !! k is Some (Dir _) then true else false.

Definition is_write (e : event) : bool :=
  if e is EvWrite _ then true else false.

(** From [w] to [w'] no file was written with new contents: every regular
    file of [w'] is a copy, contents and modification time, of a file of
    [w], and no write was issued. *)
Definition no_new_content (w w' : world) : Prop :=
  cwd w' = cwd w
  ∧ (∃ evs, trace w' = trace w ++ evs ∧ Forall (fun e => is_write e = false) evs)
  ∧ ∀ k d, file_at (fs w') k = Some d → ∃ k', file_at (fs w) k' = Some d.

(** The world after a system call, apart from its files. *)
Definition after_call (e : event) (w w' : world) : Prop :=
  cwd w' = cwd w ∧ ticks w' = ticks w ∧ trace w' = trace w ++ [e].

(** [/inbox] with [a.txt], [b.txt] and [pb.txt]; the prefix [p] renames
    [a.txt] and then finds [pb.txt] taken. *)
Definition inbox_world : world :=
  example_world
    [ ([], Dir 0); (["inbox"], Dir 10);
      (["inbox"; "a.txt"], File (Raw "alpha") 20);
      (["inbox"; "b.txt"], File (Raw "beta") 21);
      (["inbox"; "pb.txt"], File (Raw "old") 22) ].

Definition inbox_config : Config.t :=
  Config.init "/inbox" (Some "p") None false 1 3 false "%Y%m%d%H%M%S"
    None None None false None None.

(** The world when the loop of that run starts, and after the record of
    [a.txt]. *)
Definition inbox_prepared : world := (prepare inbox_config inbox_world).2.

Definition inbox_record_a : RenameRecord :=
  {| original_name := "a.txt"; new_name := "pa.txt";
     original_path := "/inbox/a.txt"; new_path := "/inbox/pa.txt";
     skipped := None; renamed_at := Some "%Y-%m-%d %H:%M:%S@1700000005" |}.

Definition inbox_after_a : world :=
  (rename_loop (libs := example_libs) inbox_config "/inbox/backup_1700000000"
     ["/inbox/a.txt"] 1 [] inbox_prepared).2.






(* ===================================================================== *)
(** * Repeated calls *)
(* ===================================================================== *)



(** The paths discovery keeps, in scan order. *)
Definition matching (extensions : option (list string)) (entries : list DirEntry)
    : list string :=
  map entry_path (List.filter (keeps extensions) entries).



(* ===================================================================== *)
(** * Undo: vocabulary *)
(* ===================================================================== *)

(** The world is exactly as it was. *)
Definition unchanged (w w' : world) : Prop := w' = w.

(** The log [undo_rename] works from: the one it is given, or the one
    [find_latest_log] selects. *)
Definition chosen_log (directory : string) (log_file : option string) (w : world)
    (chosen : string) : Prop :=
  log_file = Some chosen
  ∨ (log_file = None ∧ find_latest_log directory w = (Ok (Some chosen), w)).


(** [/inbox] after [a.txt] was renamed to [pa.txt], with its backup and a
    log whose second record has none of the fields of a record. *)
Definition edited_log : json :=
  JObj [ ("renamed_files",
          JList [ JObj [ ("original_name", JStr "a.txt");
                         ("new_name", JStr "pa.txt");
                         ("original_path", JStr "/inbox/a.txt");
                         ("new_path", JStr "/inbox/pa.txt");
                         ("renamed_at", JStr "2024-01-01 10:00:00") ];
                  JObj [] ]);
         ("generated_at", JStr "2024-01-01 10:00:00") ].

Definition edited_log_world : world :=
  example_world
    [ ([], Dir 0); (["inbox"], Dir 40);
      (["inbox"; "pa.txt"], File (Raw "alpha") 20);
      (["inbox"; "backup_1704103200"], Dir 30);
      (["inbox"; "backup_1704103200"; "a.txt"], File (Raw "alpha") 20);
      (["inbox"; "rename_log_1704103200.json"], File (JsonDoc edited_log) 40) ].

(** [/inbox] with a log file that holds the JSON array [[]], and with a
    directory named like a log. *)
Definition array_log_world : world :=
  example_world
    [ ([], Dir 0); (["inbox"], Dir 40);
      (["inbox"; "rename_log_1704103200.json"], File (JsonDoc (JList [])) 40) ].

Definition directory_log_world : world :=
  example_world
    [ ([], Dir 0); (["inbox"], Dir 40);
      (["inbox"; "rename_log_1704103200.json"], Dir 40) ].

(* ===================================================================== *)
(** * Round trip: vocabulary *)
(* ===================================================================== *)

(** The file system entries a record is about: where the file was, where
    it went, and where its backup copy is. *)
Definition orig_key (w : world) (r : RenameRecord) : path :=
  resolve w (original_path r).
Definition new_key (w : world) (r : RenameRecord) : path :=
  resolve w (new_path r).
Definition backup_key (w : world) (bd : string) (r : RenameRecord) : path :=
  resolve w (OsPath.join bd (original_name r)).

(** A record the engine renamed, as opposed to one it marked skipped. *)
Definition renamed (r : RenameRecord) : bool :=
  if skipped r is None then true else false.

Definition locations (w : world) (bd : string) (r : RenameRecord) : list path :=
  if renamed r then [orig_key w r; new_key w r; backup_key w bd r] else [].

(** The regular files of a file system, by entry. *)
Abbreviation files := (path → option (content * Z)).

(** What applying one record does to the files: the backup copy, then the
    move. *)
Definition apply_effect (w : world) (bd : string) (f : files) (r : RenameRecord) : files :=
  if renamed r then
    fun k => if decide (k = new_key w r) then f (orig_key w r)
             else if decide (k = orig_key w r) then None
             else if decide (k = backup_key w bd r) then f (orig_key w r)
             else f k
  else f.

(** What undoing one record does to the files: the copy back, then the
    removal of the renamed file. *)
Definition undo_effect (w : world) (bd : string) (f : files) (r : RenameRecord) : files :=
  if renamed r then
    fun k => if decide (k = new_key w r) then None
             else if decide (k = orig_key w r) then f (backup_key w bd r)
             else f k
  else f.

(** The file system is a tree: whatever exists is in a directory, the root
    (which is its own parent) being one. *)
Definition is_tree (f : gmap path node) : Prop :=
  ∀ k n, f !! k = Some n → dir_at f (removelast k) = true.

(** The number of records that are marked skipped. *)
Definition skipped_records (recs : list RenameRecord) : Z :=
  Z.of_nat (length (List.filter (fun r => negb (renamed r)) recs)).

(** The conditions under which the records of a run can be told apart on
    disk: the log file and, for the renamed records, the original paths,
    the destinations and the backup copies are pairwise distinct entries;
    none of them is the backup directory or a directory above it; and no
    directory sits where a backup copy goes. *)
Definition separate (w : world) (bd lf : string) (recs : list RenameRecord) : Prop :=
  NoDup (resolve w lf :: recs ≫= locations w bd)
  ∧ Forall (fun k => ¬ k `prefix_of` resolve w bd) (recs ≫= locations w bd)
  ∧ Forall (fun r => renamed r = true → dir_at (fs w) (backup_key w bd r) = false) recs.

(** What is known of a renamed record once its step is done: the strings
    of its paths are usable, and they differ. *)
Definition usable_paths (bd : string) (r : RenameRecord) : Prop :=
  original_path r ≠ "" ∧ wants_dir (original_path r) = false
  ∧ new_path r ≠ "" ∧ wants_dir (new_path r) = false
  ∧ OsPath.join bd (original_name r) ≠ ""
  ∧ wants_dir (OsPath.join bd (original_name r)) = false
  ∧ original_path r ≠ new_path r.

(** Directories are only added, and only along the backup directory. *)
Definition dirs_grow (w0 : world) (bd : string) (w1 w2 : world) : Prop :=
  (∀ k, dir_at (fs w1) k = true → dir_at (fs w2) k = true)
  ∧ (∀ k, dir_at (fs w2) k = true → dir_at (fs w1) k = true ∨ k `prefix_of` resolve w0 bd).

(** What undo needs of a record in the world [u] it starts from: a record
    that is not marked skipped has usable paths, its backup copy and its
    renamed file are there, and its original place is free in an existing
    directory. *)
Definition restorable (w0 : world) (bd : string) (u : world) (r : RenameRecord) : Prop :=
  (skipped r = None ∨ skipped r = Some "Name unchanged.")
  ∧ (renamed r = true →
     usable_paths bd r
     ∧ is_Some (file_at (fs u) (backup_key w0 bd r))
     ∧ is_Some (file_at (fs u) (new_key w0 r))
     ∧ dir_at (fs u) (orig_key w0 r) = false
     ∧ dir_at (fs u) (removelast (orig_key w0 r)) = true).

(** The modification time [os.path.getmtime] reads at a path, if any. *)
Definition mtime_at (w : world) (p : string) : option Z :=
  match lookup_path w p with
  | Ok (File _ m) | Ok (Dir m) => Some m
  | Raise _ => None
  end.

(** Descending by key. *)
Definition desc (a b : string * Z) : Prop := snd b ≤ snd a.

(** Whether the extension filter lets a file name through: no filter, or
    the lower-cased extension of the name is one of the listed ones. *)
Definition wanted (extensions : option (list string)) (name : string) : bool :=
  match extensions with
  | Some ((_ :: _) as exts) =>
      bool_decide (Py.lower (snd (OsPath.splitext name)) ∈ exts)
  | _ => true
  end.

(** The world the run over [/photos] leaves. *)
Definition photos_after : world :=
  (rename_files (libs := example_libs) photos_config photos_world).2.


(** The configuration of [/photos] with the filter [jpg]. *)
Definition photos_jpg_config : Config.t :=
  Config.init "/photos" None None false 1 3 false "%Y%m%d%H%M%S"
    None None (Some ["JPG"]) true None None.


(** The form in which the configuration keeps an extension: lower case,
    with its leading dot. *)
Definition normal_form (ext : string) : string :=
  let ext := Py.lower ext in
  if Py.startswith "." ext then ext else "." +:+ ext.

Definition nonempty (s : string) : bool := negb (bool_decide (s = "")).

(** The same configuration, as a dry run or not. *)
Definition with_dry_run (dry_run : bool) (config : Config.t) : Config.t :=
  {| Config.directory := Config.directory config;
     Config.prefix := Config.prefix config;
     Config.suffix := Config.suffix config;
     Config.numbering := Config.numbering config;
     Config.numbering_start := Config.numbering_start config;
     Config.numbering_padding := Config.numbering_padding config;
     Config.timestamp := Config.timestamp config;
     Config.timestamp_format := Config.timestamp_format config;
     Config.regex_pattern := Config.regex_pattern config;
     Config.regex_replacement := Config.regex_replacement config;
     Config.extensions := Config.extensions config;
     Config.dry_run := dry_run;
     Config.backup_dir := Config.backup_dir config;
     Config.log_file := Config.log_file config |}.

(** The four keys every record has. *)
Definition names (r : RenameRecord) : string * string * string * string :=
  (original_name r, new_name r, original_path r, new_path r).

(** The operating system's own errors. *)
Definition os_error (e : exn) : Prop :=
  (∃ n, e = OSError n) ∨ e = SameFileError.

(** The world the dry run over [/docs] leaves. *)
Definition docs_after_preview : world :=
  (rename_files (libs := example_libs) (with_dry_run true (docs_config false))
     docs_world).2.

(** Every result [m] returns satisfies [Q]. *)
Definition returns {A} (Q : A → Prop) (m : M A) : Prop :=
  ∀ w a w', m w = (Ok a, w') → Q a.

(** The counts of an undo result add up. *)
Definition counts_add_up (res : UndoResult.t) : Prop :=
  UndoResult.success res = (0 <? UndoResult.restored_count res)
  ∧ 0 ≤ UndoResult.restored_count res
  ∧ 0 ≤ UndoResult.skipped_count res
  ∧ Z.of_nat (length (UndoResult.details res))
    = UndoResult.restored_count res + UndoResult.skipped_count res
  ∧ (UndoResult.error_message res = None ↔ UndoResult.success res = true).

(** [m] returns from every state. *)
Definition always_returns {A} (m : M A) : Prop :=
  ∀ w, ∃ a w', m w = (Ok a, w').

(** The system calls of a restoration. *)
Definition is_restore_call (e : event) : bool :=
  match e with
  | EvCopy _ _ | EvRemove _ => true
  | _ => false
  end.

(** From [w] to [w'] files were copied and removed, nothing else: the
    directories are the same, and no other call that changes the file
    system was issued. *)
Definition restores_only (w w' : world) : Prop :=
  cwd w' = cwd w
  ∧ (∀ k, dir_at (fs w') k = dir_at (fs w) k)
  ∧ ∃ calls, trace w' = trace w ++ calls
             ∧ Forall (fun e => is_restore_call e = true) calls.


(** Every character of [s] satisfies [p]. *)
Fixpoint every (p : ascii → bool) (s : string) : bool :=
  match s with
  | EmptyString => true
  | String c s' => p c && every p s'
  end.


(** [/photos] after [_ensure_directory] made the backup directory
    [/photos/old/backup]. *)
Definition photos_with_backup_dir : world :=
  (_ensure_directory "/photos/old/backup" photos_world).2.


(** A name without a slash, as the entries of a directory are. *)
Definition plain (name : string) : bool := negb (Py.contains_char "/" name).

(** The entries of the file system have names without slashes. *)
Definition plain_names (f : gmap path node) : Prop :=
  ∀ k n, f !! k = Some n → Forall (fun c => plain c = true) k.

(** The configuration asks for no change of the names. *)
Definition no_rule (config : Config.t) : Prop :=
  Config.prefix config = "" ∧ Config.suffix config = ""
  ∧ Config.numbering config = false ∧ Config.timestamp config = false
  ∧ regex_active config = false.

(** The run over [/photos] with no rule: its result, and the world it
    leaves. *)
Definition photos_unchanged_result : Result.t :=
  {| Result.renamed_count := 2;
     Result.backup_dir := Some "/photos/backup_1700000000";
     Result.log_file := Some "/photos/rename_log_1700000001.json";
     Result.dry_run := false;
     Result.records :=
       [ {| original_name := "IMG_001.jpg"; new_name := "IMG_001.jpg";
            original_path := "/photos/IMG_001.jpg";
            new_path := "/photos/IMG_001.jpg";
            skipped := Some "Name unchanged."; renamed_at := None |};
         {| original_name := "notes.txt"; new_name := "notes.txt";
            original_path := "/photos/notes.txt";
            new_path := "/photos/notes.txt";
            skipped := Some "Name unchanged."; renamed_at := None |} ] |}.

Definition photos_unchanged : world :=
  (rename_files (libs := example_libs) (default_config "/photos") photos_world).2.

(** The state [w'] a completed run leaves, seen from the state [w] it
    started in: what undo needs of each record, where the files of the
    renamed records are, and that nothing else has changed but the log and
    the directories along the backup directory. *)
Definition left_by_run (w : world) (bd lf : string) (recs : list RenameRecord)
    (w' : world) : Prop :=
  cwd w' = cwd w
  ∧ Forall (restorable w bd w') recs
  ∧ (∀ r, r ∈ recs → renamed r = true →
       is_Some (file_at (fs w) (orig_key w r))
       ∧ file_at (fs w') (orig_key w r) = None
       ∧ file_at (fs w') (new_key w r) = file_at (fs w) (orig_key w r)
       ∧ file_at (fs w') (backup_key w bd r) = file_at (fs w) (orig_key w r))
  ∧ (∀ k, k ∉ resolve w lf :: (recs ≫= locations w bd) →
       file_at (fs w') k = file_at (fs w) k)
  ∧ is_Some (file_at (fs w') (resolve w lf))
  ∧ (∀ k, dir_at (fs w) k = true → dir_at (fs w') k = true)
  ∧ (∀ k, dir_at (fs w') k = true →
          dir_at (fs w) k = true ∨ k `prefix_of` resolve w bd).

(** A directory path in its usual form: not empty, without a trailing
    slash, and without the characters [glob] gives a meaning to. *)
Definition clean (d : string) : Prop :=
  d ≠ "" ∧ Py.endswith "/" d = false ∧ has_magic d = false.

(** A name that [normpath] keeps as a component. *)
Definition component (name : string) : Prop :=
  plain name = true ∧ name ≠ "" ∧ name ≠ "." ∧ name ≠ "..".

(** The names of the entries of a directory, as [os.scandir] lists them. *)
Definition listing (w : world) (d : string) : list string :=
  match os_scandir d w with
  | (Ok entries, _) => map entry_name entries
  | (Raise _, _) => []
  end.

(** The names of a listing that a pattern selects: hidden names are left
    out, as [glob] does for a pattern that does not start with a dot. *)
Definition selected (pat : string) (names : list string) : list string :=
  List.filter (fnmatch pat)
    (List.filter (fun n => negb (Py.startswith "." n)) names).

(** From [w] to [w'] the file system stays a tree. *)
Definition keeps_tree (w w' : world) : Prop := is_tree (fs w) → is_tree (fs w').

(** The characters of a decimal numeral. *)
Definition numeral (c : ascii) : bool :=
  bool_decide (c = "-"%char) || (Ascii.leb "0" c && Ascii.leb c "9").

(** A name that is a component and that undo's two patterns leave out. *)
Definition fresh_name (name : string) : Prop :=
  component name
  ∧ fnmatch "backup_*" name = false
  ∧ fnmatch "rename_log_*.json" name = false.

(** Nothing in the directory looks like a backup directory or a log. *)
Definition first_run (w : world) (d : string) : Prop :=
  selected "backup_*" (listing w d) = []
  ∧ selected "rename_log_*.json" (listing w d) = [].

(** A record undo has nothing to do for: it is marked skipped, or the
    renamed file is not where the record says. *)
Definition nothing_to_restore (w : world) (r : RenameRecord) : Prop :=
  (∃ s, skipped r = Some s ∧ s ≠ "")
  ∨ os_path_exists (new_path r) w = (Ok false, w).

(** [/photos] after the run and its undo. *)
Definition photos_undone : world := (undo_rename "/photos" None photos_after).2.

(** From [w] to [w'] no directory was removed and the working directory
    is where it was. *)
Definition keeps_dirs (w w' : world) : Prop :=
  cwd w' = cwd w ∧ ∀ k, dir_at (fs w) k = true → dir_at (fs w') k = true.

(** The run over [/photos] told to write its log where a directory is. *)
Definition photos_config_log_on_directory : Config.t :=
  Config.init "/photos" None None false 1 3 false "%Y%m%d%H%M%S"
    (Some "^IMG_") (Some "Photo_") None false None (Some "/photos").

(** From [w] to [w'] nothing was printed. *)
Definition quiet (w w' : world) : Prop := stdout w' = stdout w.

(** The line a dry run prints for a record. *)
Definition preview_line (r : RenameRecord) : string :=
  "[DRY-RUN] " +:+ original_name r +:+ " -> " +:+ new_name r.

(** Calls of a restoration in which every removal comes directly after a
    copy. *)
Inductive copies_first : list event → Prop :=
  | copies_first_nil : copies_first []
  | copies_first_copy src dst rest :
      copies_first rest → copies_first (EvCopy src dst :: rest)
  | copies_first_copy_remove src dst k rest :
      copies_first rest → copies_first (EvCopy src dst :: EvRemove k :: rest).

(** From [w] to [w'] the system calls were such calls. *)
Definition restoring (w w' : world) : Prop :=
  ∃ calls, trace w' = trace w ++ calls ∧ copies_first calls.
(* ===================================================================== *)
(** * Reasoning about the monad *)
(* ===================================================================== *)

Lemma bind_Ok_inv {A B} (m : M A) (k : A → M B) w b w' :
  bind m k w = (Ok b, w') →
  ∃ a w1, m w = (Ok a, w1) ∧ k a w1 = (Ok b, w').
Proof.
  unfold bind. destruct (m w) as [[a|e] w1]; [eauto | discriminate].
Qed.

Lemma bind_Raise_inv {A B} (m : M A) (k : A → M B) w e w' :
  bind m k w = (Raise e, w') →
  m w = (Raise e, w') ∨ ∃ a w1, m w = (Ok a, w1) ∧ k a w1 = (Raise e, w').
Proof.
  unfold bind. destruct (m w) as [[a|e1] w1]; [eauto | intros [= -> ->]; auto].
Qed.

Lemma bind_Ok_eq {A B} (m : M A) (k : A → M B) w a w1 :
  m w = (Ok a, w1) → bind m k w = k a w1.
Proof. unfold bind. by intros ->. Qed.

Lemma bind_Raise_eq {A B} (m : M A) (k : A → M B) w e w1 :
  m w = (Raise e, w1) → bind m k w = (Raise e, w1).
Proof. unfold bind. by intros ->. Qed.


(** A run is known by its outcome: its world is the one it leaves. *)
Lemma run_by_outcome {A} (run : outcome A * world) (o : outcome A) :
  run.1 = o → run = (o, run.2).
Proof. destruct run. simpl. by intros ->. Qed.

Section Preserves.
Context (R : relation world) `{!PreOrder R}.

Lemma preserves_ret {A} (a : A) : preserves R (ret a).
Proof. intros w. simpl. reflexivity. Qed.

Lemma preserves_raise {A} e : preserves R (@raise A e).
Proof. intros w. simpl. reflexivity. Qed.

Lemma preserves_bind {A B} (m : M A) (k : A → M B) :
  preserves R m → (∀ a, preserves R (k a)) → preserves R (bind m k).
Proof.
  intros Hm Hk w. unfold bind. specialize (Hm w).
  destruct (m w) as [[a|e] w1]; simpl in *; [|done].
  etrans; [exact Hm | apply Hk].
Qed.

Lemma preserves_try {A} (m : M A) handles h :
  preserves R m → (∀ e, preserves R (h e)) → preserves R (try_except m handles h).
Proof.
  intros Hm Hh w. unfold try_except. specialize (Hm w).
  destruct (m w) as [[a|e] w1]; simpl in *; [done|].
  destruct e; try done;
    (destruct (handles _); [etrans; [exact Hm | apply Hh] | done]).
Qed.

Lemma preserves_mapM {A B} (f : A → M B) l :
  (∀ a, preserves R (f a)) → preserves R (mapM f l).
Proof.
  intros Hf. induction l as [|x xs IH]; simpl.
  - apply preserves_ret.
  - apply preserves_bind; [apply Hf | intros y].
    apply preserves_bind; [apply IH | intros ys]. apply preserves_ret.
Qed.
End Preserves.

(** Break a goal [preserves R m] down along the structure of [m]. *)
Ltac preserves_step :=
  first
    [ apply preserves_ret; apply _
    | apply preserves_raise; apply _
    | apply preserves_bind; [apply _ | | intros ?]
    | apply preserves_try; [apply _ | | intros ?]
    | apply preserves_mapM; [apply _ | intros ?]
    | match goal with
      | |- preserves _ (if ?b then _ else _) => destruct b
      | |- preserves _ (match ?x with _ => _ end) => destruct x
      | |- preserves _ (let '(_, _) := ?x in _) => destruct x
      end ].

(** ** Worlds with the same files *)


#[local] Instance same_disk_preorder : PreOrder same_disk.
Proof.
  split.
  - by intros w.
  - intros w1 w2 w3 (?&?&?&?) (?&?&?&?). repeat split; congruence.
Qed.


Lemma os_path_exists_pure p w : os_path_exists p w = (Ok (if lookup_path w p is Ok _ then true else false), w).
Proof. reflexivity. Qed.

Lemma os_path_exists_same p : preserves same_disk (os_path_exists p).
Proof. by intros w. Qed.
Lemma os_path_isdir_same p : preserves same_disk (os_path_isdir p).
Proof. by intros w. Qed.
Lemma os_path_getmtime_same p : preserves same_disk (os_path_getmtime p).
Proof. intros w. unfold os_path_getmtime. by destruct (lookup_path w p) as [[]|]. Qed.
Lemma same_abspath_same p q : preserves same_disk (same_abspath p q).
Proof. by intros w. Qed.
Lemma os_scandir_same p : preserves same_disk (os_scandir p).
Proof. intros w. unfold os_scandir. by destruct (lookup_path w p) as [[]|]. Qed.
Lemma read_file_same p : preserves same_disk (read_file p).
Proof. intros w. unfold read_file. by destruct (lookup_path w p) as [[]|]. Qed.
Lemma glob_glob_same p : preserves same_disk (glob_glob p).
Proof.
  intros w. unfold glob_glob. destruct (OsPath.split p) as [d b].
  repeat case_match; done.
Qed.
Lemma time_time_same : preserves same_disk time_time.
Proof. by intros w. Qed.
Lemma time_strftime_same {libs : Libs} f : preserves same_disk (time_strftime f).
Proof. by intros w. Qed.
Lemma print_same s : preserves same_disk (print s).
Proof. by intros w. Qed.

Create HintDb same_disk.
#[local] Hint Resolve os_path_exists_same os_path_isdir_same os_path_getmtime_same
  same_abspath_same os_scandir_same read_file_same glob_glob_same time_time_same
  time_strftime_same print_same : same_disk.

Ltac same_disk := repeat (first [ solve [auto with same_disk] | preserves_step ]).

Lemma validate_same config : preserves same_disk (Config.validate config).
Proof. unfold Config.validate. same_disk. Qed.

Lemma _collect_files_same d exts : preserves same_disk (_collect_files d exts).
Proof. unfold _collect_files. same_disk. Qed.

Lemma _build_new_name_same {libs : Libs} n config c :
  preserves same_disk (_build_new_name n config c).
Proof. unfold _build_new_name. same_disk. Qed.

Lemma sort_by_mtime_desc_same l : preserves same_disk (sort_by_mtime_desc l).
Proof. unfold sort_by_mtime_desc. same_disk. Qed.

Lemma find_latest_log_same d : preserves same_disk (find_latest_log d).
Proof. unfold find_latest_log. same_disk. Qed.

Lemma find_backup_dir_same p : preserves same_disk (find_backup_dir p).
Proof. unfold find_backup_dir. same_disk. Qed.

Lemma load_rename_log_same p : preserves same_disk (load_rename_log p).
Proof. unfold load_rename_log. same_disk. Qed.

(* ===================================================================== *)
(** * The structure of a run of [rename_files] *)
(* ===================================================================== *)

Section RenameRuns.
Context {libs : Libs}.


Lemma rename_loop_Ok config bd files counter acc w recs w' :
  rename_loop config bd files counter acc w = (Ok recs, w') ↔
  ∃ new, recs = acc ++ new ∧ loop_run config bd files counter w new w'.
Proof.
  revert counter acc w. induction files as [|f files IH]; intros counter acc w; simpl.
  - split.
    + intros [= <- <-]. exists []. rewrite app_nil_r. split; [done | constructor].
    + intros (new & -> & Hrun). inversion Hrun; subst. by rewrite app_nil_r.
  - split.
    + intros (r & w1 & Hone & Hrest)%bind_Ok_inv.
      apply IH in Hrest as (new & -> & Hrun).
      exists (r :: new). rewrite <- app_assoc. split; [done|].
      econstructor; eauto.
    + intros (new & -> & Hrun). inversion Hrun as [|? ? ? ? r w1 recs' ? Hone Hrest]; subst.
      rewrite (bind_Ok_eq _ _ _ _ _ Hone). apply IH.
      exists recs'. by rewrite <- app_assoc.
Qed.

Lemma rename_loop_app config bd pre post counter acc w recs w1 :
  loop_run config bd pre counter w recs w1 →
  rename_loop config bd (pre ++ post) counter acc w
  = rename_loop config bd post (counter_after config counter (length pre))
      (acc ++ recs) w1.
Proof.
  intros Hrun. revert acc. induction Hrun as [c w|f files c w r w1' recs w' Hone Hrun IH];
    intros acc; simpl.
  - rewrite app_nil_r. f_equal. unfold counter_after. simpl.
    destruct (Config.numbering config); lia.
  - rewrite (bind_Ok_eq _ _ _ _ _ Hone), IH, <- app_assoc. simpl length. f_equal.
    unfold counter_after, next_counter. destruct (Config.numbering config); lia.
Qed.

(** A run that raises does so at one file, after the files before it
    yielded their records. *)
Lemma rename_loop_Raise config bd files counter acc w e w' :
  rename_loop config bd files counter acc w = (Raise e, w') →
  ∃ pre f post recs w1,
    files = pre ++ f :: post ∧
    loop_run config bd pre counter w recs w1 ∧
    rename_one config bd f (counter_after config counter (length pre)) w1
    = (Raise e, w').
Proof.
  revert counter acc w. induction files as [|f files IH]; intros counter acc w; simpl.
  - discriminate.
  - intros [Hone | (r & w1 & Hone & Hrest)]%bind_Raise_inv.
    + exists [], f, files, [], w. split; [done|]. split; [constructor|].
      simpl. unfold counter_after. destruct (Config.numbering config);
        [by rewrite Z.add_0_r | done].
    + apply IH in Hrest as (pre & f' & post & recs & w2 & -> & Hrun & Hf').
      exists (f :: pre), f', post, (r :: recs), w2. split; [done|].
      split; [econstructor; eauto|].
      rewrite <- Hf'. f_equal. simpl length.
      unfold counter_after, next_counter.
      destruct (Config.numbering config); [lia | done].
Qed.

Lemma loop_run_length config bd files counter w recs w' :
  loop_run config bd files counter w recs w' → length recs = length files.
Proof. induction 1; simpl; congruence. Qed.

(** Each record of a run comes from [rename_one] on the file at the same
    position, with the counter advanced by that position. *)
Lemma loop_run_lookup config bd files counter w recs w' i r :
  loop_run config bd files counter w recs w' →
  recs !! i = Some r →
  ∃ f w1 w2,
    files !! i = Some f ∧
    rename_one config bd f (counter_after config counter i) w1 = (Ok r, w2).
Proof.
  intros Hrun. revert i. induction Hrun as [|f files c w r0 w1 recs w' Hone Hrun IH];
    intros i Hi.
  - done.
  - destruct i as [|i]; simpl in Hi.
    + injection Hi as ->. exists f, w, w1. split; [done|].
      rewrite <- Hone. f_equal. unfold counter_after.
      destruct (Config.numbering config); [lia | done].
    + apply IH in Hi as (f' & w2 & w3 & Hf' & Hone').
      exists f', w2, w3. split; [done|]. rewrite <- Hone'. f_equal.
      unfold counter_after, next_counter.
      destruct (Config.numbering config); [lia | done].
Qed.


Lemma rename_files_unfold config w :
  rename_files config w
  = (let* '(files, backup_dir, log_file) := prepare config in
     let* rename_records :=
       rename_loop config backup_dir files (Config.numbering_start config) [] in
     finish config backup_dir log_file rename_records) w.
Proof.
  unfold rename_files, prepare, finish, bind.
  destruct (Config.validate config w) as [[[]|e] w1]; [|done].
  destruct (_collect_files _ _ w1) as [[[|f files]|e] w2]; [done| |done].
  destruct (truthy (Config.backup_dir config)), (truthy (Config.log_file config));
    reflexivity.
Qed.

Lemma prepare_same config : preserves same_disk (prepare config).
Proof.
  pose proof validate_same. pose proof _collect_files_same.
  unfold prepare. same_disk.
Qed.

End RenameRuns.

(* ===================================================================== *)
(** * Facts about strings *)
(* ===================================================================== *)

Lemma string_app_cons (x : ascii) (a b : string) :
  String x a +:+ b = String x (a +:+ b).
Proof. reflexivity. Qed.

Lemma string_app_assoc (a b c : string) : (a +:+ b) +:+ c = a +:+ (b +:+ c).
Proof.
  induction a as [|x a IH]; [done|]. by rewrite !string_app_cons, IH.
Qed.

Lemma string_app_empty_r (a : string) : a +:+ "" = a.
Proof.
  induction a as [|x a IH]; [done|]. by rewrite string_app_cons, IH.
Qed.

Lemma prepend_if_nonempty (a b : string) :
  (if negb (bool_decide (a = "")) then a +:+ b else b) = a +:+ b.
Proof. destruct (decide (a = "")) as [->|]; [done|]. by rewrite bool_decide_eq_false_2. Qed.

Lemma append_if_nonempty (a b : string) :
  (if negb (bool_decide (b = "")) then a +:+ b else a) = a +:+ b.
Proof.
  destruct (decide (b = "")) as [->|]; [by rewrite string_app_empty_r|].
  by rewrite bool_decide_eq_false_2.
Qed.


Lemma str_nonneg_head (n : Z) :
  0 ≤ n → ∃ c rest, Py.str n = String c rest ∧ c ≠ "+"%char ∧ c ≠ "-"%char.
Proof.
  intros Hn. unfold Py.str.
  assert (∃ u, Z.to_int n = Decimal.Pos u) as [u ->].
  { destruct n as [|p|p]; [by eexists | by eexists | lia]. }
  simpl. destruct u; simpl; eexists _, _; (split; [reflexivity | split; discriminate]).
Qed.

Lemma zfill_nonneg (width n : Z) :
  0 ≤ n → Py.zfill width (Py.str n) = padded width n.
Proof.
  intros Hn. unfold Py.zfill, padded.
  destruct (Z.leb_spec width (Py.len (Py.str n))) as [Hle|Hlt].
  - replace (Z.to_nat _) with 0%nat by lia. done.
  - destruct (str_nonneg_head n Hn) as (c & rest & -> & Hplus & Hminus).
    rewrite !bool_decide_eq_false_2 by done. done.
Qed.

Lemma padded_zero_width (n : Z) : padded 0 n = Py.str n.
Proof.
  unfold padded. replace (Z.to_nat _) with 0%nat; [done|].
  unfold Py.len. lia.
Qed.

(* ===================================================================== *)
(** * What one step of the loop does *)
(* ===================================================================== *)

Section RenameSteps.
Context {libs : Libs}.


Lemma _build_new_name_Ok name config counter w s w' :
  _build_new_name name config counter w = (Ok s, w') →
  ∃ stem' stamp,
    substituted config (OsPath.splitext name).1 = Some stem' ∧
    stem' ≠ "" ∧
    s = (Config.prefix config +:+ stem' +:+ Config.suffix config)
        +:+ (if Config.numbering config
             then (if Z.max 0 (Config.numbering_padding config) =? 0
                   then Py.str counter
                   else Py.zfill (Z.max 0 (Config.numbering_padding config))
                          (Py.str counter))
             else "")
        +:+ stamp +:+ (OsPath.splitext name).2 ∧
    (if Config.timestamp config
     then stamp = Py.replace_char " " "_"
                    (strftime (Config.timestamp_format config) (now w))
          ∧ w' = advance w
     else stamp = "" ∧ w' = w).
Proof.
  unfold _build_new_name, substituted, regex_active.
  destruct (OsPath.splitext name) as [stem ext]. simpl.
  intros (stem' & w1 & Hre & Hrest)%bind_Ok_inv.
  assert (w1 = w ∧ (if truthy (Config.regex_pattern config)
                       && truthy (Config.regex_replacement config)
                    then re_sub (default "" (Config.regex_pattern config))
                           (default "" (Config.regex_replacement config)) stem
                    else Some stem) = Some stem') as [-> Hsub].
  { destruct (_ && _); [|by injection Hre as -> ->].
    destruct (re_sub _ _ _); [by injection Hre as -> -> | discriminate]. }
  clear Hre. case_bool_decide as Hne; [discriminate|].
  apply bind_Ok_inv in Hrest as (full & w2 & Hts & Hret).
  injection Hret as <- <-.
  exists stem'.
  rewrite prepend_if_nonempty, append_if_nonempty in Hts.
  destruct (Config.timestamp config).
  - apply bind_Ok_inv in Hts as (formatted & w3 & Hfmt & Hret).
    injection Hfmt as <- <-. injection Hret as <- <-.
    eexists. split; [done|]. split; [done|]. split; [|done].
    destruct (Config.numbering config).
    + destruct (Z.max 0 _ =? 0); simpl; by rewrite !string_app_assoc.
    + simpl. by rewrite !string_app_assoc.
  - injection Hts as <- <-. exists "". split; [done|]. split; [done|]. split; [|done].
    destruct (Config.numbering config).
    + destruct (Z.max 0 _ =? 0); simpl; by rewrite !string_app_assoc.
    + simpl. by rewrite !string_app_assoc.
Qed.


Lemma rename_one_Ok config bd f counter w r w' :
  rename_one config bd f counter w = (Ok r, w') →
  ∃ w1,
    _build_new_name (OsPath.basename f) config counter w = (Ok (new_name r), w1) ∧
    original_name r = OsPath.basename f ∧
    original_path r = f ∧
    new_path r = OsPath.join (Config.directory config) (new_name r) ∧
    step_kind config bd w1 r w'.
Proof.
  unfold rename_one.
  intros (nn & w1 & Hname & Hrest)%bind_Ok_inv.
  exists w1. destruct (Config.dry_run config) eqn:Hdry.
  - apply bind_Ok_inv in Hrest as ([] & w2 & Hprint & Hret).
    injection Hprint as <-. injection Hret as <- <-. simpl.
    repeat (split; [done|]). by apply step_dry_run.
  - apply bind_Ok_inv in Hrest as (same & w2 & Hsame & Hrest).
    injection Hsame as <- <-. case_bool_decide as Habs.
    + injection Hrest as <- <-. simpl. repeat (split; [done|]).
      by apply step_skipped.
    + apply bind_Ok_inv in Hrest as (taken & w2 & Htaken & Hrest).
      assert (w2 = w1) as -> by (by injection Htaken).
      destruct taken; [discriminate|].
      apply bind_Ok_inv in Hrest as ([] & w2 & Hens & Hrest).
      apply bind_Ok_inv in Hrest as ([] & w3 & Hcopy & Hrest).
      apply bind_Ok_inv in Hrest as ([] & w4 & Hrepl & Hrest).
      apply bind_Ok_inv in Hrest as (stamp & w5 & Hstamp & Hret).
      injection Hstamp as <- <-. injection Hret as <- <-. simpl.
      repeat (split; [done|]). by eapply step_renamed.
Qed.

End RenameSteps.

(* ===================================================================== *)
(** * Completed runs *)
(* ===================================================================== *)

Section CompletedRuns.
Context {libs : Libs}.

Lemma rename_files_Ok config w res w' :
  rename_files config w = (Ok res, w') →
  ∃ files bd lf w1 w2,
    prepare config w = (Ok (files, bd, lf), w1) ∧
    loop_run config bd files (Config.numbering_start config) w1 (Result.records res) w2 ∧
    finish config bd lf (Result.records res) w2 = (Ok res, w').
Proof.
  rewrite rename_files_unfold.
  intros ([[files bd] lf] & w1 & Hprep & Hrest)%bind_Ok_inv.
  apply bind_Ok_inv in Hrest as (recs & w2 & Hloop & Hfin).
  apply rename_loop_Ok in Hloop as (new & -> & Hrun). simpl in *.
  assert (Result.records res = new) as Hrecs.
  { unfold finish in Hfin.
    apply bind_Ok_inv in Hfin as ([] & w3 & _ & Hret). by injection Hret as <- _. }
  exists files, bd, lf, w1, w2. by rewrite Hrecs.
Qed.

Lemma finish_Ok config bd lf recs w res w' :
  finish config bd lf recs w = (Ok res, w') →
  Result.renamed_count res = Z.of_nat (length recs) ∧
  Result.records res = recs ∧
  Result.dry_run res = Config.dry_run config ∧
  Result.backup_dir res = (if Config.dry_run config then None else Some bd) ∧
  Result.log_file res = (if Config.dry_run config then None else Some lf).
Proof.
  unfold finish. intros ([] & w1 & _ & Hret)%bind_Ok_inv.
  injection Hret as <- _. simpl. by destruct (Config.dry_run config).
Qed.

Lemma prepare_Ok config w files bd lf w1 :
  prepare config w = (Ok (files, bd, lf), w1) →
  Config.validate config w = (Ok tt, w) ∧
  _collect_files (Config.directory config) (Config.extensions config) w = (Ok files, w) ∧
  files ≠ [] ∧ same_disk w w1.
Proof.
  intros Hprep. pose proof (prepare_same config w) as Hsame.
  rewrite Hprep in Hsame. simpl in Hsame.
  unfold prepare in Hprep.
  apply bind_Ok_inv in Hprep as ([] & w2 & Hval & Hrest).
  assert (w2 = w) as ->.
  { revert Hval. unfold Config.validate, bind, raise, ret. simpl.
    repeat case_match; congruence. }
  apply bind_Ok_inv in Hrest as (files' & w3 & Hcol & Hrest).
  assert (w3 = w) as ->.
  { revert Hcol. unfold _collect_files, bind, try_except, os_scandir, raise, ret.
    repeat case_match; congruence. }
  destruct files' as [|f files']; [discriminate|].
  apply bind_Ok_inv in Hrest as (bd' & w4 & _ & Hrest).
  apply bind_Ok_inv in Hrest as (lf' & w5 & _ & Hret).
  injection Hret as <- <- <- <-. done.
Qed.

(** Every record of a completed run was produced by [rename_one]. *)
Lemma loop_run_Forall config bd files counter w recs w' (P : RenameRecord → Prop) :
  (∀ f c w1 r w2, rename_one config bd f c w1 = (Ok r, w2) → P r) →
  loop_run config bd files counter w recs w' → Forall P recs.
Proof. intros HP. induction 1; constructor; eauto. Qed.

End CompletedRuns.

Lemma validate_Ok config w w' :
  Config.validate config w = (Ok tt, w') →
  w' = w ∧
  Config.directory config ≠ "" ∧
  (∃ m, lookup_path w (Config.directory config) = Ok (Dir m)) ∧
  (Config.numbering config = true →
   0 ≤ Config.numbering_padding config ∧ 0 ≤ Config.numbering_start config) ∧
  truthy (Config.regex_pattern config) = truthy (Config.regex_replacement config).
Proof.
  unfold Config.validate. case_bool_decide as Hdir; [discriminate|].
  intros (found & w1 & Hex & Hrest)%bind_Ok_inv. injection Hex as <- <-.
  destruct (lookup_path w (Config.directory config)) as [n|e] eqn:Hlook;
    [|discriminate].
  simpl in Hrest.
  apply bind_Ok_inv in Hrest as (isdir & w1 & Hisdir & Hrest).
  injection Hisdir as <- <-. rewrite Hlook in Hrest.
  destruct n as [c m|m]; [discriminate|]. simpl in Hrest.
  destruct (Config.numbering config) eqn:Hnum; simpl in Hrest.
  - destruct (Z.ltb_spec (Config.numbering_padding config) 0); [discriminate|].
    destruct (Z.ltb_spec (Config.numbering_start config) 0); [discriminate|].
    destruct (Bool.eqb _ _) eqn:Heq; [|discriminate].
    injection Hrest as <-. apply Bool.eqb_prop in Heq. eauto 10.
  - destruct (Bool.eqb _ _) eqn:Heq; [|discriminate].
    injection Hrest as <-. apply Bool.eqb_prop in Heq.
    repeat split; eauto; discriminate.
Qed.

(* ===================================================================== *)
(** * Records of a completed run *)
(* ===================================================================== *)

(** C7.  Record invariant: in the records returned by a completed run that
    is not a dry run, exactly one of [skipped] and [renamed_at] is present;
    in those of a completed dry run both are absent. *)
Theorem record_invariant {libs : Libs} (config : Config.t) (w : world) (res : Result.t) :
  (rename_files config w).1 = Ok res →
  Forall (fun r =>
            if Config.dry_run config
            then skipped r = None ∧ renamed_at r = None
            else (is_Some (skipped r) ∧ renamed_at r = None)
                 ∨ (skipped r = None ∧ is_Some (renamed_at r)))
         (Result.records res).
Proof.
  destruct (rename_files config w) as [o w'] eqn:Hrun. simpl. intros ->.
  apply rename_files_Ok in Hrun as (files & bd & lf & w1 & w2 & _ & Hloop & _).
  eapply loop_run_Forall; [|exact Hloop].
  intros f c wa r wb (wc & _ & _ & _ & _ & Hkind)%rename_one_Ok.
  destruct Hkind as [-> Hs Hr _| -> _ Hs Hr _| ? ? ? -> _ _ _ _ _ Hs Hr _].
  - done.
  - left. rewrite Hs. eauto.
  - right. rewrite Hr. eauto.
Qed.

Lemma record_invariant_witness :
  (rename_files (libs := example_libs) photos_config photos_world).1 = Ok photos_result
  ∧ Forall (fun r =>
              if Config.dry_run photos_config
              then skipped r = None ∧ renamed_at r = None
              else (is_Some (skipped r) ∧ renamed_at r = None)
                   ∨ (skipped r = None ∧ is_Some (renamed_at r)))
           (Result.records photos_result).
Proof.
  split; [vm_compute; reflexivity|].
  apply (record_invariant (libs := example_libs) photos_config photos_world).
  vm_compute; reflexivity.
Defined.

(** C9.  [renamed_count] of a completed call is the number of records of
    the plan, which is the number of files discovery found: skipped records
    and dry-run records count as well as the physically renamed ones. *)
Theorem renamed_count_is_plan_size {libs : Libs} (config : Config.t) (w : world)
    (res : Result.t) :
  (rename_files config w).1 = Ok res →
  ∃ files,
    _collect_files (Config.directory config) (Config.extensions config) w = (Ok files, w)
    ∧ Result.renamed_count res = Z.of_nat (length files)
    ∧ length (Result.records res) = length files.
Proof.
  destruct (rename_files config w) as [o w'] eqn:Hrun. simpl. intros ->.
  apply rename_files_Ok in Hrun as (files & bd & lf & w1 & w2 & Hprep & Hloop & Hfin).
  apply prepare_Ok in Hprep as (_ & Hcol & _ & _).
  apply finish_Ok in Hfin as (Hcount & _).
  apply loop_run_length in Hloop.
  exists files. rewrite Hcount, Hloop. done.
Qed.

Lemma renamed_count_is_plan_size_witness :
  (rename_files (libs := example_libs) photos_config photos_world).1 = Ok photos_result
  ∧ ∃ files,
      _collect_files (Config.directory photos_config) (Config.extensions photos_config)
        photos_world = (Ok files, photos_world)
      ∧ Result.renamed_count photos_result = Z.of_nat (length files)
      ∧ length (Result.records photos_result) = length files.
Proof.
  split; [vm_compute; reflexivity|].
  apply (renamed_count_is_plan_size (libs := example_libs) photos_config photos_world).
  vm_compute; reflexivity.
Defined.

(** C2.  Numbering: in a plan with numbering enabled the record at position
    [i] of the discovery order, skipped or not, carries the counter
    [numbering_start + i]; its decimal digits, padded with zeros to
    [numbering_padding] characters (not padded when the width is 0), are
    appended to the stem after prefix and suffix, before the timestamp and
    the extension.  In particular start 5 and width 3 over [a.txt], [b.txt],
    [c.txt] give [a005.txt], [b006.txt], [c007.txt]. *)
Theorem numbering_appends_counter :
  (∀ (libs : Libs) (config : Config.t) (w : world) (res : Result.t),
     Config.numbering config = true →
     (rename_files config w).1 = Ok res →
     ∀ (i : nat) (r : RenameRecord),
       Result.records res !! i = Some r →
       ∃ stem' stamp,
         substituted config (OsPath.splitext (original_name r)).1 = Some stem'
         ∧ new_name r
           = (Config.prefix config +:+ stem' +:+ Config.suffix config)
             +:+ padded (Config.numbering_padding config)
                   (Config.numbering_start config + Z.of_nat i)
             +:+ stamp +:+ (OsPath.splitext (original_name r)).2
         ∧ (Config.timestamp config = false → stamp = ""))
  ∧ (∀ (libs : Libs) (dry_run : bool),
       planned_names (rename_files (docs_config dry_run) docs_world).1
       = Some ["a005.txt"; "b006.txt"; "c007.txt"]).
Proof.
  split.
  - intros libs config w res Hnum Hres i r Hi.
    destruct (rename_files config w) as [o w'] eqn:Hrun. simpl in Hres. subst o.
    apply rename_files_Ok in Hrun as (files & bd & lf & w1 & w2 & Hprep & Hloop & _).
    apply prepare_Ok in Hprep as (Hval & _).
    apply validate_Ok in Hval as (_ & _ & _ & Hbounds & _).
    destruct (Hbounds Hnum) as [Hpad Hstart].
    destruct (loop_run_lookup _ _ _ _ _ _ _ _ _ Hloop Hi) as (f & wa & wb & _ & Hone).
    apply rename_one_Ok in Hone as (wc & Hname & Hon & _).
    rewrite <- Hon in Hname.
    apply _build_new_name_Ok in Hname as (stem' & stamp & Hsub & _ & Hshape & Hts).
    exists stem', stamp. split; [done|]. split.
    + rewrite Hshape, Hnum. unfold counter_after. rewrite Hnum.
      rewrite Z.max_r by done. do 2 f_equal.
      destruct (Z.eqb_spec (Config.numbering_padding config) 0) as [->|_].
      * by rewrite padded_zero_width.
      * apply zfill_nonneg. lia.
    + intros Hno. rewrite Hno in Hts. by destruct Hts.
  - intros libs []; vm_compute; reflexivity.
Qed.

Lemma numbering_appends_counter_witness :
  Config.numbering (docs_config true) = true
  ∧ (rename_files (libs := example_libs) (docs_config true) docs_world).1 = Ok docs_plan
  ∧ Result.records docs_plan !! 2%nat = Some docs_record_c
  ∧ ∃ stem' stamp,
      substituted (libs := example_libs) (docs_config true)
        (OsPath.splitext (original_name docs_record_c)).1 = Some stem'
      ∧ new_name docs_record_c
        = (Config.prefix (docs_config true) +:+ stem' +:+ Config.suffix (docs_config true))
          +:+ padded (Config.numbering_padding (docs_config true))
                (Config.numbering_start (docs_config true) + Z.of_nat 2)
          +:+ stamp +:+ (OsPath.splitext (original_name docs_record_c)).2
      ∧ (Config.timestamp (docs_config true) = false → stamp = "").
Proof.
  split; [reflexivity|]. split; [vm_compute; reflexivity|]. split; [reflexivity|].
  apply (proj1 numbering_appends_counter example_libs (docs_config true) docs_world
           docs_plan eq_refl).
  - vm_compute; reflexivity.
  - reflexivity.
Defined.

(* ===================================================================== *)
(** * What the system calls do to the files *)
(* ===================================================================== *)

Lemma file_at_touch t k f k' : file_at (touch t k f) k' = file_at f k'.
Proof.
  unfold file_at, touch. destruct (f !! k) as [[c m|m]|] eqn:Hk; try done.
  rewrite lookup_insert. case_decide; [subst; by rewrite Hk | done].
Qed.

Lemma dir_at_touch t k f k' : dir_at (touch t k f) k' = dir_at f k'.
Proof.
  unfold dir_at, touch. destruct (f !! k) as [[c m|m]|] eqn:Hk; try done.
  rewrite lookup_insert. case_decide; [subst; by rewrite Hk | done].
Qed.

Lemma file_at_insert_file f k c m k' :
  file_at (<[k := File c m]> f) k' = if decide (k' = k) then Some (c, m) else file_at f k'.
Proof.
  unfold file_at. rewrite lookup_insert.
  destruct (decide (k = k')), (decide (k' = k)); congruence.
Qed.

Lemma dir_at_insert_file f k c m k' :
  dir_at f k = false → dir_at (<[k := File c m]> f) k' = dir_at f k'.
Proof.
  unfold dir_at. rewrite lookup_insert. intros Hk.
  destruct (decide (k = k')) as [->|]; [by rewrite Hk | done].
Qed.

Lemma file_at_insert_dir f k t k' :
  file_at f k = None → file_at (<[k := Dir t]> f) k' = file_at f k'.
Proof.
  unfold file_at. rewrite lookup_insert. intros Hk.
  destruct (decide (k = k')) as [->|]; [by rewrite Hk | done].
Qed.

Lemma file_at_delete f k k' :
  file_at (delete k f) k' = if decide (k' = k) then None else file_at f k'.
Proof.
  unfold file_at. rewrite lookup_delete.
  destruct (decide (k = k')), (decide (k' = k)); congruence.
Qed.

Lemma dir_at_delete f k k' :
  dir_at f k = false → dir_at (delete k f) k' = dir_at f k'.
Proof.
  unfold dir_at. rewrite lookup_delete. intros Hk.
  destruct (decide (k = k')) as [->|]; [by rewrite Hk | done].
Qed.

Lemma file_at_dir_at f k d : file_at f k = Some d → dir_at f k = false.
Proof. unfold file_at, dir_at. by destruct (f !! k) as [[]|]. Qed.

Lemma lookup_path_file w p c m :
  lookup_path w p = Ok (File c m) →
  p ≠ "" ∧ wants_dir p = false ∧ file_at (fs w) (resolve w p) = Some (c, m).
Proof.
  unfold lookup_path, file_at. case_bool_decide; [discriminate|].
  destruct (fs w !! resolve w p) as [[c' m'|m']|]; try discriminate.
  destruct (wants_dir p); [discriminate|]. by intros [= -> ->].
Qed.

Lemma lookup_path_dir w p m :
  lookup_path w p = Ok (Dir m) → dir_at (fs w) (resolve w p) = true.
Proof.
  unfold lookup_path, dir_at. case_bool_decide; [discriminate|].
  destruct (fs w !! resolve w p) as [[c' m'|m']|]; try discriminate; [|done].
  by destruct (wants_dir p).
Qed.

Lemma lookup_path_of_file w p d :
  p ≠ "" → wants_dir p = false → file_at (fs w) (resolve w p) = Some d →
  lookup_path w p = Ok (File d.1 d.2).
Proof.
  unfold lookup_path, file_at. intros Hp Hwd.
  rewrite bool_decide_eq_false_2 by done.
  destruct (fs w !! resolve w p) as [[c' m'|m']|]; try discriminate.
  rewrite Hwd. by intros [= <-].
Qed.

(** A successful [store] of a regular file. *)
Lemma store_Ok w p c m f' :
  store w p (File c m) = Ok f' →
  p ≠ "" ∧ wants_dir p = false
  ∧ dir_at (fs w) (resolve w p) = false
  ∧ (∀ k', file_at f' k'
           = if decide (k' = resolve w p) then Some (c, m) else file_at (fs w) k')
  ∧ (∀ k', dir_at f' k' = dir_at (fs w) k').
Proof.
  unfold store.
  destruct (fs w !! resolve w p) as [[c0 m0|m0]|] eqn:Hk; [| discriminate |].
  - destruct (wants_dir p) eqn:Hwd; [discriminate|]. intros [= <-].
    assert (dir_at (fs w) (resolve w p) = false) as Hnd by (unfold dir_at; by rewrite Hk).
    split; [by intros ->|]. split; [done|]. split; [done|]. split; intros k'.
    + apply file_at_insert_file.
    + by apply dir_at_insert_file.
  - case_bool_decide as Hp; [discriminate|].
    destruct (wants_dir p) eqn:Hwd; [discriminate|].
    destruct (fs w !! removelast (resolve w p)) as [[c0 m0|m0]|] eqn:Hpar;
      try discriminate.
    intros [= <-].
    assert (dir_at (fs w) (resolve w p) = false) as Hnd by (unfold dir_at; by rewrite Hk).
    split; [done|]. split; [done|]. split; [done|]. split; intros k'.
    + rewrite file_at_insert_file. case_decide; [done|]. apply file_at_touch.
    + rewrite dir_at_insert_file by (by rewrite dir_at_touch). apply dir_at_touch.
Qed.

Lemma shutil_copy2_Ok src dst w w' :
  shutil_copy2 src dst w = (Ok tt, w') →
  ∃ d dst',
    dst' = (if lookup_path w dst is Ok (Dir _)
            then OsPath.join dst (OsPath.basename src) else dst)
    ∧ src ≠ "" ∧ wants_dir src = false ∧ dst' ≠ "" ∧ wants_dir dst' = false
    ∧ file_at (fs w) (resolve w src) = Some d
    ∧ resolve w src ≠ resolve w dst'
    ∧ (∀ k', file_at (fs w') k'
             = if decide (k' = resolve w dst') then Some d else file_at (fs w) k')
    ∧ (∀ k', dir_at (fs w') k' = dir_at (fs w) k')
    ∧ after_call (EvCopy (resolve w src) (resolve w dst')) w w'.
Proof.
  unfold shutil_copy2.
  set (dst' := if lookup_path w dst is Ok (Dir _) then _ else dst).
  destruct (lookup_path w src) as [[c m|m]|e] eqn:Hsrc; [| |discriminate].
  2:{ destruct (_ && _); discriminate. }
  destruct (_ && _) eqn:Hsame; [discriminate|].
  destruct (store w dst' (File c m)) as [f'|e] eqn:Hstore; [|discriminate].
  intros [= <-].
  apply lookup_path_file in Hsrc as (Hsrc1 & Hsrc2 & Hsrc3).
  apply store_Ok in Hstore as (Hd1 & Hd2 & Hd3 & Hfiles & Hdirs).
  exists (c, m), dst'. split; [done|]. repeat (split; [done|]).
  split; [|done].
  intros Heq. rewrite Heq in Hsrc3.
  rewrite (lookup_path_of_file w dst' (c, m)) in Hsame by done.
  by rewrite bool_decide_eq_true_2 in Hsame.
Qed.

Lemma os_replace_Ok src dst w w' :
  os_replace src dst w = (Ok tt, w') →
  ∃ d,
    src ≠ "" ∧ wants_dir src = false ∧ dst ≠ "" ∧ wants_dir dst = false
    ∧ file_at (fs w) (resolve w src) = Some d
    ∧ (∀ k', file_at (fs w') k'
             = if decide (k' = resolve w dst) then Some d
               else if decide (k' = resolve w src) then None
               else file_at (fs w) k')
    ∧ (∀ k', dir_at (fs w') k' = dir_at (fs w) k')
    ∧ after_call (EvReplace (resolve w src) (resolve w dst)) w w'.
Proof.
  unfold os_replace.
  destruct (lookup_path w src) as [[c m|m]|e] eqn:Hsrc; [| discriminate..].
  apply lookup_path_file in Hsrc as (Hsrc1 & Hsrc2 & Hsrc3).
  destruct (_ && _) eqn:Hsame.
  - intros [= <-]. apply andb_true_iff in Hsame as [Hdst Heq].
    apply bool_decide_eq_true_1 in Heq.
    destruct (lookup_path w dst) as [[c' m'|m']|e] eqn:Hl; try discriminate.
    apply lookup_path_file in Hl as (Hd1 & Hd2 & _).
    exists (c, m). repeat (split; [done|]). split; [|by split].
    intros k'. simpl. rewrite Heq in Hsrc3 |- *.
    repeat case_decide; congruence.
  - destruct (store w dst (File c m)) as [f'|e] eqn:Hstore; [|discriminate].
    intros [= <-].
    apply store_Ok in Hstore as (Hd1 & Hd2 & Hd3 & Hfiles & Hdirs).
    assert (resolve w src ≠ resolve w dst) as Hne.
    { intros Heq. rewrite Heq in Hsrc3.
      rewrite (lookup_path_of_file w dst (c, m)) in Hsame by done.
      by rewrite bool_decide_eq_true_2 in Hsame. }
    exists (c, m). repeat (split; [done|]). split; [|split; [|done]]; intros k'; simpl.
    + rewrite file_at_touch, file_at_delete, Hfiles.
      repeat case_decide; congruence.
    + rewrite dir_at_touch, dir_at_delete, Hdirs; [done|].
      rewrite Hdirs. by eapply file_at_dir_at.
Qed.

Lemma os_remove_Ok p w w' :
  os_remove p w = (Ok tt, w') →
  ∃ d,
    file_at (fs w) (resolve w p) = Some d
    ∧ (∀ k', file_at (fs w') k'
             = if decide (k' = resolve w p) then None else file_at (fs w) k')
    ∧ (∀ k', dir_at (fs w') k' = dir_at (fs w) k')
    ∧ after_call (EvRemove (resolve w p)) w w'.
Proof.
  unfold os_remove.
  destruct (lookup_path w p) as [[c m|m]|e] eqn:Hp; [| discriminate..].
  apply lookup_path_file in Hp as (_ & _ & Hfile). intros [= <-].
  exists (c, m). split; [done|]. split; [|split; [|done]]; intros k'; simpl.
  - by rewrite file_at_touch, file_at_delete.
  - rewrite dir_at_touch, dir_at_delete; [done|]. by eapply file_at_dir_at.
Qed.

Lemma write_json_Ok p data w w' :
  write_json p data w = (Ok tt, w') →
  p ≠ "" ∧ wants_dir p = false
  ∧ (∀ k', file_at (fs w') k'
           = if decide (k' = resolve w p) then Some (JsonDoc data, now w)
             else file_at (fs w) k')
  ∧ (∀ k', dir_at (fs w') k' = dir_at (fs w) k')
  ∧ after_call (EvWrite (resolve w p)) w w'.
Proof.
  unfold write_json.
  destruct (store w p _) as [f'|e] eqn:Hstore; [|discriminate].
  intros [= <-]. apply store_Ok in Hstore as (H1 & H2 & _ & Hfiles & Hdirs).
  done.
Qed.

Lemma write_json_Raise p data w e w' :
  write_json p data w = (Raise e, w') → ∃ n, e = OSError n.
Proof.
  unfold write_json, store.
  repeat case_match; intros [= <- <-]; simplify_eq; eauto.
Qed.

(** [os.makedirs] touches no regular file, keeps every directory, and adds
    directories only along the path it was given. *)
Lemma mkdir_chain_spec t pre rest f r f' :
  mkdir_chain t pre rest f = (r, f') →
  (∀ k, file_at f' k = file_at f k)
  ∧ (∀ k, dir_at f k = true → dir_at f' k = true)
  ∧ (∀ k, dir_at f' k = true → dir_at f k = true ∨ k `prefix_of` (pre ++ rest)).
Proof.
  revert pre f. induction rest as [|c rest IH]; intros pre f; simpl.
  - intros [= <- <-]. eauto.
  - destruct (f !! (pre ++ [c])) as [[c0 m0|m0]|] eqn:Hk.
    + intros [= <- <-]. eauto.
    + destruct rest as [|c' rest'].
      * intros [= <- <-]. eauto.
      * intros Hrec. apply IH in Hrec as (Hfiles & Hmono & Hnew).
        rewrite <- app_assoc in Hnew. eauto.
    + destruct (f !! pre) as [[c0 m0|m0]|] eqn:Hpre; [intros [= <- <-]; eauto | |
        intros [= <- <-]; eauto].
      intros Hrec. apply IH in Hrec as (Hfiles & Hmono & Hnew).
      assert (file_at (touch t pre f) (pre ++ [c]) = None) as Hnone.
      { rewrite file_at_touch. unfold file_at. by rewrite Hk. }
      split; [|split].
      * intros k. rewrite Hfiles, file_at_insert_dir by done. apply file_at_touch.
      * intros k Hdir. apply Hmono. unfold dir_at. rewrite lookup_insert.
        case_decide; [done|]. fold (dir_at (touch t pre f) k).
        by rewrite dir_at_touch.
      * intros k Hdir. apply Hnew in Hdir as [Hdir|Hpfx].
        -- unfold dir_at in Hdir. rewrite lookup_insert in Hdir.
           case_decide as Heq.
           ++ right. subst k. exists rest. by rewrite <- app_assoc.
           ++ left. fold (dir_at (touch t pre f) k) in Hdir.
              by rewrite dir_at_touch in Hdir.
        -- right. by rewrite <- app_assoc in Hpfx.
Qed.

Lemma os_makedirs_spec p w r w' :
  os_makedirs p w = (r, w') →
  (∀ k, file_at (fs w') k = file_at (fs w) k)
  ∧ (∀ k, dir_at (fs w) k = true → dir_at (fs w') k = true)
  ∧ (∀ k, dir_at (fs w') k = true →
          dir_at (fs w) k = true ∨ k `prefix_of` resolve w p)
  ∧ after_call (EvMkdir (resolve w p)) w w'.
Proof.
  unfold os_makedirs. case_bool_decide.
  { intros [= <- <-]. split; [done|]. split; [done|]. split; [auto|]. by split. }
  destruct (resolve w p) as [|c k] eqn:Hk.
  { intros [= <- <-]. split; [done|]. split; [done|]. split; [auto|]. by split. }
  destruct (mkdir_chain _ _ _ _) as [r' f'] eqn:Hchain.
  intros [= <- <-]. apply mkdir_chain_spec in Hchain as (? & ? & ?). simpl in *.
  split; [done|]. split; [done|]. split; [done|]. by split.
Qed.

Lemma _ensure_directory_spec p w r w' :
  _ensure_directory p w = (r, w') →
  (∀ k, file_at (fs w') k = file_at (fs w) k)
  ∧ (∀ k, dir_at (fs w) k = true → dir_at (fs w') k = true)
  ∧ (∀ k, dir_at (fs w') k = true →
          dir_at (fs w) k = true ∨ k `prefix_of` resolve w p)
  ∧ cwd w' = cwd w ∧ ticks w' = ticks w
  ∧ (w' = w ∨ after_call (EvMkdir (resolve w p)) w w').
Proof.
  unfold _ensure_directory, bind, os_path_exists.
  destruct (lookup_path w p); simpl.
  - intros [= <- <-]. split; [done|]. split; [done|]. split; [auto|]. auto.
  - intros (? & ? & ? & Hafter)%os_makedirs_spec.
    destruct Hafter as (? & ? & ?).
    split; [done|]. split; [done|]. split; [done|]. split; [done|]. split; [done|].
    right. by split.
Qed.

(* ===================================================================== *)
(** * Failing steps *)
(* ===================================================================== *)

Section FailingSteps.
Context {libs : Libs}.

(** The name computation fails exactly when the regular expression is
    rejected or leaves the stem empty, and then with a [ValueError]. *)
Lemma _build_new_name_Raise name config counter w e w' :
  _build_new_name name config counter w = (Raise e, w') →
  w' = w ∧
  ((substituted config (OsPath.splitext name).1 = None ∧ e = ValueError InvalidRegex)
   ∨ (substituted config (OsPath.splitext name).1 = Some ""
      ∧ e = ValueError (EmptyFileName name))).
Proof.
  unfold _build_new_name, substituted, regex_active.
  destruct (OsPath.splitext name) as [stem ext]. simpl.
  unfold bind. destruct (_ && _).
  - destruct (re_sub _ _ _) as [s|]; simpl.
    + case_bool_decide as Hs; [intros [= <- <-]; subst; auto|].
      destruct (Config.timestamp config); simpl; discriminate.
    + intros [= <- <-]. auto.
  - simpl. case_bool_decide as Hs; [intros [= <- <-]; subst; auto|].
    destruct (Config.timestamp config); simpl; discriminate.
Qed.


Lemma rename_one_dry_run config bd f counter w o w' :
  Config.dry_run config = true →
  rename_one config bd f counter w = (o, w') →
  same_disk w w' ∧ ∀ e, o = Raise e → ∃ m, e = ValueError m.
Proof.
  intros Hdry. unfold rename_one. rewrite Hdry. unfold bind.
  destruct (_build_new_name _ _ _ w) as [[nn|e] w1] eqn:Hname.
  - pose proof (_build_new_name_same (OsPath.basename f) config counter w) as Hs.
    rewrite Hname in Hs. simpl. intros [= <- <-]. split; [|done].
    destruct Hs as (? & ? & ? & ?). simpl in *. by unfold same_disk.
  - intros [= <- <-].
    apply _build_new_name_Raise in Hname as [-> [[_ ->]|[_ ->]]];
      (split; [done | intros e' [= <-]; eauto]).
Qed.

Lemma rename_loop_dry_run config bd files counter acc w o w' :
  Config.dry_run config = true →
  rename_loop config bd files counter acc w = (o, w') →
  same_disk w w' ∧ ∀ e, o = Raise e → ∃ m, e = ValueError m.
Proof.
  intros Hdry. revert counter acc w.
  induction files as [|f files IH]; intros counter acc w; simpl.
  - intros [= <- <-]. done.
  - unfold bind. destruct (rename_one _ _ _ _ w) as [[r|e] w1] eqn:Hone;
      apply (rename_one_dry_run _ _ _ _ _ _ _ Hdry) in Hone as [Hs He].
    + intros Hrest. apply IH in Hrest as [Hs' He']. split; [by etrans|done].
    + intros [= <- <-]. split; [done|]. intros e' [= <-]. by apply He.
Qed.

Lemma _collect_files_Ok directory extensions w m :
  lookup_path w directory = Ok (Dir m) →
  ∃ files, _collect_files directory extensions w = (Ok files, w).
Proof.
  intros Hdir. unfold _collect_files, bind, try_except, os_scandir.
  rewrite Hdir. simpl. eauto.
Qed.

Lemma validate_Raise config w e w' :
  Config.validate config w = (Raise e, w') → w' = w ∧ ∃ m, e = ValueError m.
Proof.
  unfold Config.validate, bind, os_path_exists, os_path_isdir, raise, ret.
  repeat case_match; intros [= <- <-]; eauto.
Qed.

Lemma prepare_Raise config w e w' :
  prepare config w = (Raise e, w') → ∃ m, e = ValueError m.
Proof.
  unfold prepare.
  intros [Hval|([] & w1 & Hval & Hrest)]%bind_Raise_inv.
  - by apply validate_Raise in Hval as [_ ?].
  - apply validate_Ok in Hval as (-> & _ & [m Hdir] & _).
    destruct (_collect_files_Ok _ (Config.extensions config) _ _ Hdir) as [files Hcol].
    rewrite (bind_Ok_eq _ _ _ _ _ Hcol) in Hrest.
    destruct files as [|f files]; [injection Hrest as <- _; eauto|].
    revert Hrest. unfold bind, time_time, ret.
    destruct (truthy (Config.backup_dir config)), (truthy (Config.log_file config));
      discriminate.
Qed.

End FailingSteps.

(* ===================================================================== *)
(** * Dry runs *)
(* ===================================================================== *)

(** C6.  Dry-run purity: with [dry_run] set, [rename_files] leaves the file
    system as it was and issues no system call that changes it (no
    directory creation, no backup copy, no rename, no log write); a plan it
    returns reports no backup directory and no log file; and if it raises,
    the error is a [ValueError] of validation or name computation, never
    the [FileExistsError] of a taken destination nor an error of a copy or
    a rename. *)
Theorem dry_run_is_pure {libs : Libs} (config : Config.t) (w : world) :
  Config.dry_run config = true →
  same_disk w (rename_files config w).2
  ∧ match (rename_files config w).1 with
    | Ok res => Result.backup_dir res = None ∧ Result.log_file res = None
    | Raise e => ∃ m, e = ValueError m
    end.
Proof.
  intros Hdry. rewrite rename_files_unfold. unfold bind.
  pose proof (prepare_same config w) as Hprep.
  destruct (prepare config w) as [[[[files bd] lf]|e] w1] eqn:Hp; simpl in *.
  - destruct (rename_loop _ _ _ _ _ w1) as [[recs|e] w2] eqn:Hloop;
      apply (rename_loop_dry_run _ _ _ _ _ _ _ _ Hdry) in Hloop as [Hs He]; simpl.
    + unfold finish, bind. rewrite Hdry. simpl. split; [by etrans|done].
    + split; [by etrans|eauto].
  - split; [done|]. by eapply prepare_Raise.
Qed.

Lemma dry_run_is_pure_witness :
  Config.dry_run (docs_config true) = true
  ∧ same_disk docs_world (rename_files (libs := example_libs) (docs_config true) docs_world).2
  ∧ match (rename_files (libs := example_libs) (docs_config true) docs_world).1 with
    | Ok res => Result.backup_dir res = None ∧ Result.log_file res = None
    | Raise e => ∃ m, e = ValueError m
    end.
Proof.
  split; [reflexivity|].
  apply (dry_run_is_pure (libs := example_libs) (docs_config true) docs_world).
  reflexivity.
Defined.

(* ===================================================================== *)
(** * Runs that write no new contents *)
(* ===================================================================== *)

#[local] Instance no_new_content_preorder : PreOrder no_new_content.
Proof.
  split.
  - intros w. split; [done|]. split; [|eauto].
    exists []. by rewrite app_nil_r.
  - intros w1 w2 w3 (Hc1 & (ev1 & Ht1 & He1) & Hf1) (Hc2 & (ev2 & Ht2 & He2) & Hf2).
    split; [congruence|]. split.
    + exists (ev1 ++ ev2). rewrite Ht2, Ht1, <- app_assoc. split; [done|].
      by apply Forall_app.
    + intros k d Hk. apply Hf2 in Hk as [k' Hk']. eauto.
Qed.

Lemma same_disk_no_new_content w w' : same_disk w w' → no_new_content w w'.
Proof.
  intros (Hfs & Hcwd & Htrace & _). split; [done|]. split.
  - exists []. by rewrite app_nil_r.
  - intros k d. rewrite Hfs. eauto.
Qed.

Lemma preserves_mono {A} (R R' : relation world) (m : M A) :
  (∀ w w', R w w' → R' w w') → preserves R m → preserves R' m.
Proof. intros Hsub Hm w. apply Hsub, Hm. Qed.

Lemma after_call_no_new_content e w w' :
  is_write e = false → after_call e w w' →
  (∀ k d, file_at (fs w') k = Some d → ∃ k', file_at (fs w) k' = Some d) →
  no_new_content w w'.
Proof.
  intros He (Hcwd & _ & Htrace) Hfiles. split; [done|]. split; [|done].
  exists [e]. split; [done|]. by constructor.
Qed.

Lemma shutil_copy2_Raise src dst w e w' :
  shutil_copy2 src dst w = (Raise e, w') →
  fs w' = fs w ∧ ∃ ev, is_write ev = false ∧ after_call ev w w'.
Proof.
  unfold shutil_copy2.
  set (dst' := if lookup_path w dst is Ok (Dir _) then _ else dst).
  set (ev := EvCopy _ _).
  assert (fs (log_event ev w) = fs w
          ∧ ∃ ev', is_write ev' = false ∧ after_call ev' w (log_event ev w)) as Hev.
  { split; [done|]. exists ev. split; [done | by split]. }
  destruct (lookup_path w src) as [n|e0]; [|by intros [= <- <-]].
  destruct (_ && _); [by intros [= <- <-]|].
  destruct n as [c m|m]; [|by intros [= <- <-]].
  destruct (store w dst' (File c m)); [discriminate | by intros [= <- <-]].
Qed.

Lemma os_replace_Raise src dst w e w' :
  os_replace src dst w = (Raise e, w') →
  fs w' = fs w ∧ ∃ ev, is_write ev = false ∧ after_call ev w w'.
Proof.
  unfold os_replace. set (ev := EvReplace _ _).
  assert (fs (log_event ev w) = fs w
          ∧ ∃ ev', is_write ev' = false ∧ after_call ev' w (log_event ev w)) as Hev.
  { split; [done|]. exists ev. split; [done | by split]. }
  destruct (lookup_path w src) as [[c m|m]|e0]; [|by intros [= <- <-]..].
  destruct (_ && _); [discriminate|].
  destruct (store w dst (File c m)); [discriminate | by intros [= <- <-]].
Qed.

Lemma shutil_copy2_no_new src dst : preserves no_new_content (shutil_copy2 src dst).
Proof.
  intros w. destruct (shutil_copy2 src dst w) as [[[]|e] w'] eqn:Hcall; simpl.
  - apply shutil_copy2_Ok in Hcall
      as (d & dst' & _ & _ & _ & _ & _ & Hsrc & _ & Hfiles & _ & Hafter).
    eapply after_call_no_new_content; [|exact Hafter|]; [done|].
    intros k d'. rewrite Hfiles. case_decide; [intros [= <-]|]; eauto.
  - apply shutil_copy2_Raise in Hcall as (Hfs & ev & Hev & Hafter).
    eapply after_call_no_new_content; [exact Hev|exact Hafter|].
    rewrite Hfs. eauto.
Qed.

Lemma os_replace_no_new src dst : preserves no_new_content (os_replace src dst).
Proof.
  intros w. destruct (os_replace src dst w) as [[[]|e] w'] eqn:Hcall; simpl.
  - apply os_replace_Ok in Hcall as (d & _ & _ & _ & _ & Hsrc & Hfiles & _ & Hafter).
    eapply after_call_no_new_content; [|exact Hafter|]; [done|].
    intros k d'. rewrite Hfiles. repeat case_decide; [intros [= <-]|done|]; eauto.
  - apply os_replace_Raise in Hcall as (Hfs & ev & Hev & Hafter).
    eapply after_call_no_new_content; [exact Hev|exact Hafter|].
    rewrite Hfs. eauto.
Qed.

Lemma _ensure_directory_no_new p : preserves no_new_content (_ensure_directory p).
Proof.
  intros w. destruct (_ensure_directory p w) as [r w'] eqn:Hcall; simpl.
  apply _ensure_directory_spec in Hcall as (Hfiles & _ & _ & Hcwd & _ & [->|Hafter]).
  - reflexivity.
  - eapply after_call_no_new_content; [|exact Hafter|]; [done|].
    intros k d. rewrite Hfiles. eauto.
Qed.

Section NoNewContent.
Context {libs : Libs}.

Lemma rename_one_no_new config bd f counter :
  preserves no_new_content (rename_one config bd f counter).
Proof.
  pose proof shutil_copy2_no_new. pose proof os_replace_no_new.
  pose proof _ensure_directory_no_new.
  assert (∀ A (m : M A), preserves same_disk m → preserves no_new_content m) as Hweak.
  { intros A m. apply preserves_mono, same_disk_no_new_content. }
  unfold rename_one.
  repeat first
    [ done
    | apply Hweak; solve [auto with same_disk | apply _build_new_name_same]
    | preserves_step ].
Qed.

Lemma rename_loop_no_new config bd files counter acc :
  preserves no_new_content (rename_loop config bd files counter acc).
Proof.
  revert counter acc. induction files as [|f files IH]; intros counter acc; simpl.
  - apply preserves_ret; apply _.
  - apply preserves_bind; [apply _ | apply rename_one_no_new | intros r; apply IH].
Qed.

(** C10.  No log on abort: when [rename_files] aborts because a destination
    exists, it has issued no write, and every regular file then on disk is
    a copy (contents and modification time) of a file that was there before
    the call; so whatever log [undo]'s search can load afterwards is a
    document that existed before this operation, not a record of the
    renames it performed. *)
Theorem no_log_on_conflict (config : Config.t) (w : world) (target : string) (w' : world) :
  rename_files config w = (Raise (FileExistsError target), w') →
  no_new_content w w'
  ∧ ∀ (p : string) (data : json) (w'' : world),
      load_rename_log p w' = (Ok data, w'') → data ≠ JNull →
      ∃ k m, file_at (fs w) k = Some (JsonDoc data, m).
Proof.
  intros Hrun.
  assert (no_new_content w w') as Hnew.
  { rewrite rename_files_unfold in Hrun.
    pose proof (prepare_same config w) as Hprep.
    apply bind_Raise_inv in Hrun as [Hp|([[files bd] lf] & w1 & Hp & Hrest)].
    { by apply prepare_Raise in Hp as [m ?]. }
    rewrite Hp in Hprep. simpl in Hprep. apply same_disk_no_new_content in Hprep.
    etrans; [exact Hprep|].
    apply bind_Raise_inv in Hrest as [Hloop|(recs & w2 & Hloop & Hfin)].
    - pose proof (rename_loop_no_new config bd files (Config.numbering_start config) [] w1)
        as Hl. by rewrite Hloop in Hl.
    - exfalso. unfold finish in Hfin.
      apply bind_Raise_inv in Hfin as [Hlog|([] & w3 & _ & Hret)]; [|discriminate].
      destruct (negb (Config.dry_run config)); [|discriminate].
      unfold _write_log in Hlog.
      apply bind_Raise_inv in Hlog as [Hts|(ts & w3 & _ & Hwrite)]; [discriminate|].
      by apply write_json_Raise in Hwrite as [n ?]. }
  split; [done|].
  intros p data w'' Hload Hdata.
  destruct Hnew as (_ & _ & Hfiles).
  unfold load_rename_log, try_except, bind, read_file in Hload.
  destruct (lookup_path w' p) as [[c m|m]|e] eqn:Hlook.
  - apply lookup_path_file in Hlook as (_ & _ & Hfile).
    destruct c as [raw|j]; simpl in Hload; [by injection Hload as <-|].
    injection Hload as <- _. apply Hfiles in Hfile as [k Hk]. eauto.
  - simpl in Hload. discriminate.
  - simpl in Hload. revert Hload. unfold ret.
    repeat case_match; intros; simplify_eq; done.
Qed.

End NoNewContent.

Lemma no_log_on_conflict_witness :
  rename_files (libs := example_libs) inbox_config inbox_world
  = (Raise (FileExistsError "/inbox/pb.txt"),
     (rename_files (libs := example_libs) inbox_config inbox_world).2)
  ∧ (no_new_content inbox_world
       (rename_files (libs := example_libs) inbox_config inbox_world).2
     ∧ ∀ (p : string) (data : json) (w'' : world),
         load_rename_log p (rename_files (libs := example_libs) inbox_config inbox_world).2
         = (Ok data, w'') → data ≠ JNull →
         ∃ k m, file_at (fs inbox_world) k = Some (JsonDoc data, m)).
Proof.
  assert (rename_files (libs := example_libs) inbox_config inbox_world
          = (Raise (FileExistsError "/inbox/pb.txt"),
             (rename_files (libs := example_libs) inbox_config inbox_world).2)) as Hrun.
  { apply run_by_outcome. vm_compute. reflexivity. }
  split; [exact Hrun|].
  exact (no_log_on_conflict (libs := example_libs) inbox_config inbox_world
           "/inbox/pb.txt" _ Hrun).
Defined.

(* ===================================================================== *)
(** * Conflicts *)
(* ===================================================================== *)

(** C5.  Conflict abort: in a run that is not a dry run, when the records
    of the files [pre] are done and the next file [f] is to be renamed to a
    different path at which something exists, [rename_files] raises
    [FileExistsError] for that path at once: the world it leaves is the one
    the earlier records left (same files, no further system call), so the
    files they renamed stay renamed and the files [post] are not looked
    at. *)
Theorem conflict_aborts {libs : Libs} (config : Config.t) (w : world)
    (pre : list string) (f : string) (post : list string) (bd lf : string)
    (w1 : world) (recs : list RenameRecord) (w2 : world) (nn : string) (w3 : world) :
  Config.dry_run config = false →
  prepare config w = (Ok (pre ++ f :: post, bd, lf), w1) →
  rename_loop config bd pre (Config.numbering_start config) [] w1 = (Ok recs, w2) →
  _build_new_name (OsPath.basename f) config
    (counter_after config (Config.numbering_start config) (length pre)) w2
  = (Ok nn, w3) →
  os_path_abspath w3 f ≠ os_path_abspath w3 (OsPath.join (Config.directory config) nn) →
  (os_path_exists (OsPath.join (Config.directory config) nn) w3).1 = Ok true →
  rename_files config w
  = (Raise (FileExistsError (OsPath.join (Config.directory config) nn)), w3)
  ∧ same_disk w2 w3.
Proof.
  intros Hdry Hprep Hpre Hname Habs Hex.
  split.
  - rewrite rename_files_unfold, (bind_Ok_eq _ _ _ _ _ Hprep). simpl.
    apply rename_loop_Ok in Hpre as (recs' & -> & Hrun).
    rewrite (bind_Raise_eq _ _ _ (FileExistsError (OsPath.join (Config.directory config) nn)) w3);
      [done|].
    rewrite (rename_loop_app _ _ _ _ _ _ _ _ _ Hrun). simpl.
    apply bind_Raise_eq. unfold rename_one.
    rewrite (bind_Ok_eq _ _ _ _ _ Hname), Hdry.
    unfold bind, same_abspath. rewrite bool_decide_eq_false_2 by done.
    destruct (os_path_exists _ w3) as [o w4] eqn:Hex'. simpl in Hex. subst o.
    by injection Hex' as _ <-.
  - pose proof (_build_new_name_same (OsPath.basename f) config
                  (counter_after config (Config.numbering_start config) (length pre)) w2)
      as Hs.
    by rewrite Hname in Hs.
Qed.

Lemma conflict_aborts_witness :
  Config.dry_run inbox_config = false
  ∧ prepare inbox_config inbox_world
    = (Ok (["/inbox/a.txt"] ++ "/inbox/b.txt" :: ["/inbox/pb.txt"],
           "/inbox/backup_1700000000", "/inbox/rename_log_1700000001.json"),
       inbox_prepared)
  ∧ file_at (fs inbox_after_a) ["inbox"; "pa.txt"] = Some (Raw "alpha", 20)
  ∧ rename_files (libs := example_libs) inbox_config inbox_world
    = (Raise (FileExistsError (OsPath.join (Config.directory inbox_config) "pb.txt")),
       inbox_after_a)
  ∧ same_disk inbox_after_a inbox_after_a.
Proof.
  split; [reflexivity|].
  assert (prepare inbox_config inbox_world
          = (Ok (["/inbox/a.txt"] ++ "/inbox/b.txt" :: ["/inbox/pb.txt"],
                 "/inbox/backup_1700000000", "/inbox/rename_log_1700000001.json"),
             inbox_prepared)) as Hprep.
  { apply run_by_outcome. vm_compute. reflexivity. }
  split; [exact Hprep|]. split; [vm_compute; reflexivity|].
  assert ((rename_loop (libs := example_libs) inbox_config "/inbox/backup_1700000000"
             ["/inbox/a.txt"] 1 [] inbox_prepared).1 = Ok [inbox_record_a]) as Hloop.
  { vm_compute. reflexivity. }
  apply run_by_outcome in Hloop. fold inbox_after_a in Hloop.
  assert ((_build_new_name (libs := example_libs) "b.txt" inbox_config 1 inbox_after_a).1
          = Ok "pb.txt") as Hname.
  { vm_compute. reflexivity. }
  apply run_by_outcome in Hname.
  assert ((_build_new_name (libs := example_libs) "b.txt" inbox_config 1 inbox_after_a).2
          = inbox_after_a) as Hsame by reflexivity.
  rewrite Hsame in Hname.
  apply (conflict_aborts (libs := example_libs) inbox_config inbox_world
           ["/inbox/a.txt"] "/inbox/b.txt" ["/inbox/pb.txt"]
           "/inbox/backup_1700000000" "/inbox/rename_log_1700000001.json"
           inbox_prepared [inbox_record_a] inbox_after_a "pb.txt" inbox_after_a).
  - reflexivity.
  - exact Hprep.
  - exact Hloop.
  - exact Hname.
  - vm_compute. intros [=].
  - vm_compute. reflexivity.
Defined.

(* ===================================================================== *)
(** * Plans *)
(* ===================================================================== *)

















Section Plans.
Context {libs : Libs}.







Lemma loop_run_paths config bd files counter w recs w' :
  loop_run config bd files counter w recs w' → map original_path recs = files.
Proof.
  induction 1 as [|f files c w r w1 recs w' Hone _ IH]; simpl; [done|].
  apply rename_one_Ok in Hone as (_ & _ & _ & -> & _). by rewrite IH.
Qed.

End Plans.

Lemma _collect_files_matching directory extensions w entries :
  os_scandir directory w = (Ok entries, w) →
  _collect_files directory extensions w = (Ok (sorted (matching extensions entries)), w).
Proof.
  intros Hscan. unfold _collect_files, bind, try_except. by rewrite Hscan.
Qed.

Lemma sorted_spec (l : list string) :
  StronglySorted String.le (sorted l) ∧ sorted l ≡ₚ l.
Proof.
  split.
  - apply StronglySorted_merge_sort; apply _.
  - apply merge_sort_Permutation.
Qed.





Lemma read_only_run {A} (run : outcome A * world) (o : outcome A) (w : world) :
  run.1 = o → run.2 = w → run = (o, w).
Proof. destruct run. simpl. by intros -> ->. Qed.



(* ===================================================================== *)
(** * Empty names *)
(* ===================================================================== *)

Section EmptyNames.
Context {libs : Libs}.



End EmptyNames.


Lemma _collect_files_world d exts w : (_collect_files d exts w).2 = w.
Proof.
  unfold _collect_files, bind, try_except, os_scandir, raise, ret.
  repeat case_match; simplify_eq/=; done.
Qed.



(* ===================================================================== *)
(** * Undo: giving up *)
(* ===================================================================== *)

#[local] Instance unchanged_preorder : PreOrder unchanged.
Proof. split; [by intros w | intros w1 w2 w3; unfold unchanged; congruence]. Qed.

Lemma os_path_exists_unchanged p : preserves unchanged (os_path_exists p).
Proof. by intros w. Qed.
Lemma os_path_getmtime_unchanged p : preserves unchanged (os_path_getmtime p).
Proof. intros w. unfold os_path_getmtime. by destruct (lookup_path w p) as [[]|]. Qed.
Lemma read_file_unchanged p : preserves unchanged (read_file p).
Proof. intros w. unfold read_file. by destruct (lookup_path w p) as [[]|]. Qed.
Lemma glob_glob_unchanged p : preserves unchanged (glob_glob p).
Proof.
  intros w. unfold glob_glob. destruct (OsPath.split p) as [d b].
  repeat case_match; done.
Qed.

Ltac unchanged :=
  repeat first
    [ apply os_path_exists_unchanged
    | apply os_path_getmtime_unchanged
    | apply read_file_unchanged
    | apply glob_glob_unchanged
    | preserves_step ].

Lemma find_latest_log_unchanged d : preserves unchanged (find_latest_log d).
Proof. unfold find_latest_log, sort_by_mtime_desc. unchanged. Qed.

Lemma find_backup_dir_unchanged p : preserves unchanged (find_backup_dir p).
Proof. unfold find_backup_dir, sort_by_mtime_desc. unchanged. Qed.

Lemma load_rename_log_unchanged p : preserves unchanged (load_rename_log p).
Proof. unfold load_rename_log. unchanged. Qed.

Lemma load_rename_log_read p w :
  load_rename_log p w
  = match read_file p w with
    | (Ok (JsonDoc data), _) => (Ok data, w)
    | (Ok (Raw _), _) | (Raise (OSError ENOENT), _) | (Raise JSONDecodeError, _) =>
        (Ok JNull, w)
    | (Raise e, _) => (Raise e, w)
    end.
Proof.
  pose proof (read_file_unchanged p w) as Hw. unfold unchanged in Hw.
  unfold load_rename_log, try_except, bind.
  destruct (read_file p w) as [[[text|data]|e] w1]; simpl in *; subst w1; try done.
  by destruct e as [| |[]| | | | | | |].
Qed.

(** The part of [undo_rename] that follows the choice of the log. *)
Lemma undo_rename_chosen directory log_file w chosen :
  chosen_log directory log_file w chosen →
  undo_rename directory log_file w
  = (let* log_data := load_rename_log chosen in
     if log_data is JNull then ret (UndoResult.failed FailedToReadLog chosen "")
     else
       let* renamed_files := py_get log_data "renamed_files" (JList []) in
       if negb (py_truthy renamed_files)
       then ret (UndoResult.failed NoRenameRecords chosen "")
       else
         let* first_record := py_first renamed_files in
         let* original_path := py_get first_record "original_path" (JStr "") in
         if negb (py_truthy original_path)
         then ret (UndoResult.failed FormatInvalid chosen "")
         else
           let* first_path := py_path original_path in
           let* backup := find_backup_dir first_path in
           match backup with
           | None => ret (UndoResult.failed NoBackupDirectories chosen "")
           | Some backup_dir =>
               let* present := os_path_exists backup_dir in
               if negb present
               then ret (UndoResult.failed BackupDirectoryNotFound chosen backup_dir)
               else
                 let* records := py_iter renamed_files in
                 let* '(restored, skipped, details) :=
                   restore_loop backup_dir records 0 0 [] in
                 ret {| UndoResult.success := 0 <? restored;
                        UndoResult.restored_count := restored;
                        UndoResult.skipped_count := skipped;
                        UndoResult.error_message :=
                          if restored =? 0 then Some NoFilesRestored else None;
                        UndoResult.log_file := chosen;
                        UndoResult.backup_dir := backup_dir;
                        UndoResult.details := details |}
           end) w.
Proof.
  intros [->|[-> Hfound]]; unfold undo_rename.
  - done.
  - by rewrite (bind_Ok_eq _ _ _ _ _ Hfound).
Qed.




(** Where [undo_rename] raises instead of returning a result: a log that
    holds a JSON array has no [get], and a directory named like a log
    cannot be opened; [load_rename_log] lets both errors through. *)
Lemma undo_raises_on_malformed_log :
  (undo_rename "/inbox" None array_log_world).1 = Raise AttributeError
  ∧ (undo_rename "/inbox" None directory_log_world).1 = Raise (OSError EISDIR).
Proof. split; vm_compute; reflexivity. Qed.

(* ===================================================================== *)
(** * Round trip: the effect of records on the files *)
(* ===================================================================== *)

Section Effects.
Context (w : world) (bd : string).

Lemma apply_effect_frame f r k :
  k ∉ locations w bd r → apply_effect w bd f r k = f k.
Proof.
  unfold apply_effect, locations. destruct (renamed r); [|done].
  intros Hk. repeat case_decide; subst; set_solver.
Qed.

Lemma undo_effect_frame f r k :
  k ∉ locations w bd r → undo_effect w bd f r k = f k.
Proof.
  unfold undo_effect, locations. destruct (renamed r); [|done].
  intros Hk. repeat case_decide; subst; set_solver.
Qed.

Lemma apply_effects_frame recs f k :
  k ∉ recs ≫= locations w bd → foldl (apply_effect w bd) f recs k = f k.
Proof.
  revert f. induction recs as [|r recs IH]; intros f Hk; [done|].
  rewrite bind_cons in Hk. apply not_elem_of_app in Hk as [Hr Hrecs].
  simpl. rewrite IH by done. by apply apply_effect_frame.
Qed.

Lemma undo_effects_frame recs f k :
  k ∉ recs ≫= locations w bd → foldl (undo_effect w bd) f recs k = f k.
Proof.
  revert f. induction recs as [|r recs IH]; intros f Hk; [done|].
  rewrite bind_cons in Hk. apply not_elem_of_app in Hk as [Hr Hrecs].
  simpl. rewrite IH by done. by apply undo_effect_frame.
Qed.

Lemma apply_effect_ext f g r :
  (∀ k, f k = g k) → ∀ k, apply_effect w bd f r k = apply_effect w bd g r k.
Proof.
  intros Hfg k. unfold apply_effect. destruct (renamed r); [|done].
  by rewrite !Hfg.
Qed.

Lemma undo_effect_ext f g r :
  (∀ k, f k = g k) → ∀ k, undo_effect w bd f r k = undo_effect w bd g r k.
Proof.
  intros Hfg k. unfold undo_effect. destruct (renamed r); [|done].
  by rewrite !Hfg.
Qed.

Lemma apply_effects_ext recs f g :
  (∀ k, f k = g k) →
  ∀ k, foldl (apply_effect w bd) f recs k = foldl (apply_effect w bd) g recs k.
Proof.
  revert f g. induction recs as [|r recs IH]; intros f g Hfg; [done|].
  simpl. apply IH. by apply apply_effect_ext.
Qed.

Lemma undo_effects_ext recs f g :
  (∀ k, f k = g k) →
  ∀ k, foldl (undo_effect w bd) f recs k = foldl (undo_effect w bd) g recs k.
Proof.
  revert f g. induction recs as [|r recs IH]; intros f g Hfg; [done|].
  simpl. apply IH. by apply undo_effect_ext.
Qed.

Lemma locations_renamed r :
  renamed r = true → locations w bd r = [orig_key w r; new_key w r; backup_key w bd r].
Proof. unfold locations. by intros ->. Qed.

(** After all records are applied, a renamed record has its file, as it
    was, at its destination and in its backup copy. *)
Lemma apply_effects_record recs f r :
  NoDup (recs ≫= locations w bd) → r ∈ recs → renamed r = true →
  foldl (apply_effect w bd) f recs (backup_key w bd r) = f (orig_key w r)
  ∧ foldl (apply_effect w bd) f recs (new_key w r) = f (orig_key w r).
Proof.
  revert f. induction recs as [|r0 recs IH]; intros f Hnd Hin Hr; [by inversion Hin|].
  rewrite bind_cons in Hnd. apply NoDup_app in Hnd as (Hnd0 & Hdisj & Hnd).
  simpl. apply elem_of_cons in Hin as [->|Hin].
  - rewrite (locations_renamed _ Hr) in Hnd0, Hdisj.
    apply NoDup_cons in Hnd0 as [Ho Hnd0]. apply NoDup_cons in Hnd0 as [Hn _].
    clear IH. rewrite !apply_effects_frame by (apply Hdisj; set_solver).
    unfold apply_effect. rewrite Hr. repeat case_decide; subst; set_solver.
  - destruct (IH (apply_effect w bd f r0) Hnd Hin Hr) as [-> ->].
    assert (orig_key w r ∉ locations w bd r0) as Ho.
    { intros Hin0. apply (Hdisj _ Hin0), list_elem_of_bind. exists r.
      rewrite (locations_renamed _ Hr). clear IH. set_solver. }
    by rewrite apply_effect_frame.
Qed.

(** After all records are undone, a renamed record has its backup copy at
    its original path and nothing at its destination. *)
Lemma undo_effects_record recs f r :
  NoDup (recs ≫= locations w bd) → r ∈ recs → renamed r = true →
  foldl (undo_effect w bd) f recs (orig_key w r) = f (backup_key w bd r)
  ∧ foldl (undo_effect w bd) f recs (new_key w r) = None.
Proof.
  revert f. induction recs as [|r0 recs IH]; intros f Hnd Hin Hr; [by inversion Hin|].
  rewrite bind_cons in Hnd. apply NoDup_app in Hnd as (Hnd0 & Hdisj & Hnd).
  simpl. apply elem_of_cons in Hin as [->|Hin].
  - rewrite (locations_renamed _ Hr) in Hnd0, Hdisj.
    apply NoDup_cons in Hnd0 as [Ho Hnd0]. apply NoDup_cons in Hnd0 as [Hn _].
    clear IH. rewrite !undo_effects_frame by (apply Hdisj; set_solver).
    unfold undo_effect. rewrite Hr. repeat case_decide; subst; set_solver.
  - destruct (IH (undo_effect w bd f r0) Hnd Hin Hr) as [-> ->]. split; [|done].
    assert (backup_key w bd r ∉ locations w bd r0) as Ho.
    { intros Hin0. apply (Hdisj _ Hin0), list_elem_of_bind. exists r.
      rewrite (locations_renamed _ Hr). clear IH. set_solver. }
    by rewrite undo_effect_frame.
Qed.

End Effects.

(* ===================================================================== *)
(** * Round trip: what a run of the loop leaves on disk *)
(* ===================================================================== *)

Lemma resolve_cwd w1 w2 p : cwd w1 = cwd w2 → resolve w1 p = resolve w2 p.
Proof. unfold resolve. by intros ->. Qed.

Section ApplyOnDisk.
Context {libs : Libs}.
Context (w0 : world) (config : Config.t) (bd : string).
Context (Hwet : Config.dry_run config = false).

Lemma dirs_grow_refl w1 : dirs_grow w0 bd w1 w1.
Proof. split; auto. Qed.

Lemma dirs_grow_trans w1 w2 w3 :
  dirs_grow w0 bd w1 w2 → dirs_grow w0 bd w2 w3 → dirs_grow w0 bd w1 w3.
Proof.
  intros [Hk1 Hn1] [Hk2 Hn2]. split; [auto|].
  intros k [Hk|Hk]%Hn2; [|auto]. by apply Hn1.
Qed.

Lemma step_on_disk w1 r w' :
  cwd w1 = cwd w0 →
  step_kind config bd w1 r w' →
  (renamed r = true →
   dir_at (fs w1) (backup_key w0 bd r) = false
   ∧ ¬ backup_key w0 bd r `prefix_of` resolve w0 bd) →
  cwd w' = cwd w0
  ∧ (∀ k, file_at (fs w') k = apply_effect w0 bd (file_at (fs w1)) r k)
  ∧ dirs_grow w0 bd w1 w'
  ∧ (skipped r = None ∨ skipped r = Some "Name unchanged.")
  ∧ (renamed r = true →
     usable_paths bd r ∧ is_Some (file_at (fs w1) (orig_key w0 r))).
Proof.
  intros Hcwd Hkind Hbak.
  destruct Hkind as [Hdry _ _ _
                    |_ _ Hs _ ->
                    |w2 w3 w4 _ Habs Hfree Hens Hcopy Hrepl Hs Hat ->].
  - congruence.
  - unfold apply_effect, renamed. rewrite Hs.
    split; [done|]. split; [done|]. split; [apply dirs_grow_refl|].
    split; [by right|]. done.
  - assert (renamed r = true) as Hren by (unfold renamed; by rewrite Hs).
    destruct (Hbak Hren) as [Hnodir Hnopfx].
    apply _ensure_directory_spec in Hens as (Hf2 & Hd2 & Hn2 & Hc2 & _ & _).
    assert (lookup_path w2 (OsPath.join bd (original_name r)) ≠ Ok (Dir 0)
            ∧ ∀ m, lookup_path w2 (OsPath.join bd (original_name r)) ≠ Ok (Dir m))
      as [_ Hnotdir].
    { split; intros; intros Hl%lookup_path_dir;
        rewrite (resolve_cwd w2 w0) in Hl by congruence;
        apply Hn2 in Hl as [Hl|Hl];
        [ unfold backup_key in Hnodir; congruence
        | rewrite (resolve_cwd w1 w0) in Hl by done; done
        | unfold backup_key in Hnodir; congruence
        | rewrite (resolve_cwd w1 w0) in Hl by done; done ]. }
    apply shutil_copy2_Ok in Hcopy
      as (d & dst' & Hdst' & Hs1 & Hs2 & Hb1 & Hb2 & Hsrc & Hne & Hf3 & Hd3 & Hc3 & _).
    assert (dst' = OsPath.join bd (original_name r)) as ->.
    { rewrite Hdst'. destruct (lookup_path w2 _) as [[c m|m]|e] eqn:Hl; try done.
      by destruct (Hnotdir m). }
    apply os_replace_Ok in Hrepl
      as (d' & _ & _ & Hn1 & Hn2' & Hsrc' & Hf4 & Hd4 & Hc4 & _).
    assert (cwd w2 = cwd w0) as Hcw2 by congruence.
    assert (cwd w3 = cwd w0) as Hcw3 by congruence.
    rewrite (resolve_cwd w3 w0 (original_path r) Hcw3) in Hsrc'.
    assert (∀ k, file_at (fs w4) k
                 = if decide (k = new_key w0 r) then Some d'
                   else if decide (k = orig_key w0 r) then None
                   else file_at (fs w3) k) as Hf4'.
    { intros k. rewrite Hf4. unfold new_key, orig_key.
      by rewrite (resolve_cwd w3 w0 (new_path r) Hcw3),
        (resolve_cwd w3 w0 (original_path r) Hcw3). }
    rewrite (resolve_cwd w2 w0 (original_path r) Hcw2) in Hsrc, Hne.
    rewrite (resolve_cwd w2 w0 (OsPath.join bd (original_name r)) Hcw2) in Hne.
    assert (∀ k, file_at (fs w3) k
                 = if decide (k = backup_key w0 bd r) then Some d
                   else file_at (fs w1) k) as Hf3'.
    { intros k. rewrite Hf3, Hf2. unfold backup_key.
      by rewrite (resolve_cwd w2 w0 (OsPath.join bd (original_name r)) Hcw2). }
    clear Hf3 Hf4. fold (orig_key w0 r) in Hsrc, Hsrc', Hne.
    fold (backup_key w0 bd r) in Hne.
    rewrite Hf2 in Hsrc.
    rewrite Hf3', decide_False in Hsrc' by done.
    assert (d' = d) as -> by congruence.
    split; [simpl; congruence|]. split; [|split; [|split; [by left|]]].
    + intros k. simpl. rewrite Hf4'. unfold apply_effect. rewrite Hren, Hsrc.
      repeat case_decide; try done.
      * by rewrite Hf3', decide_True.
      * by rewrite Hf3', decide_False.
    + split; simpl.
      * intros k Hk. rewrite Hd4, Hd3. by apply Hd2.
      * intros k. rewrite Hd4, Hd3. intros [Hk|Hk]%Hn2; [by left|right].
        by rewrite <- (resolve_cwd w1 w0).
    + intros _. split.
      * repeat (split; [done|]). intros Heq. apply Habs. by rewrite Heq.
      * by rewrite Hsrc.
Qed.

Lemma run_on_disk w1 files counter recs w2 :
  cwd w1 = cwd w0 →
  loop_run config bd files counter w1 recs w2 →
  NoDup (recs ≫= locations w0 bd) →
  Forall (fun r => renamed r = true →
                   dir_at (fs w1) (backup_key w0 bd r) = false
                   ∧ ¬ backup_key w0 bd r `prefix_of` resolve w0 bd) recs →
  cwd w2 = cwd w0
  ∧ (∀ k, file_at (fs w2) k = foldl (apply_effect w0 bd) (file_at (fs w1)) recs k)
  ∧ dirs_grow w0 bd w1 w2
  ∧ Forall (fun r => (skipped r = None ∨ skipped r = Some "Name unchanged.")
                     ∧ (renamed r = true →
                        usable_paths bd r
                        ∧ is_Some (file_at (fs w1) (orig_key w0 r)))) recs.
Proof.
  intros Hcwd Hrun. revert Hcwd.
  induction Hrun as [c w1|f files c w1 r w1' recs w2 Hone Hrun IH];
    intros Hcwd Hnd Hdirs.
  - split; [done|]. split; [done|]. split; [apply dirs_grow_refl|]. constructor.
  - apply rename_one_Ok in Hone as (wn & Hname & _ & _ & _ & Hkind).
    pose proof (_build_new_name_same (OsPath.basename f) config c w1) as Hsame.
    rewrite Hname in Hsame. destruct Hsame as (Hfs & Hcw & _ & _).
    simpl in Hfs, Hcw.
    apply Forall_cons in Hdirs as [Hdir Hdirs].
    rewrite bind_cons in Hnd. apply NoDup_app in Hnd as (Hnd0 & Hdisj & Hnd).
    destruct (step_on_disk wn r w1') as (Hcwd' & Hfiles' & Hgrow' & Hskip & Huse);
      [congruence | done | by rewrite Hfs |].
    rewrite Hfs in Hfiles', Huse.
    assert (dirs_grow w0 bd w1 w1') as Hgrow1.
    { destruct Hgrow' as [Hk Hn]. rewrite Hfs in Hk, Hn. by split. }
    destruct IH as (Hcwd2 & Hfiles2 & Hgrow2 & Hall); [done | done | |].
    { eapply Forall_impl; [exact Hdirs|]. intros r' Hr' Hren.
      destruct (Hr' Hren) as [Hnodir Hnopfx]. split; [|done].
      destruct (dir_at (fs w1') (backup_key w0 bd r')) eqn:Hd; [|done].
      apply Hgrow1 in Hd as [Hd|Hd]; [congruence | done]. }
    split; [done|]. split; [|split; [by eapply dirs_grow_trans|]].
    + intros k. rewrite Hfiles2. simpl. by apply apply_effects_ext.
    + constructor; [done|].
      apply Forall_forall. intros r' Hin'.
      rewrite Forall_forall in Hall. destruct (Hall r' Hin') as [Hs' Hu'].
      split; [done|]. intros Hren'. destruct (Hu' Hren') as [Hup Hsome].
      split; [done|]. rewrite Hfiles' in Hsome.
      rewrite apply_effect_frame in Hsome; [done|].
      intros Hin0. apply (Hdisj _ Hin0), list_elem_of_bind. exists r'.
      rewrite (locations_renamed _ _ _ Hren'). split; [|done].
      apply list_elem_of_here.
Qed.

End ApplyOnDisk.

(* ===================================================================== *)
(** * Round trip: undoing one record *)
(* ===================================================================== *)

Lemma dir_at_lookup f k : dir_at f k = true → ∃ m, f !! k = Some (Dir m).
Proof. unfold dir_at. destruct (f !! k) as [[c m|m]|]; try done. eauto. Qed.

Lemma lookup_path_not_dir w p :
  dir_at (fs w) (resolve w p) = false → ∀ m, lookup_path w p ≠ Ok (Dir m).
Proof. intros Hd m Hl%lookup_path_dir. congruence. Qed.

(** A copy succeeds from a regular file to an entry that is not a
    directory and lies in a directory. *)
Lemma shutil_copy2_run src dst w d :
  src ≠ "" → wants_dir src = false →
  file_at (fs w) (resolve w src) = Some d →
  dst ≠ "" → wants_dir dst = false →
  dir_at (fs w) (resolve w dst) = false →
  dir_at (fs w) (removelast (resolve w dst)) = true →
  resolve w src ≠ resolve w dst →
  ∃ w', shutil_copy2 src dst w = (Ok tt, w').
Proof.
  intros Hs1 Hs2 Hsrc Hd1 Hd2 Hnd Hpar Hne. unfold shutil_copy2.
  pose proof (lookup_path_not_dir w dst Hnd) as Hnotdir.
  assert ((if lookup_path w dst is Ok (Dir _)
           then OsPath.join dst (OsPath.basename src) else dst) = dst) as ->.
  { destruct (lookup_path w dst) as [[c m|m]|e]; try done. by destruct (Hnotdir m). }
  rewrite (lookup_path_of_file w src d) by done.
  rewrite (bool_decide_eq_false_2 _ Hne), andb_false_r.
  unfold store. apply dir_at_lookup in Hpar as [m Hpar].
  unfold dir_at in Hnd.
  destruct (fs w !! resolve w dst) as [[c0 m0|m0]|]; [| done |].
  - rewrite Hd2. eauto.
  - rewrite bool_decide_eq_false_2, Hd2, Hpar by done. eauto.
Qed.

Lemma os_remove_run p w d :
  p ≠ "" → wants_dir p = false → file_at (fs w) (resolve w p) = Some d →
  ∃ w', os_remove p w = (Ok tt, w').
Proof.
  intros H1 H2 Hfile. unfold os_remove.
  rewrite (lookup_path_of_file w p d) by done. eauto.
Qed.

Lemma os_path_exists_file p w d :
  p ≠ "" → wants_dir p = false → file_at (fs w) (resolve w p) = Some d →
  os_path_exists p w = (Ok true, w).
Proof.
  intros H1 H2 Hfile. unfold os_path_exists.
  by rewrite (lookup_path_of_file w p d).
Qed.

(** The fields [undo_rename] reads from a record as the log holds it. *)
Lemma record_fields r :
  ∃ fields,
    record_to_json r = JObj fields
    ∧ dict_lookup "original_name" fields = Some (JStr (original_name r))
    ∧ dict_lookup "new_name" fields = Some (JStr (new_name r))
    ∧ dict_lookup "original_path" fields = Some (JStr (original_path r))
    ∧ dict_lookup "new_path" fields = Some (JStr (new_path r))
    ∧ dict_lookup "skipped" fields = JStr <$> skipped r.
Proof.
  destruct r as [on nn op np [s|] [t|]]; eexists; (split; [reflexivity|]);
    repeat split; reflexivity.
Qed.

Section UndoOnDisk.
Context (w0 : world) (bd : string).

Lemma restore_one_skipped r u :
  skipped r = Some "Name unchanged." →
  ∃ detail, restore_one bd (record_to_json r) u = (Ok (false, detail), u).
Proof.
  intros Hs. destruct (record_fields r) as (fields & -> & Hon & Hnn & Hop & Hnp & Hsk).
  unfold restore_one, py_get. cbv [bind ret].
  rewrite Hon, Hop, Hnp, Hsk, Hs. simpl. eauto.
Qed.

Lemma restore_one_renamed r u d :
  cwd u = cwd w0 →
  skipped r = None →
  usable_paths bd r →
  NoDup (locations w0 bd r) →
  file_at (fs u) (backup_key w0 bd r) = Some d →
  is_Some (file_at (fs u) (new_key w0 r)) →
  dir_at (fs u) (orig_key w0 r) = false →
  dir_at (fs u) (removelast (orig_key w0 r)) = true →
  ∃ detail u',
    restore_one bd (record_to_json r) u = (Ok (true, detail), u')
    ∧ cwd u' = cwd w0
    ∧ (∀ k, file_at (fs u') k = undo_effect w0 bd (file_at (fs u)) r k)
    ∧ (∀ k, dir_at (fs u') k = dir_at (fs u) k).
Proof.
  intros Hcwd Hs (Ho1 & Ho2 & Hn1 & Hn2 & Hb1 & Hb2 & Hdiff) Hnd Hbak [dn Hnew] Hnodir Hpar.
  assert (renamed r = true) as Hren by (unfold renamed; by rewrite Hs).
  rewrite (locations_renamed _ _ _ Hren) in Hnd.
  apply NoDup_cons in Hnd as [Ho Hnd]. apply NoDup_cons in Hnd as [Hn _].
  assert (orig_key w0 r ≠ new_key w0 r) as Hon by set_solver.
  assert (orig_key w0 r ≠ backup_key w0 bd r) as Hob by set_solver.
  assert (new_key w0 r ≠ backup_key w0 bd r) as Hnb by set_solver.
  clear Ho Hn.
  assert (resolve u (original_path r) = orig_key w0 r) as Hko by by apply resolve_cwd.
  assert (resolve u (new_path r) = new_key w0 r) as Hkn by by apply resolve_cwd.
  assert (resolve u (OsPath.join bd (original_name r)) = backup_key w0 bd r) as Hkb
    by by apply resolve_cwd.
  destruct (record_fields r) as (fields & -> & Hfon & Hfnn & Hfop & Hfnp & Hfsk).
  unfold restore_one, py_get. cbv [bind ret try_except].
  rewrite Hfon, Hfop, Hfnp, Hfsk, Hs. simpl.
  rewrite (lookup_path_of_file u _ d) by (done || by rewrite Hkb). simpl.
  rewrite (lookup_path_of_file u _ dn) by (done || by rewrite Hkn). simpl.
  destruct (shutil_copy2_run (OsPath.join bd (original_name r)) (original_path r) u d)
    as [u1 Hcopy]; try done; try (by rewrite ?Hkb, ?Hko).
  rewrite Hcopy.
  apply shutil_copy2_Ok in Hcopy
    as (d' & dst' & Hdst' & _ & _ & _ & _ & Hsrc & _ & Hf1 & Hd1 & (Hc1 & _)).
  assert (dst' = original_path r) as ->.
  { rewrite Hdst'. destruct (lookup_path u (original_path r)) as [[c m|m]|e] eqn:Hl; try done.
    apply lookup_path_dir in Hl. congruence. }
  rewrite Hkb, Hbak in Hsrc. injection Hsrc as <-. rewrite Hko in Hf1.
  assert (cwd u1 = cwd w0) as Hcwd1 by congruence.
  assert (resolve u1 (new_path r) = new_key w0 r) as Hkn1 by by apply resolve_cwd.
  assert (file_at (fs u1) (new_key w0 r) = Some dn) as Hnew1.
  { by rewrite Hf1, decide_False. }
  rewrite (lookup_path_of_file u1 _ dn) by (done || by rewrite Hkn1). simpl.
  rewrite (bool_decide_eq_false_2 (new_path r = original_path r)) by congruence.
  simpl.
  destruct (os_remove_run (new_path r) u1 dn) as [u2 Hrm]; try done; [by rewrite Hkn1|].
  rewrite Hrm.
  apply os_remove_Ok in Hrm as (_ & _ & Hf2 & Hd2 & (Hc2 & _)).
  rewrite Hkn1 in Hf2.
  eexists _, u2. split; [reflexivity|]. split; [congruence|]. split.
  - intros k. rewrite Hf2. unfold undo_effect. rewrite Hren.
    case_decide; [done|]. rewrite Hf1. case_decide; congruence.
  - intros k. by rewrite Hd2, Hd1.
Qed.

End UndoOnDisk.

(* ===================================================================== *)
(** * Round trip: undoing the records of a run *)
(* ===================================================================== *)

Lemma renamed_count_split (recs : list RenameRecord) :
  Z.of_nat (length recs)
  = Z.of_nat (length (List.filter renamed recs)) + skipped_records recs.
Proof.
  unfold skipped_records. induction recs as [|r recs IH]; [done|].
  simpl. destruct (renamed r); simpl; lia.
Qed.

Section UndoRun.
Context (w0 : world) (bd : string).

Lemma restore_loop_records recs u restored skipped details :
  cwd u = cwd w0 →
  NoDup (recs ≫= locations w0 bd) →
  Forall (restorable w0 bd u) recs →
  ∃ details' u',
    restore_loop bd (map record_to_json recs) restored skipped details u
    = (Ok (restored + Z.of_nat (length (List.filter renamed recs)),
           skipped + skipped_records recs, details'), u')
    ∧ cwd u' = cwd w0
    ∧ (∀ k, file_at (fs u') k = foldl (undo_effect w0 bd) (file_at (fs u)) recs k)
    ∧ (∀ k, dir_at (fs u') k = dir_at (fs u) k).
Proof.
  revert u restored skipped details.
  induction recs as [|r recs IH]; intros u restored skipped details Hcwd Hnd Hall.
  - exists details, u. unfold skipped_records. simpl. rewrite !Z.add_0_r. done.
  - apply Forall_cons in Hall as [[Hs Hr] Hall].
    rewrite bind_cons in Hnd. apply NoDup_app in Hnd as (Hnd0 & Hdisj & Hnd).
    simpl map. simpl restore_loop.
    destruct Hs as [Hs|Hs].
    + assert (renamed r = true) as Hren by (unfold renamed; by rewrite Hs).
      destruct (Hr Hren) as (Huse & [d Hbak] & Hnew & Hnodir & Hpar).
      destruct (restore_one_renamed w0 bd r u d) as (detail & u1 & Hone & Hcwd1 & Hf1 & Hd1);
        try done.
      rewrite (bind_Ok_eq _ _ _ _ _ Hone).
      destruct (IH u1 (restored + 1) skipped (details ++ [detail])) as
        (details' & u' & Hloop & Hcwd' & Hf' & Hd'); [done | done | |].
      { rewrite Forall_forall in Hall. apply Forall_forall. intros r' Hin'.
        destruct (Hall r' Hin') as [Hs' Hr']. split; [done|]. intros Hren'.
        destruct (Hr' Hren') as (Huse' & Hbak' & Hnew' & Hnodir' & Hpar').
        assert (∀ k, k ∈ locations w0 bd r' → k ∉ locations w0 bd r) as Hfresh.
        { intros k Hk Hk0. apply (Hdisj _ Hk0), list_elem_of_bind. eauto. }
        rewrite (locations_renamed _ _ _ Hren') in Hfresh.
        rewrite !Hf1, !Hd1.
        rewrite !undo_effect_frame by (apply Hfresh; set_solver). done. }
      exists details', u'. split; [|split; [done|split]].
      * rewrite Hloop. unfold skipped_records. simpl. rewrite Hren. simpl.
        by rewrite Nat2Z.inj_succ, <- Z.add_1_l, Z.add_assoc.
      * intros k. rewrite Hf'. simpl. by apply undo_effects_ext.
      * intros k. by rewrite Hd', Hd1.
    + assert (renamed r = false) as Hren by (unfold renamed; by rewrite Hs).
      destruct (restore_one_skipped bd r u Hs) as [detail Hone].
      rewrite (bind_Ok_eq _ _ _ _ _ Hone).
      destruct (IH u restored (skipped + 1) (details ++ [detail])) as
        (details' & u' & Hloop & Hcwd' & Hf' & Hd'); [done | done | done |].
      exists details', u'. split; [|split; [done|split; [|done]]].
      * rewrite Hloop. unfold skipped_records. simpl. rewrite Hren. simpl.
        by rewrite Nat2Z.inj_succ, <- Z.add_1_l, Z.add_assoc.
      * intros k. rewrite Hf'. simpl. apply undo_effects_ext.
        intros k'. unfold undo_effect. by rewrite Hren.
Qed.

End UndoRun.

(* ===================================================================== *)
(** * Discovery: the most recently modified match *)
(* ===================================================================== *)

Lemma insert_desc_Permutation x l : insert_desc x l ≡ₚ x :: l.
Proof.
  induction l as [|y ys IH]; [done|]. simpl.
  destruct (snd x <? snd y); [|done].
  rewrite IH. apply Permutation_swap.
Qed.

Lemma sort_desc_Permutation l : sort_desc l ≡ₚ l.
Proof.
  induction l as [|x l IH]; [done|]. unfold sort_desc in *. simpl.
  by rewrite insert_desc_Permutation, IH.
Qed.

Lemma insert_desc_sorted x l :
  StronglySorted desc l → StronglySorted desc (insert_desc x l).
Proof.
  induction 1 as [|y ys Hs IH Hy]; simpl.
  - by repeat constructor.
  - destruct (snd x <? snd y) eqn:Hlt.
    + constructor; [done|]. rewrite insert_desc_Permutation.
      constructor; [|done]. unfold desc. lia.
    + constructor; [by constructor|].
      constructor; [unfold desc; lia|].
      eapply Forall_impl; [exact Hy|]. unfold desc. intros z Hz. lia.
Qed.

Lemma sort_desc_sorted l : StronglySorted desc (sort_desc l).
Proof.
  induction l as [|x l IH]; [constructor|]. by apply insert_desc_sorted.
Qed.

(** The first element of the sorted list has the greatest key. *)
Lemma sort_desc_head l x y :
  head (sort_desc l) = Some x → y ∈ l → snd y ≤ snd x.
Proof.
  intros Hhead Hy. rewrite <- (sort_desc_Permutation l) in Hy.
  pose proof (sort_desc_sorted l) as Hs.
  destruct (sort_desc l) as [|x' l']; simplify_eq/=.
  apply StronglySorted_inv in Hs as [_ Hall].
  apply elem_of_cons in Hy as [->|Hy]; [lia|].
  rewrite Forall_forall in Hall. by apply Hall.
Qed.

Lemma mapM_getmtime paths w keys w' :
  mapM os_path_getmtime paths w = (Ok keys, w') →
  w' = w ∧ Forall2 (fun p t => mtime_at w p = Some t) paths keys.
Proof.
  revert keys. induction paths as [|p paths IH]; intros keys; simpl.
  - intros [= <- <-]. by split.
  - intros (t & w1 & Ht & Hrest)%bind_Ok_inv.
    apply bind_Ok_inv in Hrest as (ts & w2 & Hts & Hret).
    injection Hret as <- <-.
    assert (w1 = w ∧ mtime_at w p = Some t) as [-> Hp].
    { revert Ht. unfold os_path_getmtime, mtime_at.
      repeat case_match; intros; simplify_eq; done. }
    destruct (IH _ Hts) as [-> Hall]. split; [done|]. by constructor.
Qed.

(** [paths.sort(key=os.path.getmtime, reverse=True)]: the result is a
    rearrangement of the paths, each of which has a modification time, and
    its first element has the greatest. *)
Lemma sort_by_mtime_desc_Ok paths w sorted w' :
  sort_by_mtime_desc paths w = (Ok sorted, w') →
  w' = w ∧ sorted ≡ₚ paths
  ∧ (∀ first, head sorted = Some first →
       ∃ t, mtime_at w first = Some t
            ∧ ∀ p, p ∈ paths → ∃ t', mtime_at w p = Some t' ∧ t' ≤ t).
Proof.
  unfold sort_by_mtime_desc.
  intros (keys & w1 & [-> Hkeys]%mapM_getmtime & Hret)%bind_Ok_inv.
  injection Hret as <- <-. split; [done|].
  assert (map fst (zip paths keys) = paths) as Hfst.
  { apply fst_zip. apply Forall2_length in Hkeys. lia. }
  assert (Forall (fun x => mtime_at w (fst x) = Some (snd x)) (zip paths keys)) as Hzip.
  { clear Hfst. induction Hkeys; simpl; constructor; auto. }
  split.
  { by rewrite sort_desc_Permutation, Hfst. }
  intros first Hhead.
  destruct (sort_desc (zip paths keys)) as [|[p0 t0] l'] eqn:Hsort; [discriminate|].
  simpl in Hhead. injection Hhead as <-.
  assert ((p0, t0) ∈ zip paths keys) as Hin0.
  { rewrite <- sort_desc_Permutation, Hsort. apply list_elem_of_here. }
  rewrite Forall_forall in Hzip.
  exists t0. split; [exact (Hzip _ Hin0)|].
  intros p Hp. rewrite <- Hfst in Hp.
  apply list_elem_of_fmap in Hp as ([p' t'] & -> & Hin).
  exists t'. split; [exact (Hzip _ Hin)|].
  apply (sort_desc_head (zip paths keys) (p0, t0) (p', t')); [|done].
  by rewrite Hsort.
Qed.

(* ===================================================================== *)
(** * Discovery of the files to rename *)
(* ===================================================================== *)

(** The entries of a directory are what the file system holds one
    component below it. *)
Lemma elem_of_children (f : gmap path node) (k : path) name n :
  (name, n) ∈ children f k ↔ f !! (k ++ [name]) = Some n.
Proof.
  unfold children. rewrite list_elem_of_omap. split.
  - intros ([k' n'] & Hin & Hsome). apply elem_of_map_to_list in Hin.
    assert (k' ≠ []) as Hne by (by destruct k').
    assert ((if bool_decide (removelast k' = k)
             then Some (List.last k' "", n') else None) = Some (name, n)) as Hif
      by (by destruct k').
    case_bool_decide as Hparent; [|discriminate].
    injection Hif as <- <-. rewrite <- Hparent.
    by rewrite <- app_removelast_last.
  - intros Hlook. exists (k ++ [name], n). split.
    + by apply elem_of_map_to_list.
    + destruct (k ++ [name]) as [|c k'] eqn:Hk'.
      { by apply app_eq_nil in Hk' as [_ ?]. }
      rewrite <- Hk'. rewrite removelast_last, last_last.
      by rewrite bool_decide_eq_true_2.
Qed.

Lemma join_nonempty a b : a ≠ "" → OsPath.join a b ≠ "".
Proof.
  intros Ha. unfold OsPath.join. destruct b as [|c b]; simpl.
  - destruct a as [|x a]; [done|]. by destruct (_ || _).
  - case_bool_decide; [done|]. simpl.
    destruct a as [|x a]; [done|]. by destruct (_ || _).
Qed.

Lemma _collect_files_inv directory extensions w files w' :
  _collect_files directory extensions w = (Ok files, w') →
  w' = w
  ∧ (∃ m, lookup_path w directory = Ok (Dir m))
  ∧ files
    = sorted (map entry_path
                (List.filter (keeps extensions)
                   (map (fun '(name, n) =>
                           {| entry_name := name;
                              entry_path := OsPath.join directory name;
                              entry_is_file := if n is File _ _ then true else false |})
                        (children (fs w) (resolve w directory))))).
Proof.
  unfold _collect_files, bind, try_except, os_scandir, raise, ret.
  destruct (lookup_path w directory) as [[c m|m]|e]; simpl.
  - discriminate.
  - intros [= <- <-]. eauto.
  - by destruct e.
Qed.

(** X8.  What discovery returns.  [_collect_files] changes nothing; when it
    returns, its result is in sorted order and holds exactly the paths
    [join(directory, name)] of the regular files directly in the directory
    whose lower-cased extension the filter lets through. Directories and
    anything below a subdirectory are left out. *)
Theorem collected_files_are_the_wanted_files
    (directory : string) (extensions : option (list string))
    (w : world) (files : list string) (w' : world) :
  _collect_files directory extensions w = (Ok files, w') →
  w' = w
  ∧ StronglySorted String.le files
  ∧ ∀ f, f ∈ files ↔
      ∃ name c m,
        f = OsPath.join directory name
        ∧ fs w !! (resolve w directory ++ [name]) = Some (File c m)
        ∧ wanted extensions name = true.
Proof.
  intros Hcol. apply _collect_files_inv in Hcol as (-> & _ & ->).
  split; [done|]. split; [apply sorted_spec|].
  intros f. rewrite (proj2 (sorted_spec _)).
  rewrite list_elem_of_fmap. split.
  - intros (e & -> & Hin).
    apply list_elem_of_In, filter_In in Hin as [Hin Hkeep].
    apply list_elem_of_In in Hin.
    apply list_elem_of_fmap in Hin as ([name n] & -> & Hin).
    apply elem_of_children in Hin.
    unfold keeps in Hkeep. simpl in Hkeep.
    destruct n as [c m|m]; [|done]. simpl in Hkeep.
    exists name, c, m. done.
  - intros (name & c & m & -> & Hlook & Hwanted).
    exists {| entry_name := name; entry_path := OsPath.join directory name;
              entry_is_file := true |}.
    split; [done|]. apply list_elem_of_In, filter_In. split.
    + apply list_elem_of_In, list_elem_of_fmap.
      exists (name, File c m). split; [done|]. by apply elem_of_children.
    + done.
Qed.

(* ===================================================================== *)
(** * Round trip: undo after a completed run *)
(* ===================================================================== *)

Lemma find_backup_dir_exists p w b w' :
  find_backup_dir p w = (Ok (Some b), w') → os_path_exists b w = (Ok true, w).
Proof.
  unfold find_backup_dir.
  intros (dirs & w1 & Hglob & Hrest)%bind_Ok_inv.
  pose proof (glob_glob_unchanged (OsPath.join (OsPath.dirname p) "backup_*") w) as Hw.
  rewrite Hglob in Hw. unfold unchanged in Hw. simpl in Hw. subst w1.
  destruct dirs as [|d dirs]; [discriminate|].
  apply bind_Ok_inv in Hrest as (sorted' & w2 & Hsort & Hret).
  injection Hret as Hhead <-.
  apply sort_by_mtime_desc_Ok in Hsort as (-> & _ & Hfirst).
  destruct (Hfirst b Hhead) as (t & Ht & _).
  unfold os_path_exists. unfold mtime_at in Ht.
  by destruct (lookup_path w b) as [[]|].
Qed.

Section EffectsOfUndo.
Context (w : world) (bd : string).

(** A location belongs to one record only. *)
Lemma locations_owner recs r r' k :
  NoDup (recs ≫= locations w bd) → r ∈ recs → r' ∈ recs →
  k ∈ locations w bd r → k ∈ locations w bd r' → r = r'.
Proof.
  induction recs as [|a recs IH]; intros Hnd Hr Hr' Hk Hk'; [by inversion Hr|].
  rewrite bind_cons in Hnd. apply NoDup_app in Hnd as (_ & Hdisj & Hnd).
  apply elem_of_cons in Hr as [->|Hr]; apply elem_of_cons in Hr' as [->|Hr'].
  - done.
  - destruct (Hdisj _ Hk). apply list_elem_of_bind. eauto.
  - destruct (Hdisj _ Hk'). apply list_elem_of_bind. eauto.
  - by apply IH.
Qed.

(** Undo writes at original paths and destinations only. *)
Lemma undo_effects_other recs f k :
  (∀ r, r ∈ recs → renamed r = true → k ≠ orig_key w r ∧ k ≠ new_key w r) →
  foldl (undo_effect w bd) f recs k = f k.
Proof.
  revert f. induction recs as [|a recs IH]; intros f Hk; [done|].
  simpl. rewrite IH.
  - unfold undo_effect. destruct (renamed a) eqn:Ha; [|done].
    destruct (Hk a) as [Ho Hn]; [apply list_elem_of_here | done |].
    by rewrite !decide_False.
  - intros r Hr. apply Hk. by apply list_elem_of_further.
Qed.

Lemma undo_effects_backup recs f r :
  NoDup (recs ≫= locations w bd) → r ∈ recs → renamed r = true →
  foldl (undo_effect w bd) f recs (backup_key w bd r) = f (backup_key w bd r).
Proof.
  intros Hnd Hr Hren. apply undo_effects_other. intros r' Hr' Hren'.
  assert (backup_key w bd r ∈ locations w bd r) as Hb.
  { rewrite (locations_renamed _ _ _ Hren).
    apply list_elem_of_further, list_elem_of_further, list_elem_of_here. }
  assert (NoDup (locations w bd r)) as Hnd0.
  { clear -Hnd Hr. induction recs as [|a recs IH]; [by inversion Hr|].
    rewrite bind_cons in Hnd. apply NoDup_app in Hnd as (Ha & _ & Hnd).
    apply elem_of_cons in Hr as [->|Hr]; auto. }
  rewrite (locations_renamed _ _ _ Hren) in Hnd0.
  apply NoDup_cons in Hnd0 as [Ho Hnd0]. apply NoDup_cons in Hnd0 as [Hn _].
  split; intros Heq.
  - assert (r = r') as <-.
    { apply (locations_owner recs r r' (backup_key w bd r)); try done.
      rewrite (locations_renamed _ _ _ Hren'), Heq. apply list_elem_of_here. }
    apply Ho. rewrite <- Heq.
    apply list_elem_of_further, list_elem_of_here.
  - assert (r = r') as <-.
    { apply (locations_owner recs r r' (backup_key w bd r)); try done.
      rewrite (locations_renamed _ _ _ Hren'), Heq.
      apply list_elem_of_further, list_elem_of_here. }
    apply Hn. rewrite <- Heq. apply list_elem_of_here.
Qed.

End EffectsOfUndo.

(** [undo_rename] on a log that holds the records of a run, once discovery
    has chosen the backup directory: the loop over the records decides the
    result. *)
Lemma undo_rename_records directory log_file w lf stamp r0 recs bd :
  chosen_log directory log_file w lf →
  load_rename_log lf w
  = (Ok (JObj [("renamed_files", JList (map record_to_json (r0 :: recs)));
               ("generated_at", JStr stamp)]), w) →
  original_path r0 ≠ "" →
  find_backup_dir (original_path r0) w = (Ok (Some bd), w) →
  os_path_exists bd w = (Ok true, w) →
  undo_rename directory log_file w
  = (let* '(restored, skipped, details) :=
       restore_loop bd (map record_to_json (r0 :: recs)) 0 0 [] in
     ret {| UndoResult.success := 0 <? restored;
            UndoResult.restored_count := restored;
            UndoResult.skipped_count := skipped;
            UndoResult.error_message :=
              if restored =? 0 then Some NoFilesRestored else None;
            UndoResult.log_file := lf;
            UndoResult.backup_dir := bd;
            UndoResult.details := details |}) w.
Proof.
  intros Hchosen Hload Hop Hfind Hexists.
  rewrite (undo_rename_chosen _ _ _ _ Hchosen).
  rewrite (bind_Ok_eq _ _ _ _ _ Hload).
  assert (py_get (JObj [("renamed_files", JList (map record_to_json (r0 :: recs)));
                        ("generated_at", JStr stamp)]) "renamed_files" (JList []) w
          = (Ok (JList (map record_to_json (r0 :: recs))), w)) as Hget
    by reflexivity.
  rewrite (bind_Ok_eq _ _ _ _ _ Hget).
  change (negb (py_truthy (JList (map record_to_json (r0 :: recs))))) with false.
  cbv iota.
  assert (py_first (JList (map record_to_json (r0 :: recs))) w
          = (Ok (record_to_json r0), w)) as Hfirst by reflexivity.
  rewrite (bind_Ok_eq _ _ _ _ _ Hfirst).
  destruct (record_fields r0) as (fields0 & Hjson0 & _ & _ & Hop0 & _).
  assert (py_get (record_to_json r0) "original_path" (JStr "") w
          = (Ok (JStr (original_path r0)), w)) as Hpath.
  { rewrite Hjson0. unfold py_get, ret. by rewrite Hop0. }
  rewrite (bind_Ok_eq _ _ _ _ _ Hpath).
  assert (negb (py_truthy (JStr (original_path r0))) = false) as ->.
  { simpl. by rewrite bool_decide_eq_false_2. }
  assert (py_path (JStr (original_path r0)) w = (Ok (original_path r0), w)) as Hstr
    by reflexivity.
  rewrite (bind_Ok_eq _ _ _ _ _ Hstr), (bind_Ok_eq _ _ _ _ _ Hfind).
  rewrite (bind_Ok_eq _ _ _ _ _ Hexists). cbv [negb].
  assert (py_iter (JList (map record_to_json (r0 :: recs))) w
          = (Ok (map record_to_json (r0 :: recs)), w)) as Hiter by reflexivity.
  by rewrite (bind_Ok_eq _ _ _ _ _ Hiter).
Qed.

Section RoundTrip.
Context {libs : Libs}.

(** Every path of a plan is a non-empty string. *)
Lemma prepared_paths_nonempty config w files bd lf w1 f :
  prepare config w = (Ok (files, bd, lf), w1) → f ∈ files → f ≠ "".
Proof.
  intros (Hval & Hcol & _ & _)%prepare_Ok Hf.
  apply validate_Ok in Hval as (_ & Hdir & _).
  apply _collect_files_inv in Hcol as (_ & _ & ->).
  rewrite (proj2 (sorted_spec _)) in Hf.
  apply list_elem_of_fmap in Hf as (entry & -> & Hin).
  apply list_elem_of_In, filter_In in Hin as [Hin _].
  apply list_elem_of_In, list_elem_of_fmap in Hin as ([name n] & -> & _).
  by apply join_nonempty.
Qed.

(** The log a completed run leaves: the records, as [undo_rename] reads
    them back. *)
Lemma finish_on_disk config bd lf recs w2 res w' :
  Config.dry_run config = false →
  finish config bd lf recs w2 = (Ok res, w') →
  cwd w' = cwd w2
  ∧ (∀ k, dir_at (fs w') k = dir_at (fs w2) k)
  ∧ (∀ k, k ≠ resolve w2 lf → file_at (fs w') k = file_at (fs w2) k)
  ∧ ∃ stamp, load_rename_log lf w'
             = (Ok (JObj [("renamed_files", JList (map record_to_json recs));
                          ("generated_at", JStr stamp)]), w').
Proof.
  intros Hwet. unfold finish. rewrite Hwet. simpl.
  intros ([] & w3 & Hwrite & Hret)%bind_Ok_inv. injection Hret as _ <-.
  unfold _write_log in Hwrite.
  apply bind_Ok_inv in Hwrite as (stamp & w2' & Hstamp & Hwrite).
  injection Hstamp as <- <-.
  apply write_json_Ok in Hwrite as (Hlf & Hwd & Hfiles & Hdirs & Hcwd & _).
  assert (resolve (advance w2) lf = resolve w2 lf) as Hres by done.
  rewrite Hres in Hfiles.
  split; [done|]. split; [done|]. split.
  { intros k Hk. by rewrite Hfiles, decide_False. }
  exists (strftime "%Y-%m-%d %H:%M:%S" (now w2)).
  rewrite load_rename_log_read. unfold read_file.
  pose proof (Hfiles (resolve w3 lf)) as Hlog.
  rewrite (resolve_cwd w3 w2 lf Hcwd), decide_True in Hlog by done.
  rewrite <- (resolve_cwd w3 w2 lf Hcwd) in Hlog.
  by rewrite (lookup_path_of_file w3 lf _ Hlf Hwd Hlog).
Qed.

Lemma apply_effects_orig w bd recs f r :
  NoDup (recs ≫= locations w bd) → r ∈ recs → renamed r = true →
  foldl (apply_effect w bd) f recs (orig_key w r) = None.
Proof.
  revert f. induction recs as [|r0 recs IH]; intros f Hnd Hin Hr; [by inversion Hin|].
  rewrite bind_cons in Hnd. apply NoDup_app in Hnd as (Hnd0 & Hdisj & Hnd).
  simpl. apply elem_of_cons in Hin as [->|Hin]; [|by apply IH].
  rewrite (locations_renamed _ _ _ Hr) in Hnd0, Hdisj.
  apply NoDup_cons in Hnd0 as [Ho _].
  rewrite apply_effects_frame by (apply Hdisj, list_elem_of_here).
  unfold apply_effect. rewrite Hr.
  rewrite decide_False, decide_True; [done..|].
  intros Heq. apply Ho. rewrite Heq. apply list_elem_of_here.
Qed.

(** What a completed run leaves, in the terms undo works with. *)
Lemma run_leaves_restorable (config : Config.t) (w : world) (res : Result.t)
    (w' : world) (bd lf : string) :
  rename_files config w = (Ok res, w') →
  Config.dry_run config = false →
  Result.backup_dir res = Some bd →
  Result.log_file res = Some lf →
  is_tree (fs w) →
  separate w bd lf (Result.records res) →
  left_by_run w bd lf (Result.records res) w'
  ∧ (∃ stamp,
       load_rename_log lf w'
       = (Ok (JObj [("renamed_files", JList (map record_to_json (Result.records res)));
                    ("generated_at", JStr stamp)]), w'))
  ∧ Result.records res ≠ []
  ∧ Forall (fun r => original_path r ≠ "") (Result.records res)
  ∧ Result.renamed_count res = Z.of_nat (length (Result.records res)).
Proof.
  intros Hrun Hwet Hbd Hlf Htree (Hnd & Hpfx & Hbakdir).
  apply rename_files_Ok in Hrun as (files & bd' & lf' & w1 & w2 & Hprep & Hloop & Hfin).
  pose proof (finish_Ok _ _ _ _ _ _ _ Hfin) as (Hcount & _ & _ & Hbd' & Hlf').
  rewrite Hwet in Hbd', Hlf'.
  assert (bd' = bd) as -> by congruence. assert (lf' = lf) as -> by congruence.
  clear Hbd Hlf Hbd' Hlf'.
  remember (Result.records res) as recs eqn:Hrecs_def.
  pose proof (prepare_Ok _ _ _ _ _ _ Hprep) as (_ & _ & Hne & Hfs1 & Hcwd1 & _).
  apply NoDup_cons in Hnd as [Hlog Hnd].
  rewrite Forall_forall in Hpfx. rewrite Forall_forall in Hbakdir.
  (* the run *)
  destruct (run_on_disk w config bd Hwet w1 files _ recs w2 Hcwd1 Hloop Hnd)
    as (Hcwd2 & Hf2 & Hgrow & Hall).
  { apply Forall_forall. intros r Hr Hren. rewrite Hfs1. split; [by apply Hbakdir|].
    apply Hpfx, list_elem_of_bind. exists r. split; [|done].
    rewrite (locations_renamed _ _ _ Hren).
    apply list_elem_of_further, list_elem_of_further, list_elem_of_here. }
  rewrite Forall_forall in Hall.
  assert (∀ k, file_at (fs w2) k = foldl (apply_effect w bd) (file_at (fs w)) recs k)
    as Hf2' by (intros k; by rewrite Hf2, Hfs1).
  clear Hf2.
  (* the log *)
  destruct (finish_on_disk _ _ _ _ _ _ _ Hwet Hfin)
    as (Hcwd' & Hd' & Hf' & stamp & Hload).
  rewrite (resolve_cwd w2 w lf Hcwd2) in Hf'.
  assert (cwd w' = cwd w) as Hcwd by congruence.
  assert (is_Some (file_at (fs w') (resolve w lf))) as Hlogfile.
  { rewrite load_rename_log_read in Hload. unfold read_file in Hload.
    destruct (lookup_path w' lf) as [[c m|m]|e] eqn:Hlook.
    - apply lookup_path_file in Hlook as (_ & _ & Hfile).
      rewrite (resolve_cwd w' w lf Hcwd) in Hfile. eauto.
    - discriminate.
    - by destruct e as [| |[]| | | | | | |]. }
  (* the records, as undo finds them *)
  assert (∀ r, r ∈ recs → renamed r = true →
            ∀ k, k ∈ locations w bd r → file_at (fs w') k = file_at (fs w2) k)
    as Hkeep.
  { intros r Hr Hren k Hk. apply Hf'. intros ->. apply Hlog.
    apply list_elem_of_bind. eauto. }
  assert (∀ r, r ∈ recs → renamed r = true →
            file_at (fs w') (backup_key w bd r) = file_at (fs w) (orig_key w r)
            ∧ file_at (fs w') (new_key w r) = file_at (fs w) (orig_key w r)
            ∧ file_at (fs w') (orig_key w r) = None)
    as Hthere.
  { intros r Hr Hren.
    destruct (apply_effects_record w bd recs (file_at (fs w)) r Hnd Hr Hren)
      as [Hb Hn].
    rewrite !(Hkeep r Hr Hren), !Hf2', Hb, Hn,
      (apply_effects_orig w bd recs _ r Hnd Hr Hren); [done|..];
      rewrite (locations_renamed _ _ _ Hren).
    - apply list_elem_of_here.
    - apply list_elem_of_further, list_elem_of_here.
    - apply list_elem_of_further, list_elem_of_further, list_elem_of_here. }
  assert (∀ r, r ∈ recs → renamed r = true →
            is_Some (file_at (fs w) (orig_key w r))) as Hwas.
  { intros r Hr Hren. destruct (Hall r Hr) as [_ Hu].
    destruct (Hu Hren) as [_ Hsome]. by rewrite Hfs1 in Hsome. }
  assert (Forall (restorable w bd w') recs) as Hrest.
  { apply Forall_forall. intros r Hr. destruct (Hall r Hr) as [Hs Hu].
    split; [done|]. intros Hren. destruct (Hu Hren) as [Huse _].
    destruct (Hthere r Hr Hren) as (Hb & Hn & _). destruct (Hwas r Hr Hren) as [d Hd].
    split; [done|]. rewrite Hb, Hn, Hd. split; [eauto|]. split; [eauto|].
    rewrite !Hd'. split.
    - destruct (dir_at (fs w2) (orig_key w r)) eqn:Hdir; [|done].
      apply Hgrow in Hdir as [Hdir|Hdir].
      + rewrite Hfs1 in Hdir. apply file_at_dir_at in Hd. congruence.
      + destruct (Hpfx (orig_key w r)); [|done].
        apply list_elem_of_bind. exists r. split; [|done].
        rewrite (locations_renamed _ _ _ Hren). apply list_elem_of_here.
    - apply Hgrow. rewrite Hfs1. unfold file_at in Hd.
      destruct (fs w !! orig_key w r) as [n|] eqn:Hlook; [|done].
      by apply (Htree _ n). }
  assert (recs ≠ []) as Hrecs.
  { apply loop_run_paths in Hloop. intros Hnil. rewrite Hnil in Hloop.
    by destruct files. }
  split; [|split; [eauto|split; [done|split; [|done]]]].
  - split; [done|]. split; [done|]. split.
    { intros r Hr Hren. destruct (Hthere r Hr Hren) as (Hb & Hn & Ho).
      split; [by apply Hwas|]. done. }
    split.
    { intros k Hk. apply not_elem_of_cons in Hk as [Hklog Hk].
      by rewrite Hf', Hf2', apply_effects_frame. }
    split; [done|]. destruct Hgrow as [Hkeepd Hnewd]. split.
    + intros k Hk. rewrite Hd'. apply Hkeepd. by rewrite Hfs1.
    + intros k Hk. rewrite Hd' in Hk. apply Hnewd in Hk as [Hk|Hk]; [|by right].
      left. by rewrite <- Hfs1.
  - apply Forall_forall. intros r Hr.
    apply (prepared_paths_nonempty _ _ _ _ _ _ _ Hprep).
    rewrite <- (loop_run_paths _ _ _ _ _ _ _ Hloop).
    apply list_elem_of_fmap. eauto.
Qed.

(** The files after undo has gone through the records of a run. *)
Lemma undone_state w bd lf recs w' u :
  left_by_run w bd lf recs w' →
  NoDup (recs ≫= locations w bd) →
  (∀ k, file_at (fs u) k = foldl (undo_effect w bd) (file_at (fs w')) recs k) →
  (∀ r, r ∈ recs → renamed r = true →
     is_Some (file_at (fs w) (orig_key w r))
     ∧ file_at (fs u) (orig_key w r) = file_at (fs w) (orig_key w r)
     ∧ file_at (fs u) (new_key w r) = None
     ∧ file_at (fs u) (backup_key w bd r) = file_at (fs w) (orig_key w r))
  ∧ (∀ k, k ∉ resolve w lf :: (recs ≫= locations w bd) →
       file_at (fs u) k = file_at (fs w) k).
Proof.
  intros (_ & _ & Hthere & Hframe & _) Hnd Hfu. split.
  - intros r Hr Hren. destruct (Hthere r Hr Hren) as (Hwas & _ & Hn & Hb).
    split; [done|].
    destruct (undo_effects_record w bd recs (file_at (fs w')) r Hnd Hr Hren)
      as [Ho Hnone].
    rewrite !Hfu, Ho, Hnone, Hb. split; [done|]. split; [done|].
    by rewrite (undo_effects_backup w bd recs _ r Hnd Hr Hren).
  - intros k Hk. rewrite Hfu, undo_effects_frame; [by apply Hframe|].
    by apply not_elem_of_cons in Hk as [_ Hk].
Qed.

(** X1.  Undo after apply.  Take a completed run that is not a dry run, on a
    file system that is a tree, whose records are separate on disk (log,
    original paths, destinations and backup copies are distinct entries,
    none is the backup directory or above it, no directory sits where a
    backup copy goes).  If [undo_rename] works from the log of that run
    and discovery selects its backup directory, then undo returns, it
    restores as many files as the run renamed, and afterwards every
    renamed record has its original file, contents and modification time,
    back at its original path, nothing at its destination and its backup
    copy still in place; all files outside the records' locations and the
    log are as they were before the run. *)
Theorem undo_restores_what_the_run_renamed
    (config : Config.t) (w : world) (res : Result.t) (w' : world)
    (bd lf : string) (log_file : option string) :
  rename_files config w = (Ok res, w') →
  Config.dry_run config = false →
  Result.backup_dir res = Some bd →
  Result.log_file res = Some lf →
  is_tree (fs w) →
  separate w bd lf (Result.records res) →
  chosen_log (Config.directory config) log_file w' lf →
  (∀ r0, head (Result.records res) = Some r0 →
         find_backup_dir (original_path r0) w' = (Ok (Some bd), w')) →
  ∃ ures w'',
    undo_rename (Config.directory config) log_file w' = (Ok ures, w'')
    ∧ UndoResult.success ures = (0 <? UndoResult.restored_count ures)
    ∧ UndoResult.restored_count ures
      = Result.renamed_count res - skipped_records (Result.records res)
    ∧ UndoResult.skipped_count ures = skipped_records (Result.records res)
    ∧ (∀ r, r ∈ Result.records res → renamed r = true →
         is_Some (file_at (fs w) (orig_key w r))
         ∧ file_at (fs w'') (orig_key w r) = file_at (fs w) (orig_key w r)
         ∧ file_at (fs w'') (new_key w r) = None
         ∧ file_at (fs w'') (backup_key w bd r) = file_at (fs w) (orig_key w r))
    ∧ (∀ k, k ∉ resolve w lf :: (Result.records res ≫= locations w bd) →
         file_at (fs w'') k = file_at (fs w) k).
Proof.
  intros Hrun Hwet Hbd Hlf Htree Hsep Hchosen Hfind.
  destruct (run_leaves_restorable _ _ _ _ _ _ Hrun Hwet Hbd Hlf Htree Hsep)
    as (Hleft & [stamp Hload] & Hrecs & Hpaths & Hcount).
  pose proof Hleft as (Hcwd & Hrest & _).
  destruct Hsep as (Hnd & _). apply NoDup_cons in Hnd as [_ Hnd].
  destruct (Result.records res) as [|r0 recs'] eqn:Hrecs0; [done|].
  rewrite <- Hrecs0 in *.
  assert (original_path r0 ≠ "") as Hop.
  { rewrite Hrecs0 in Hpaths. by apply Forall_cons in Hpaths as [? _]. }
  assert (find_backup_dir (original_path r0) w' = (Ok (Some bd), w')) as Hfind0.
  { apply Hfind. by rewrite Hrecs0. }
  pose proof (find_backup_dir_exists _ _ _ _ Hfind0) as Hexists.
  destruct (restore_loop_records w bd (Result.records res) w' 0 0 [] Hcwd Hnd Hrest)
    as (details & w'' & Hrestore & _ & Hfu & _).
  eexists _, w''. split.
  { rewrite Hrecs0 in Hload.
    pose proof (undo_rename_records _ _ _ _ _ _ _ _ Hchosen Hload Hop Hfind0 Hexists)
      as Hundo.
    rewrite <- Hrecs0 in Hundo.
    rewrite Hundo, (bind_Ok_eq _ _ _ _ _ Hrestore). reflexivity. }
  simpl. split; [done|]. split.
  { rewrite Hcount, (renamed_count_split (Result.records res)). lia. }
  split; [lia|].
  by apply (undone_state w bd lf (Result.records res) w' w'').
Qed.

End RoundTrip.

Lemma is_tree_by_entries (f : gmap path node) :
  map_Forall (fun k _ => dir_at f (removelast k) = true) f → is_tree f.
Proof. intros Hall k n Hk. exact (Hall k n Hk). Qed.

Lemma undo_restores_what_the_run_renamed_witness :
  rename_files (libs := example_libs) photos_config photos_world
  = (Ok photos_result, photos_after)
  ∧ is_tree (fs photos_world)
  ∧ separate photos_world "/photos/backup_1700000000"
      "/photos/rename_log_1700000001.json" (Result.records photos_result)
  ∧ chosen_log "/photos" None photos_after "/photos/rename_log_1700000001.json"
  ∧ find_backup_dir "/photos/IMG_001.jpg" photos_after
    = (Ok (Some "/photos/backup_1700000000"), photos_after)
  ∧ ∃ ures w'',
      undo_rename "/photos" None photos_after = (Ok ures, w'')
      ∧ UndoResult.success ures = (0 <? UndoResult.restored_count ures)
      ∧ UndoResult.restored_count ures = 2 - 1
      ∧ UndoResult.skipped_count ures = 1
      ∧ (∀ r, r ∈ Result.records photos_result → renamed r = true →
           is_Some (file_at (fs photos_world) (orig_key photos_world r))
           ∧ file_at (fs w'') (orig_key photos_world r)
             = file_at (fs photos_world) (orig_key photos_world r)
           ∧ file_at (fs w'') (new_key photos_world r) = None
           ∧ file_at (fs w'') (backup_key photos_world "/photos/backup_1700000000" r)
             = file_at (fs photos_world) (orig_key photos_world r))
      ∧ (∀ k, k ∉ resolve photos_world "/photos/rename_log_1700000001.json"
                  :: (Result.records photos_result
                      ≫= locations photos_world "/photos/backup_1700000000") →
           file_at (fs w'') k = file_at (fs photos_world) k).
Proof.
  assert ((rename_files (libs := example_libs) photos_config photos_world).1
          = Ok photos_result) as Hrun by (vm_compute; reflexivity).
  apply run_by_outcome in Hrun. fold photos_after in Hrun.
  assert (is_tree (fs photos_world)) as Htree.
  { apply is_tree_by_entries. apply (bool_decide_unpack _). vm_compute. exact I. }
  assert (separate photos_world "/photos/backup_1700000000"
            "/photos/rename_log_1700000001.json" (Result.records photos_result))
    as Hsep.
  { unfold separate. split; [|split]; apply (bool_decide_unpack _); vm_compute; exact I. }
  assert (chosen_log "/photos" None photos_after "/photos/rename_log_1700000001.json")
    as Hchosen.
  { right. split; [done|].
    apply read_only_run; [vm_compute; reflexivity | apply find_latest_log_unchanged]. }
  assert (find_backup_dir "/photos/IMG_001.jpg" photos_after
          = (Ok (Some "/photos/backup_1700000000"), photos_after)) as Hfind.
  { apply read_only_run; [vm_compute; reflexivity | apply find_backup_dir_unchanged]. }
  split; [exact Hrun|]. split; [exact Htree|]. split; [exact Hsep|].
  split; [exact Hchosen|]. split; [exact Hfind|].
  assert (∀ r0, head (Result.records photos_result) = Some r0 →
            find_backup_dir (original_path r0) photos_after
            = (Ok (Some "/photos/backup_1700000000"), photos_after)) as Hfirst.
  { intros r0 [= <-]. exact Hfind. }
  exact (undo_restores_what_the_run_renamed (libs := example_libs)
           photos_config photos_world photos_result photos_after
           "/photos/backup_1700000000" "/photos/rename_log_1700000001.json" None
           Hrun eq_refl eq_refl eq_refl Htree Hsep Hchosen Hfirst).
Defined.

Lemma collected_files_are_the_wanted_files_witness :
  _collect_files (Config.directory photos_jpg_config)
    (Config.extensions photos_jpg_config) photos_world
  = (Ok ["/photos/IMG_001.jpg"], photos_world)
  ∧ photos_world = photos_world
  ∧ StronglySorted String.le ["/photos/IMG_001.jpg"]
  ∧ ∀ f, f ∈ ["/photos/IMG_001.jpg"] ↔
      ∃ name c m,
        f = OsPath.join (Config.directory photos_jpg_config) name
        ∧ fs photos_world
            !! (resolve photos_world (Config.directory photos_jpg_config) ++ [name])
          = Some (File c m)
        ∧ wanted (Config.extensions photos_jpg_config) name = true.
Proof.
  assert (_collect_files (Config.directory photos_jpg_config)
            (Config.extensions photos_jpg_config) photos_world
          = (Ok ["/photos/IMG_001.jpg"], photos_world)) as Hcol.
  { apply read_only_run; [vm_compute; reflexivity | apply _collect_files_world]. }
  split; [exact Hcol|].
  exact (collected_files_are_the_wanted_files _ _ _ _ _ Hcol).
Defined.

(* ===================================================================== *)
(** * The log of a run and the choice of a log *)
(* ===================================================================== *)

(** X4.  The log holds the result.  After a completed run that is not a dry
    run, the log file named in the result reads back, through
    [load_rename_log], as an object whose [renamed_files] are the records
    of the result, skipped ones included, in the order of the plan. *)
Theorem log_holds_the_records {libs : Libs} (config : Config.t) (w : world)
    (res : Result.t) (w' : world) :
  rename_files config w = (Ok res, w') →
  Config.dry_run config = false →
  ∃ lf stamp,
    Result.log_file res = Some lf
    ∧ load_rename_log lf w'
      = (Ok (JObj [("renamed_files", JList (map record_to_json (Result.records res)));
                   ("generated_at", JStr stamp)]), w').
Proof.
  intros Hrun Hwet.
  apply rename_files_Ok in Hrun as (files & bd & lf & w1 & w2 & _ & _ & Hfin).
  pose proof (finish_Ok _ _ _ _ _ _ _ Hfin) as (_ & _ & _ & _ & Hlf).
  rewrite Hwet in Hlf.
  destruct (finish_on_disk _ _ _ _ _ _ _ Hwet Hfin) as (_ & _ & _ & stamp & Hload).
  eauto.
Qed.

Lemma log_holds_the_records_witness :
  rename_files (libs := example_libs) photos_config photos_world
  = (Ok photos_result, photos_after)
  ∧ Config.dry_run photos_config = false
  ∧ ∃ lf stamp,
      Result.log_file photos_result = Some lf
      ∧ load_rename_log lf photos_after
        = (Ok (JObj [("renamed_files",
                      JList (map record_to_json (Result.records photos_result)));
                     ("generated_at", JStr stamp)]), photos_after).
Proof.
  assert ((rename_files (libs := example_libs) photos_config photos_world).1
          = Ok photos_result) as Hrun by (vm_compute; reflexivity).
  apply run_by_outcome in Hrun. fold photos_after in Hrun.
  split; [exact Hrun|]. split; [reflexivity|].
  exact (log_holds_the_records (libs := example_libs) photos_config photos_world
           photos_result photos_after Hrun eq_refl).
Defined.




(* ===================================================================== *)
(** * The extension filter *)
(* ===================================================================== *)

Lemma lower_char_idemp c : Py.lower_char (Py.lower_char c) = Py.lower_char c.
Proof. by destruct c as [[] [] [] [] [] [] [] []]. Qed.

Lemma lower_idemp s : Py.lower (Py.lower s) = Py.lower s.
Proof. induction s as [|c s IH]; [done|]. simpl. by rewrite lower_char_idemp, IH. Qed.

Lemma normal_form_shape e :
  Py.startswith "." (normal_form e) = true
  ∧ Py.lower (normal_form e) = normal_form e.
Proof.
  unfold normal_form. cbv zeta.
  destruct (Py.startswith "." (Py.lower e)) eqn:Hdot.
  - by rewrite lower_idemp.
  - change ("." +:+ Py.lower e) with (String "." (Py.lower e)).
    simpl. by rewrite lower_idemp.
Qed.

Lemma normal_form_idemp e : normal_form (normal_form e) = normal_form e.
Proof.
  destruct (normal_form_shape e) as [Hdot Hlow].
  unfold normal_form at 1. cbv zeta. by rewrite Hlow, Hdot.
Qed.

Lemma normalize_loop_spec exts acc :
  Config.normalize_loop exts acc
  = acc ++ map normal_form (List.filter nonempty exts).
Proof.
  revert acc. induction exts as [|e exts IH]; intros acc.
  - simpl. by rewrite app_nil_r.
  - cbn [Config.normalize_loop List.filter]. unfold nonempty at 1.
    case_bool_decide; cbn [negb map]; [apply IH|].
    rewrite IH, <- app_assoc. unfold normal_form. cbv zeta.
    by destruct (Py.startswith "." (Py.lower e)).
Qed.

Lemma normalize_fixed (l : list string) :
  l ≠ [] → Forall (fun e => normal_form e = e ∧ e ≠ "") l →
  Config._normalize_extensions (Some l) = Some l.
Proof.
  intros Hl Hall.
  assert (Config.normalize_loop l [] = l) as Hloop.
  { rewrite normalize_loop_spec. change ([] ++ ?x) with x.
    clear Hl. induction Hall as [|e l [He Hne] _ IH]; [done|].
    cbn [List.filter]. unfold nonempty at 1.
    rewrite bool_decide_eq_false_2 by done. cbn [negb map]. by rewrite He, IH. }
  destruct l as [|x l]; [done|].
  unfold Config._normalize_extensions. by rewrite Hloop.
Qed.

Lemma _normalize_extensions_kept (extensions : option (list string)) :
  Config._normalize_extensions extensions
  = if List.filter nonempty (default [] extensions) is []
    then None
    else Some (map normal_form (List.filter nonempty (default [] extensions))).
Proof.
  destruct extensions as [[|e exts]|]; try done.
  unfold Config._normalize_extensions. rewrite normalize_loop_spec.
  change (default [] (Some (e :: exts))) with (e :: exts).
  change ([] ++ ?l) with l.
  by destruct (List.filter nonempty (e :: exts)).
Qed.

(** X9.  The extensions a configuration keeps.  [_normalize_extensions]
    drops the empty entries and puts every other one in lower case with a
    leading dot, keeping their order; it gives [None] when nothing is
    left, so a list of empty entries is no filter at all; and it leaves a
    list it has produced as it is. *)
Theorem normalized_extensions (extensions : option (list string)) :
  let kept := List.filter nonempty (default [] extensions) in
  Config._normalize_extensions extensions
  = (if kept is [] then None else Some (map normal_form kept))
  ∧ match Config._normalize_extensions extensions with
    | None => True
    | Some exts =>
        Forall (fun e => Py.startswith "." e = true ∧ Py.lower e = e) exts
        ∧ Config._normalize_extensions (Some exts) = Some exts
    end.
Proof.
  simpl.
  pose proof (_normalize_extensions_kept extensions) as Heq.
  split; [exact Heq|]. rewrite Heq.
  destruct (List.filter nonempty (default [] extensions)) as [|k kept] eqn:Hkept;
    [done|].
  split.
  - apply Forall_forall. intros e (e0 & -> & _)%list_elem_of_fmap.
    apply normal_form_shape.
  - apply normalize_fixed; [done|].
    apply Forall_forall. intros e (e0 & -> & Hin)%list_elem_of_fmap.
    split; [apply normal_form_idemp|].
    unfold normal_form. cbv zeta.
    assert (e0 ≠ "") as Hne.
    { assert (e0 ∈ List.filter nonempty (default [] extensions)) as Hin'
        by (by rewrite Hkept).
      apply list_elem_of_In, filter_In in Hin' as [_ Hne].
      unfold nonempty in Hne. by apply negb_true_iff, bool_decide_eq_false in Hne. }
    destruct (Py.startswith "." (Py.lower e0)) eqn:Hdot.
    + by destruct e0.
    + by change ("." +:+ Py.lower e0) with (String "." (Py.lower e0)).
Qed.

(** X10.  What the filter lets through.  With the extensions a caller gives to
    [BulkRenameConfig], discovery keeps a file name exactly when every
    given entry is empty (no filter), or the extension of the name equals,
    case ignored, one of the given entries with its leading dot supplied
    when missing. *)
Theorem extension_filter_ignores_case_and_dot
    (extensions : option (list string)) (name : string) :
  wanted (Config._normalize_extensions extensions) name = true
  ↔ (∀ e, e ∈ default [] extensions → e = "")
    ∨ ∃ e, e ∈ default [] extensions ∧ e ≠ ""
           ∧ normal_form e = Py.lower (snd (OsPath.splitext name)).
Proof.
  rewrite _normalize_extensions_kept.
  assert (∀ e, e ∈ List.filter nonempty (default [] extensions)
               ↔ e ∈ default [] extensions ∧ e ≠ "") as Hkept.
  { intros e. rewrite list_elem_of_In, filter_In, <- list_elem_of_In.
    unfold nonempty. by rewrite negb_true_iff, bool_decide_eq_false. }
  destruct (List.filter nonempty (default [] extensions)) as [|k kept] eqn:Hk.
  - simpl. split; [|done]. intros _. left. intros e He.
    destruct (decide (e = "")) as [|Hne]; [done|].
    pose proof (proj2 (Hkept e) (conj He Hne)) as Hin. inversion Hin.
  - change (wanted (Some (map normal_form (k :: kept))) name)
      with (bool_decide (Py.lower (snd (OsPath.splitext name))
                         ∈ map normal_form (k :: kept))).
    rewrite bool_decide_eq_true, list_elem_of_fmap. split.
    + intros (e & Heq & [He Hne]%Hkept). right. eauto.
    + intros [Hall|(e & He & Hne & Heq)].
      * assert (k ∈ k :: kept) as [Hin Hne]%Hkept by apply list_elem_of_here.
        destruct Hne. by apply Hall.
      * exists e. split; [done|]. by apply Hkept.
Qed.

(* ===================================================================== *)
(** * What a run can raise *)
(* ===================================================================== *)

Lemma lookup_path_Raise w p e : lookup_path w p = Raise e → ∃ n, e = OSError n.
Proof. unfold lookup_path. repeat case_match; intros [= <-]; eauto. Qed.

Lemma store_Raise w p n e : store w p n = Raise e → ∃ n', e = OSError n'.
Proof. unfold store. repeat case_match; intros [= <-]; eauto. Qed.

Lemma mkdir_chain_Raise t pre rest f e f' :
  mkdir_chain t pre rest f = (Raise e, f') → ∃ n, e = OSError n.
Proof.
  revert pre f. induction rest as [|c rest IH]; intros pre f; simpl; [discriminate|].
  repeat case_match; try (intros [= <- <-]; eauto); eauto.
Qed.

Lemma _ensure_directory_Raise p w e w' :
  _ensure_directory p w = (Raise e, w') → ∃ n, e = OSError n.
Proof.
  unfold _ensure_directory, bind, os_path_exists, ret, os_makedirs.
  destruct (lookup_path w p); simpl; [discriminate|].
  case_bool_decide; [intros [= <- <-]; eauto|].
  destruct (resolve w p) as [|c k]; [intros [= <- <-]; eauto|].
  destruct (mkdir_chain _ _ _ _) as [r f'] eqn:Hchain. intros [= -> <-].
  by apply mkdir_chain_Raise in Hchain.
Qed.

Lemma shutil_copy2_raises src dst w e w' :
  shutil_copy2 src dst w = (Raise e, w') → os_error e.
Proof.
  unfold shutil_copy2, os_error.
  destruct (lookup_path w src) as [n|e0] eqn:Hsrc.
  - destruct (_ && _); [intros [= <- <-]; auto|].
    destruct n as [c m|m]; [|intros [= <- <-]; eauto].
    destruct (store w _ (File c m)) as [f'|e1] eqn:Hstore; [discriminate|].
    intros [= <- <-]. left. by apply store_Raise in Hstore.
  - intros [= <- <-]. left. by apply lookup_path_Raise in Hsrc.
Qed.

(** Renaming a regular file fails with an error of the operating system. *)
Lemma os_replace_raises src dst w e w' d :
  src ≠ "" → wants_dir src = false → file_at (fs w) (resolve w src) = Some d →
  os_replace src dst w = (Raise e, w') → ∃ n, e = OSError n.
Proof.
  intros H1 H2 Hfile. unfold os_replace.
  rewrite (lookup_path_of_file w src d) by done.
  destruct (_ && _); [discriminate|].
  destruct (store w dst _) as [f'|e1] eqn:Hstore; [discriminate|].
  intros [= <- <-]. by apply store_Raise in Hstore.
Qed.

Section Raises.
Context {libs : Libs}.

(** A step fails in the name computation, at a taken destination, or in a
    call of the operating system. *)
Lemma rename_one_Raise config bd f c w e w' :
  rename_one config bd f c w = (Raise e, w') →
  (∃ w1, _build_new_name (OsPath.basename f) config c w = (Raise e, w1))
  ∨ (Config.dry_run config = false
     ∧ ((∃ target, e = FileExistsError target) ∨ os_error e)).
Proof.
  unfold rename_one.
  intros [Hname|(nn & w1 & Hname & Hrest)]%bind_Raise_inv; [eauto|].
  right. destruct (Config.dry_run config).
  { by apply bind_Raise_inv in Hrest as [Hp|(? & ? & _ & Hp)]. }
  split; [done|].
  apply bind_Raise_inv in Hrest as [Hs|(same & w2 & Hsame & Hrest)]; [done|].
  destruct same; [done|].
  apply bind_Raise_inv in Hrest as [Hs|(taken & w3 & Htaken & Hrest)]; [done|].
  destruct taken; [injection Hrest as <- _; eauto|].
  right.
  apply bind_Raise_inv in Hrest as [Hens|([] & w4 & Hens & Hrest)].
  { left. by apply _ensure_directory_Raise in Hens. }
  apply bind_Raise_inv in Hrest as [Hcopy|([] & w5 & Hcopy & Hrest)].
  { by apply shutil_copy2_raises in Hcopy. }
  apply bind_Raise_inv in Hrest as [Hrepl|([] & w6 & Hrepl & Hrest)].
  - left.
    apply shutil_copy2_Ok in Hcopy
      as (d & dst' & _ & Hs1 & Hs2 & _ & _ & Hsrc & Hne & Hfiles & _ & Hcwd & _).
    apply (os_replace_raises _ _ _ _ _ d Hs1 Hs2) in Hrepl; [done|].
    rewrite (resolve_cwd w5 w4) by done. by rewrite Hfiles, decide_False.
  - by apply bind_Raise_inv in Hrest as [Hp|(? & ? & _ & Hp)].
Qed.


End Raises.

(* ===================================================================== *)
(** * The preview and the run *)
(* ===================================================================== *)

Section Preview.
Context {libs : Libs}.

(** Without the timestamp option a name does not depend on the world. *)
Lemma _build_new_name_timeless name config counter w1 w2 :
  Config.timestamp config = false →
  (_build_new_name name config counter w1).1
  = (_build_new_name name config counter w2).1.
Proof.
  intros Hts. unfold _build_new_name.
  destruct (OsPath.splitext name) as [stem ext]. rewrite Hts.
  destruct (truthy (Config.regex_pattern config)
            && truthy (Config.regex_replacement config));
    [destruct (re_sub _ _ _)|]; unfold bind, ret, raise; simpl;
    try case_bool_decide; done.
Qed.

Lemma plans_agree config bd1 bd2 files counter wa recs1 wa' wb recs2 wb' :
  Config.timestamp config = false →
  loop_run (with_dry_run true config) bd1 files counter wa recs1 wa' →
  loop_run (with_dry_run false config) bd2 files counter wb recs2 wb' →
  map names recs1 = map names recs2.
Proof.
  intros Hts Hrun1. revert wb recs2 wb'.
  induction Hrun1 as [c wa|f files c wa r1 wa1 recs1 wa' Hone1 Hrun1 IH];
    intros wb recs2 wb' Hrun2;
    inversion Hrun2 as [|? ? ? ? r2 wb1 recs2' ? Hone2 Hrest2]; subst; [done|].
  simpl. f_equal; [|by eapply IH].
  apply rename_one_Ok in Hone1 as (wc1 & Hname1 & Hon1 & Hop1 & Hnp1 & _).
  apply rename_one_Ok in Hone2 as (wc2 & Hname2 & Hon2 & Hop2 & Hnp2 & _).
  assert (new_name r1 = new_name r2) as Hnn.
  { pose proof (_build_new_name_timeless (OsPath.basename f) config c wa wb Hts) as Heq.
    change (_build_new_name (OsPath.basename f) (with_dry_run true config) c)
      with (_build_new_name (OsPath.basename f) config c) in Hname1.
    change (_build_new_name (OsPath.basename f) (with_dry_run false config) c)
      with (_build_new_name (OsPath.basename f) config c) in Hname2.
    rewrite Hname1, Hname2 in Heq. simpl in Heq. congruence. }
  unfold names. rewrite Hon1, Hon2, Hop1, Hop2, Hnp1, Hnp2, Hnn. done.
Qed.

(** X5.  The preview and the run.  With the timestamp option off, when the
    dry run of a configuration returns a plan, the same configuration run
    for real from the same state either returns records with the same
    names and paths as the plan, in the same order, or fails at a taken
    destination or in a call of the operating system: never in validation
    or in the computation of a name. *)
Theorem preview_is_what_the_run_does
    (config : Config.t) (w : world) (plan : Result.t) (wd : world) :
  Config.timestamp config = false →
  rename_files (with_dry_run true config) w = (Ok plan, wd) →
  ∀ o wr,
    rename_files (with_dry_run false config) w = (o, wr) →
    match o with
    | Ok res => map names (Result.records res) = map names (Result.records plan)
    | Raise e => (∃ target, e = FileExistsError target) ∨ os_error e
    end.
Proof.
  intros Hts Hdry o wr Hwet.
  apply rename_files_Ok in Hdry as (files & bd & lf & w1 & w2 & Hprep & Hloop & _).
  change (prepare (with_dry_run true config)) with (prepare config) in Hprep.
  destruct o as [res|e].
  - apply rename_files_Ok in Hwet
      as (files' & bd' & lf' & w1' & w2' & Hprep' & Hloop' & _).
    change (prepare (with_dry_run false config)) with (prepare config) in Hprep'.
    rewrite Hprep in Hprep'. injection Hprep' as <- <- <- <-.
    symmetry. by eapply plans_agree.
  - rewrite rename_files_unfold in Hwet.
    change (prepare (with_dry_run false config)) with (prepare config) in Hwet.
    rewrite (bind_Ok_eq _ _ _ _ _ Hprep) in Hwet.
    apply bind_Raise_inv in Hwet as [Hfail|(recs & w3 & _ & Hfin)].
    + apply rename_loop_Raise in Hfail
        as (pre & f & post & recs & w3 & Hfiles & _ & Hone).
      apply rename_one_Raise in Hone as [[w4 Hname]|[_ He]]; [|done].
      exfalso.
      assert (is_Some (Result.records plan !! length pre)) as [r Hr].
      { apply lookup_lt_is_Some. rewrite (loop_run_length _ _ _ _ _ _ _ Hloop), Hfiles.
        rewrite length_app. simpl. lia. }
      destruct (loop_run_lookup _ _ _ _ _ _ _ _ _ Hloop Hr)
        as (f' & wa & wb & Hf' & Hone').
      rewrite Hfiles, list_lookup_middle in Hf' by done. injection Hf' as <-.
      apply rename_one_Ok in Hone' as (wc & Hname' & _).
      pose proof (_build_new_name_timeless (OsPath.basename f) config
                    (counter_after config (Config.numbering_start config) (length pre))
                    w3 wa Hts) as Heq.
      change (_build_new_name (OsPath.basename f) (with_dry_run false config))
        with (_build_new_name (OsPath.basename f) config) in Hname.
      change (_build_new_name (OsPath.basename f) (with_dry_run true config))
        with (_build_new_name (OsPath.basename f) config) in Hname'.
      change (counter_after (with_dry_run false config))
        with (counter_after config) in Hname.
      change (counter_after (with_dry_run true config))
        with (counter_after config) in Hname'.
      change (Config.numbering_start (with_dry_run false config))
        with (Config.numbering_start config) in Hname.
      change (Config.numbering_start (with_dry_run true config))
        with (Config.numbering_start config) in Hname'.
      rewrite Hname, Hname' in Heq. discriminate.
    + unfold finish in Hfin.
      apply bind_Raise_inv in Hfin as [Hlog|([] & w4 & _ & Hret)]; [|done].
      simpl in Hlog. unfold _write_log in Hlog.
      apply bind_Raise_inv in Hlog as [Hs|(stamp & w4 & _ & Hwrite)]; [done|].
      apply write_json_Raise in Hwrite as [n ->]. right. left. eauto.
Qed.

End Preview.

Lemma preview_is_what_the_run_does_witness :
  Config.timestamp (docs_config false) = false
  ∧ rename_files (libs := example_libs) (with_dry_run true (docs_config false))
      docs_world
    = (Ok docs_plan, docs_after_preview)
  ∧ ∀ o wr,
      rename_files (libs := example_libs) (with_dry_run false (docs_config false))
        docs_world = (o, wr) →
      match o with
      | Ok res => map names (Result.records res) = map names (Result.records docs_plan)
      | Raise e => (∃ target, e = FileExistsError target) ∨ os_error e
      end.
Proof.
  assert ((rename_files (libs := example_libs) (with_dry_run true (docs_config false))
             docs_world).1 = Ok docs_plan) as Hrun by (vm_compute; reflexivity).
  apply run_by_outcome in Hrun. fold docs_after_preview in Hrun.
  split; [reflexivity|]. split; [exact Hrun|].
  exact (preview_is_what_the_run_does (libs := example_libs) (docs_config false)
           docs_world docs_plan docs_after_preview eq_refl Hrun).
Defined.

(* ===================================================================== *)
(** * The command line *)
(* ===================================================================== *)


(* ===================================================================== *)
(** * The result of undo *)
(* ===================================================================== *)

Lemma returns_ret {A} (Q : A → Prop) a : Q a → returns Q (ret a).
Proof. intros HQ w a' w' [= <- <-]. done. Qed.

Lemma returns_bind {A B} (Q : B → Prop) (m : M A) (k : A → M B) :
  (∀ a, returns Q (k a)) → returns Q (bind m k).
Proof. intros Hk w b w' (a & w1 & _ & Hrest)%bind_Ok_inv. by eapply Hk. Qed.

Lemma restore_loop_counts bd records restored skipped details w r s ds w' :
  restore_loop bd records restored skipped details w = (Ok (r, s, ds), w') →
  restored ≤ r ∧ skipped ≤ s
  ∧ r + s = restored + skipped + Z.of_nat (length records)
  ∧ length ds = (length details + length records)%nat.
Proof.
  revert restored skipped details w.
  induction records as [|record records IH]; intros restored skipped details w; simpl.
  - intros [= <- <- <- <-]. lia.
  - intros ([ok detail] & w1 & _ & Hrest)%bind_Ok_inv.
    destruct ok; apply IH in Hrest as (? & ? & ? & Hlen);
      rewrite length_app in Hlen; simpl in Hlen; lia.
Qed.

(** X15.  The counts of undo.  In every result [undo_rename] returns,
    [success] says whether at least one file was restored, the error
    message is empty exactly in that case, and there is one detail line
    for each record counted, as restored or as skipped; a result that
    reports failure before the loop has no details and counts nothing. *)
Theorem undo_counts_add_up (directory : string) (log_file : option string)
    (w : world) (res : UndoResult.t) (w' : world) :
  undo_rename directory log_file w = (Ok res, w') → counts_add_up res.
Proof.
  assert (∀ msg lf bd, counts_add_up (UndoResult.failed msg lf bd)) as Hfailed.
  { intros. unfold counts_add_up. simpl. repeat split; try done; lia. }
  revert w res w'. change (returns counts_add_up (undo_rename directory log_file)).
  unfold undo_rename. apply returns_bind. intros [chosen|]; [|by apply returns_ret].
  apply returns_bind. intros log_data.
  assert (returns counts_add_up
            (let* renamed_files := py_get log_data "renamed_files" (JList []) in
             if negb (py_truthy renamed_files)
             then ret (UndoResult.failed NoRenameRecords chosen "")
             else
               let* first_record := py_first renamed_files in
               let* original_path := py_get first_record "original_path" (JStr "") in
               if negb (py_truthy original_path)
               then ret (UndoResult.failed FormatInvalid chosen "")
               else
                 let* first_path := py_path original_path in
                 let* backup := find_backup_dir first_path in
                 match backup with
                 | None => ret (UndoResult.failed NoBackupDirectories chosen "")
                 | Some backup_dir =>
                     let* present := os_path_exists backup_dir in
                     if negb present
                     then ret (UndoResult.failed BackupDirectoryNotFound chosen backup_dir)
                     else
                       let* records := py_iter renamed_files in
                       let* '(restored, skipped, details) :=
                         restore_loop backup_dir records 0 0 [] in
                       ret {| UndoResult.success := 0 <? restored;
                              UndoResult.restored_count := restored;
                              UndoResult.skipped_count := skipped;
                              UndoResult.error_message :=
                                if restored =? 0 then Some NoFilesRestored else None;
                              UndoResult.log_file := chosen;
                              UndoResult.backup_dir := backup_dir;
                              UndoResult.details := details |}
                 end)) as Hrest.
  { apply returns_bind. intros renamed_files.
    destruct (negb (py_truthy renamed_files)); [by apply returns_ret|].
    apply returns_bind. intros first_record. apply returns_bind. intros original_path.
    destruct (negb (py_truthy original_path)); [by apply returns_ret|].
    apply returns_bind. intros first_path. apply returns_bind.
    intros [backup_dir|]; [|by apply returns_ret].
    apply returns_bind. intros present.
    destruct (negb present); [by apply returns_ret|].
    apply returns_bind. intros records.
    intros w res w' ([[r s] ds] & w1 & Hloop & Hret)%bind_Ok_inv.
    injection Hret as <- _.
    apply restore_loop_counts in Hloop as (Hr & Hs & Hsum & Hlen).
    unfold counts_add_up. simpl in *.
    split; [done|]. split; [done|]. split; [done|]. split; [lia|].
    destruct (Z.eqb_spec r 0) as [->|Hne]; split; try done.
    - intros _. apply Z.ltb_lt. lia. }
  destruct log_data; try exact Hrest. by apply returns_ret.
Qed.

Lemma undo_counts_add_up_witness :
  (undo_rename "/inbox" None edited_log_world).1
  = Ok {| UndoResult.success := true;
          UndoResult.restored_count := 1;
          UndoResult.skipped_count := 1;
          UndoResult.error_message := None;
          UndoResult.log_file := "/inbox/rename_log_1704103200.json";
          UndoResult.backup_dir := "/inbox/backup_1704103200";
          UndoResult.details :=
            [ {| Detail.original_name := JStr "a.txt";
                 Detail.status := RestoredSuccessfully |};
              {| Detail.original_name := JStr "";
                 Detail.status := CurrentFileMissing |} ] |}
  ∧ counts_add_up
      {| UndoResult.success := true;
         UndoResult.restored_count := 1;
         UndoResult.skipped_count := 1;
         UndoResult.error_message := None;
         UndoResult.log_file := "/inbox/rename_log_1704103200.json";
         UndoResult.backup_dir := "/inbox/backup_1704103200";
         UndoResult.details :=
           [ {| Detail.original_name := JStr "a.txt";
                Detail.status := RestoredSuccessfully |};
             {| Detail.original_name := JStr "";
                Detail.status := CurrentFileMissing |} ] |}.
Proof.
  assert ((undo_rename "/inbox" None edited_log_world).1 = Ok _) as Hrun
    by (vm_compute; reflexivity).
  split; [exact Hrun|].
  apply run_by_outcome in Hrun.
  exact (undo_counts_add_up "/inbox" None edited_log_world _ _ Hrun).
Defined.

(* ===================================================================== *)
(** * Undo on the log of a run *)
(* ===================================================================== *)

Lemma os_remove_Raise p w e w' :
  os_remove p w = (Raise e, w') → ∃ n, e = OSError n.
Proof.
  unfold os_remove. destruct (lookup_path w p) as [[c m|m]|e0] eqn:Hp.
  - discriminate.
  - intros [= <- <-]. eauto.
  - intros [= <- <-]. by apply lookup_path_Raise in Hp.
Qed.

Lemma always_returns_ret {A} (a : A) : always_returns (ret a).
Proof. intros w. by exists a, w. Qed.

Lemma always_returns_bind {A B} (m : M A) (k : A → M B) :
  always_returns m → (∀ a, always_returns (k a)) → always_returns (bind m k).
Proof.
  intros Hm Hk w. destruct (Hm w) as (a & w1 & Ha).
  rewrite (bind_Ok_eq _ _ _ _ _ Ha). apply Hk.
Qed.

(** [except Exception] leaves nothing of the model through. *)
Lemma always_returns_try {A} (m : M A) (h : exn → M A) :
  (∀ w e w', m w = (Raise e, w') → e ≠ Unmodelled) →
  (∀ e, always_returns (h e)) →
  always_returns (try_except m (fun _ => true) h).
Proof.
  intros Hm Hh w. unfold try_except.
  destruct (m w) as [[a|e] w1] eqn:Hrun; [eauto|].
  specialize (Hm _ _ _ Hrun). destruct e; try done; apply Hh.
Qed.

Lemma py_get_returns fields key dflt : always_returns (py_get (JObj fields) key dflt).
Proof. apply always_returns_ret. Qed.

Lemma os_path_exists_returns p : always_returns (os_path_exists p).
Proof. intros w. unfold os_path_exists. eauto. Qed.

Lemma py_get_field fields key dflt v w :
  dict_lookup key fields = Some v → py_get (JObj fields) key dflt w = (Ok v, w).
Proof. unfold py_get, ret. by intros ->. Qed.

(** Whatever goes wrong while a record of the engine is restored is kept
    in its detail. *)
Lemma restore_one_returns bd r : always_returns (restore_one bd (record_to_json r)).
Proof.
  destruct (record_fields r) as (fields & -> & Hon & Hnn & Hop & Hnp & Hsk).
  intros w. unfold restore_one.
  rewrite (bind_Ok_eq _ _ _ _ _ (py_get_field _ _ _ _ w Hon)).
  rewrite (bind_Ok_eq _ _ _ _ _ (py_get_field _ _ _ _ w Hnn)).
  rewrite (bind_Ok_eq _ _ _ _ _ (py_get_field _ _ _ _ w Hop)).
  rewrite (bind_Ok_eq _ _ _ _ _ (py_get_field _ _ _ _ w Hnp)).
  assert (py_get (JObj fields) "skipped" JNull w
          = (Ok (default JNull (JStr <$> skipped r)), w)) as Hskip.
  { unfold py_get, ret. by rewrite Hsk. }
  rewrite (bind_Ok_eq _ _ _ _ _ Hskip).
  destruct (py_truthy _); [apply always_returns_ret|].
  clear Hskip. revert w.
  match goal with
  | |- ∀ w, ∃ a w', ?m w = (Ok a, w') => change (always_returns m)
  end.
  apply always_returns_bind; [apply always_returns_ret|]. intros name.
  apply always_returns_bind; [apply os_path_exists_returns|]. intros have_backup.
  destruct (negb have_backup); [apply always_returns_ret|].
  apply always_returns_bind; [apply always_returns_ret|]. intros current.
  apply always_returns_bind; [apply os_path_exists_returns|]. intros have_current.
  destruct (negb have_current); [apply always_returns_ret|].
  apply always_returns_try; [|intros e; apply always_returns_ret].
  intros w e w' Hbody.
  assert (os_error e) as [[n ->]| ->]; [|done..].
  apply bind_Raise_inv in Hbody as [Hp|(target & w1 & _ & Hbody)]; [done|].
  apply bind_Raise_inv in Hbody as [Hcopy|([] & w2 & _ & Hrest)].
  { by apply shutil_copy2_raises in Hcopy. }
  apply bind_Raise_inv in Hrest as [Hex|(still & w3 & _ & Hrest)]; [done|].
  apply bind_Raise_inv in Hrest as [Hrm|([] & w4 & _ & Hret)]; [|done].
  destruct (_ && _); [|done]. left. by apply os_remove_Raise in Hrm.
Qed.

Lemma restore_loop_returns bd recs restored skipped details :
  always_returns (restore_loop bd (map record_to_json recs) restored skipped details).
Proof.
  revert restored skipped details.
  induction recs as [|r recs IH]; intros restored skipped details; simpl.
  { apply always_returns_ret. }
  apply always_returns_bind; [apply restore_one_returns|].
  intros [[] detail]; apply IH.
Qed.

(** X16.  Undo on the log of a run.  On a log that holds records as the
    engine writes them, [undo_rename] returns a result whenever the
    discovery of the backup directory returns: nothing that goes wrong
    while a record is restored is raised, it becomes the status of that
    record. *)
Theorem undo_returns_on_the_log_of_a_run
    (directory : string) (log_file : option string) (w : world)
    (lf stamp : string) (recs : list RenameRecord) :
  chosen_log directory log_file w lf →
  load_rename_log lf w
  = (Ok (JObj [("renamed_files", JList (map record_to_json recs));
               ("generated_at", JStr stamp)]), w) →
  (∀ r0, head recs = Some r0 →
         ∃ found, find_backup_dir (original_path r0) w = (Ok found, w)) →
  ∃ res w', undo_rename directory log_file w = (Ok res, w').
Proof.
  intros Hchosen Hload Hfind.
  rewrite (undo_rename_chosen _ _ _ _ Hchosen).
  rewrite (bind_Ok_eq _ _ _ _ _ Hload).
  assert (py_get (JObj [("renamed_files", JList (map record_to_json recs));
                        ("generated_at", JStr stamp)]) "renamed_files" (JList []) w
          = (Ok (JList (map record_to_json recs)), w)) as Hget by reflexivity.
  rewrite (bind_Ok_eq _ _ _ _ _ Hget).
  destruct recs as [|r0 recs]; [simpl; eauto|].
  change (negb (py_truthy (JList (map record_to_json (r0 :: recs))))) with false.
  cbv iota.
  assert (py_first (JList (map record_to_json (r0 :: recs))) w
          = (Ok (record_to_json r0), w)) as Hfirst by reflexivity.
  rewrite (bind_Ok_eq _ _ _ _ _ Hfirst).
  destruct (record_fields r0) as (fields0 & Hjson0 & _ & _ & Hop0 & _).
  assert (py_get (record_to_json r0) "original_path" (JStr "") w
          = (Ok (JStr (original_path r0)), w)) as Hpath.
  { rewrite Hjson0. unfold py_get, ret. by rewrite Hop0. }
  rewrite (bind_Ok_eq _ _ _ _ _ Hpath).
  destruct (negb (py_truthy (JStr (original_path r0)))); [simpl; eauto|].
  assert (py_path (JStr (original_path r0)) w = (Ok (original_path r0), w)) as Hstr
    by reflexivity.
  rewrite (bind_Ok_eq _ _ _ _ _ Hstr).
  destruct (Hfind r0 eq_refl) as [found Hfound].
  rewrite (bind_Ok_eq _ _ _ _ _ Hfound).
  destruct found as [bd|]; [|simpl; eauto].
  unfold bind at 1. unfold os_path_exists at 1.
  destruct (negb _); [simpl; eauto|].
  assert (py_iter (JList (map record_to_json (r0 :: recs))) w
          = (Ok (map record_to_json (r0 :: recs)), w)) as Hiter by reflexivity.
  rewrite (bind_Ok_eq _ _ _ _ _ Hiter).
  destruct (restore_loop_returns bd (r0 :: recs) 0 0 [] w) as ([[r s] ds] & w' & Hloop).
  rewrite (bind_Ok_eq _ _ _ _ _ Hloop). simpl. eauto.
Qed.

Lemma undo_returns_on_the_log_of_a_run_witness :
  chosen_log "/photos" None photos_after "/photos/rename_log_1700000001.json"
  ∧ load_rename_log "/photos/rename_log_1700000001.json" photos_after
    = (Ok (JObj [("renamed_files",
                  JList (map record_to_json (Result.records photos_result)));
                 ("generated_at", JStr "%Y-%m-%d %H:%M:%S@1700000006")]),
       photos_after)
  ∧ find_backup_dir "/photos/IMG_001.jpg" photos_after
    = (Ok (Some "/photos/backup_1700000000"), photos_after)
  ∧ ∃ res w', undo_rename "/photos" None photos_after = (Ok res, w').
Proof.
  assert (chosen_log "/photos" None photos_after "/photos/rename_log_1700000001.json")
    as Hchosen.
  { right. split; [done|].
    apply read_only_run; [vm_compute; reflexivity | apply find_latest_log_unchanged]. }
  assert (load_rename_log "/photos/rename_log_1700000001.json" photos_after
          = (Ok (JObj [("renamed_files",
                        JList (map record_to_json (Result.records photos_result)));
                       ("generated_at", JStr "%Y-%m-%d %H:%M:%S@1700000006")]),
             photos_after)) as Hload.
  { apply read_only_run; [vm_compute; reflexivity | apply load_rename_log_unchanged]. }
  assert (find_backup_dir "/photos/IMG_001.jpg" photos_after
          = (Ok (Some "/photos/backup_1700000000"), photos_after)) as Hfind.
  { apply read_only_run; [vm_compute; reflexivity | apply find_backup_dir_unchanged]. }
  split; [exact Hchosen|]. split; [exact Hload|]. split; [exact Hfind|].
  apply (undo_returns_on_the_log_of_a_run "/photos" None photos_after
           "/photos/rename_log_1700000001.json" "%Y-%m-%d %H:%M:%S@1700000006"
           (Result.records photos_result) Hchosen Hload).
  intros r0 [= <-]. eauto.
Defined.

(* ===================================================================== *)
(** * The system calls of undo *)
(* ===================================================================== *)

#[local] Instance restores_only_preorder : PreOrder restores_only.
Proof.
  split.
  - intros w. split; [done|]. split; [done|]. exists []. by rewrite app_nil_r.
  - intros w1 w2 w3 (Hc1 & Hd1 & evs1 & Ht1 & He1) (Hc2 & Hd2 & evs2 & Ht2 & He2).
    split; [congruence|]. split; [intros k; by rewrite Hd2|].
    exists (evs1 ++ evs2). rewrite Ht2, Ht1, <- app_assoc. split; [done|].
    by apply Forall_app.
Qed.

Lemma unchanged_restores_only {A} (m : M A) :
  preserves unchanged m → preserves restores_only m.
Proof. intros Hm w. rewrite (Hm w). reflexivity. Qed.

Lemma restores_only_call e w w' :
  is_restore_call e = true → after_call e w w' →
  (∀ k, dir_at (fs w') k = dir_at (fs w) k) → restores_only w w'.
Proof.
  intros He (Hcwd & _ & Htrace) Hdirs. split; [done|]. split; [done|].
  exists [e]. split; [done|]. by constructor.
Qed.

Lemma shutil_copy2_restores src dst : preserves restores_only (shutil_copy2 src dst).
Proof.
  intros w. destruct (shutil_copy2 src dst w) as [[[]|e] w'] eqn:Hcall; simpl.
  - apply shutil_copy2_Ok in Hcall as (d & dst' & _ & _ & _ & _ & _ & _ & _ & _ & Hd & Hafter).
    eapply restores_only_call; [|exact Hafter|exact Hd]. done.
  - revert Hcall. unfold shutil_copy2.
    repeat case_match; intros [= <- <-]; simplify_eq;
      (eapply restores_only_call; [| |done]; [|by split]; done).
Qed.

Lemma os_remove_restores p : preserves restores_only (os_remove p).
Proof.
  intros w. destruct (os_remove p w) as [[[]|e] w'] eqn:Hcall; simpl.
  - apply os_remove_Ok in Hcall as (d & _ & _ & Hd & Hafter).
    eapply restores_only_call; [|exact Hafter|exact Hd]. done.
  - revert Hcall. unfold os_remove.
    repeat case_match; intros [= <- <-]; simplify_eq;
      (eapply restores_only_call; [| |done]; [|by split]; done).
Qed.

Ltac restores_only :=
  repeat first
    [ apply shutil_copy2_restores
    | apply os_remove_restores
    | apply unchanged_restores_only;
      first [ apply os_path_exists_unchanged
            | apply find_latest_log_unchanged
            | apply find_backup_dir_unchanged
            | apply load_rename_log_unchanged ]
    | preserves_step ].

Lemma restore_one_restores bd record : preserves restores_only (restore_one bd record).
Proof. unfold restore_one, py_get, py_path. restores_only. Qed.

Lemma restore_loop_restores bd records restored skipped details :
  preserves restores_only (restore_loop bd records restored skipped details).
Proof.
  revert restored skipped details.
  induction records as [|record records IH]; intros restored skipped details; simpl.
  - restores_only.
  - apply preserves_bind; [apply _ | apply restore_one_restores |].
    intros [[] detail]; apply IH.
Qed.

(** X17.  What undo does to the disk.  Whatever its outcome, [undo_rename]
    changes the file system by copying and removing files only: it
    issues no other call, creates and removes no directory, and leaves
    the working directory where it was. *)
Theorem undo_copies_and_removes_only (directory : string) (log_file : option string)
    (w : world) :
  restores_only w (undo_rename directory log_file w).2.
Proof.
  revert w. change (preserves restores_only (undo_rename directory log_file)).
  unfold undo_rename, py_get, py_first, py_iter, py_path.
  repeat first [apply restore_loop_restores | progress restores_only].
Qed.

(* ===================================================================== *)
(** * The system calls of a run *)
(* ===================================================================== *)

Section CallsOfARun.
Context {libs : Libs}.




End CallsOfARun.


(* ===================================================================== *)
(** * [utils.py]: the extensions typed by the user *)
(* ===================================================================== *)







Lemma rstrip_spaces s : every Utils.is_space s = true → Utils.rstrip s = "".
Proof.
  induction s as [|c s IH]; [done|]. simpl. intros [Hc Hs]%andb_true_iff.
  by rewrite (IH Hs), Hc.
Qed.

Lemma rstrip_ends s :
  Utils.rstrip s = "" ∨ every Utils.is_space (Utils.rstrip s) = false.
Proof.
  induction s as [|c s IH]; [by left|]. simpl.
  destruct (bool_decide (Utils.rstrip s = "")) eqn:Hr; simpl.
  - destruct (Utils.is_space c) eqn:Hc; [by left|]. right. simpl. by rewrite Hc.
  - right. simpl. destruct IH as [Hempty|Hnot].
    + by rewrite Hempty in Hr.
    + by rewrite Hnot, andb_false_r.
Qed.

Lemma rstrip_empty s : Utils.rstrip s = "" → every Utils.is_space s = true.
Proof.
  induction s as [|c s IH]; [done|]. simpl.
  destruct (bool_decide (Utils.rstrip s = "")) eqn:Hr; simpl; [|done].
  destruct (Utils.is_space c); [|done]. intros _. simpl.
  apply IH. by apply bool_decide_eq_true_1 in Hr.
Qed.

Lemma lstrip_empty s : Utils.lstrip s = "" → every Utils.is_space s = true.
Proof.
  induction s as [|c s IH]; [done|]. simpl.
  destruct (Utils.is_space c); [done|discriminate].
Qed.

Lemma strip_empty s : Utils.strip s = "" → every Utils.is_space s = true.
Proof.
  unfold Utils.strip. intros Hl%lstrip_empty.
  destruct (rstrip_ends s) as [Hr|Hr]; [by apply rstrip_empty | congruence].
Qed.



(* ===================================================================== *)
(** * [utils.py]: the directory check *)
(* ===================================================================== *)

Lemma strip_blank s : Utils.strip s = "" ↔ every Utils.is_space s = true.
Proof.
  split; [apply strip_empty|]. intros Hs. unfold Utils.strip.
  by rewrite (rstrip_spaces s Hs).
Qed.

(** X19.  The directory check of the interface.  [validate_directory]
    changes nothing and fails with its own three errors only.  It accepts
    a path exactly when the path is not blank and names a directory.  A
    path it accepts passes the directory checks of
    [BulkRenameConfig.validate], which can then fail on the numbering or
    the regular expression only; and a path that [validate] accepts is
    accepted here unless it is blank. *)
Theorem directory_checks_agree (path : string) (w : world) :
  ∃ r,
    Utils.validate_directory path w = (Ok r, w)
    ∧ (r = inr true
       ↔ every Utils.is_space path = false ∧ ∃ m, lookup_path w path = Ok (Dir m))
    ∧ ∀ config,
        Config.directory config = path →
        (r = inr true →
         ∀ e w', Config.validate config w = (Raise e, w') →
                 e = ValueError PaddingNegative ∨ e = ValueError StartNegative
                 ∨ e = ValueError RegexPairRequired)
        ∧ (Config.validate config w = (Ok tt, w) →
           every Utils.is_space path = false → r = inr true).
Proof.
  unfold Utils.validate_directory.
  destruct (bool_decide (path = "") || bool_decide (Utils.strip path = "")) eqn:Hblank.
  - assert (every Utils.is_space path = true) as Hsp.
    { apply orb_true_iff in Hblank as [He|He]; apply bool_decide_eq_true_1 in He.
      - by subst.
      - by apply strip_blank. }
    eexists. split; [reflexivity|]. split.
    + split; [done|]. intros [? _]. congruence.
    + intros config _. split; [done|]. intros _ ?. congruence.
  - apply orb_false_iff in Hblank as [Hne Hstrip].
    apply bool_decide_eq_false in Hne, Hstrip.
    assert (every Utils.is_space path = false) as Hsp.
    { destruct (every Utils.is_space path) eqn:Hsp; [|done].
      by apply strip_blank in Hsp. }
    unfold bind, os_path_exists, os_path_isdir, ret.
    destruct (lookup_path w path) as [[c m|m]|e] eqn:Hlook; simpl;
      rewrite ?Hlook; simpl.
    + eexists. split; [reflexivity|]. split.
      * split; [done|]. by intros [_ [? ?]].
      * intros config Hdir. split; [done|].
        intros Hval%validate_Ok. destruct Hval as (_ & _ & [m' Hd] & _).
        rewrite Hdir in Hd. congruence.
    + eexists. split; [reflexivity|]. split; [split; [by eauto|done]|].
      intros config Hdir. split; [|done]. intros _ e w'.
      unfold Config.validate. rewrite Hdir.
      rewrite bool_decide_eq_false_2 by done.
      unfold bind, os_path_exists, os_path_isdir, raise, ret. rewrite Hlook. simpl.
      repeat case_match; intros [= <- <-]; simplify_eq; auto.
    + eexists. split; [reflexivity|]. split.
      * split; [done|]. by intros [_ [? ?]].
      * intros config Hdir. split; [done|].
        intros Hval%validate_Ok. destruct Hval as (_ & _ & [m' Hd] & _).
        rewrite Hdir in Hd. congruence.
Qed.

(* ===================================================================== *)
(** * The backup directory *)
(* ===================================================================== *)

(** When [os.makedirs] succeeds, the path it was given is a directory. *)
Lemma mkdir_chain_Ok t pre rest f f' :
  mkdir_chain t pre rest f = (Ok tt, f') → rest ≠ [] →
  dir_at f' (pre ++ rest) = true.
Proof.
  revert pre f. induction rest as [|c rest IH]; intros pre f Hrun Hne; [done|].
  simpl in Hrun.
  destruct (f !! (pre ++ [c])) as [[c0 m0|m0]|] eqn:Hk.
  - discriminate.
  - destruct rest as [|c' rest']; [discriminate|].
    apply IH in Hrun; [|done]. by rewrite <- app_assoc in Hrun.
  - destruct (f !! pre) as [[c0 m0|m0]|] eqn:Hpre; try discriminate.
    destruct rest as [|c' rest'].
    + simpl in Hrun. injection Hrun as <-.
      unfold dir_at. by rewrite lookup_insert_eq.
    + apply IH in Hrun; [|done]. by rewrite <- app_assoc in Hrun.
Qed.

(** X11.  The backup directory.  When [_ensure_directory] returns, the path
    exists, a second call does nothing, and no regular file has changed;
    if the path did not exist before, it is now a directory.  A path that
    exists is left as it is, a regular file included. *)
Theorem ensure_directory_ensures (path : string) (w w' : world) :
  _ensure_directory path w = (Ok tt, w') →
  os_path_exists path w' = (Ok true, w')
  ∧ _ensure_directory path w' = (Ok tt, w')
  ∧ (∀ k, file_at (fs w') k = file_at (fs w) k)
  ∧ (os_path_exists path w = (Ok true, w) → w' = w)
  ∧ (os_path_exists path w = (Ok false, w) → os_path_isdir path w' = (Ok true, w')).
Proof.
  intros Hrun.
  pose proof (_ensure_directory_spec _ _ _ _ Hrun) as (Hfiles & _ & _ & Hcwd & _).
  assert (os_path_exists path w' = (Ok true, w')
          ∧ (os_path_exists path w = (Ok true, w) → w' = w)
          ∧ (os_path_exists path w = (Ok false, w) →
             os_path_isdir path w' = (Ok true, w'))) as (Hex & Hsame & Hdir).
  { revert Hrun. unfold _ensure_directory, bind, os_path_exists, os_path_isdir, ret.
    destruct (lookup_path w path) as [n|e] eqn:Hlook; simpl.
    { intros [= <-]. rewrite Hlook. done. }
    unfold os_makedirs. case_bool_decide as Hp; [discriminate|].
    destruct (resolve w path) as [|c k] eqn:Hk; [discriminate|].
    destruct (mkdir_chain _ _ _ _) as [r f'] eqn:Hchain.
    intros [= -> <-]. apply mkdir_chain_Ok in Hchain; [|done].
    assert (lookup_path (advance (set_fs f' (log_event (EvMkdir (c :: k)) w))) path
            = Ok (Dir (default 0 (if f' !! (c :: k) is Some (Dir m) then Some m else None))))
      as Hlook'.
    { unfold lookup_path. rewrite bool_decide_eq_false_2 by done.
      change (resolve (advance _) path) with (resolve w path). rewrite Hk. simpl.
      apply dir_at_lookup in Hchain as [m Hm]. simpl in Hm. by rewrite Hm. }
    rewrite Hlook'. done. }
  split; [done|]. split; [|done].
  unfold _ensure_directory. by rewrite (bind_Ok_eq _ _ _ _ _ Hex).
Qed.

Lemma ensure_directory_ensures_witness :
  _ensure_directory "/photos/old/backup" photos_world = (Ok tt, photos_with_backup_dir)
  ∧ os_path_exists "/photos/old/backup" photos_with_backup_dir
    = (Ok true, photos_with_backup_dir)
  ∧ _ensure_directory "/photos/old/backup" photos_with_backup_dir
    = (Ok tt, photos_with_backup_dir)
  ∧ (∀ k, file_at (fs photos_with_backup_dir) k = file_at (fs photos_world) k)
  ∧ (os_path_exists "/photos/old/backup" photos_world = (Ok true, photos_world) →
     photos_with_backup_dir = photos_world)
  ∧ (os_path_exists "/photos/old/backup" photos_world = (Ok false, photos_world) →
     os_path_isdir "/photos/old/backup" photos_with_backup_dir
     = (Ok true, photos_with_backup_dir)).
Proof.
  assert ((_ensure_directory "/photos/old/backup" photos_world).1 = Ok tt) as Hrun
    by (vm_compute; reflexivity).
  apply run_by_outcome in Hrun. fold photos_with_backup_dir in Hrun.
  split; [exact Hrun|].
  exact (ensure_directory_ensures "/photos/old/backup" photos_world
           photos_with_backup_dir Hrun).
Defined.

(* ===================================================================== *)
(** * The default names and the patterns of undo *)
(* ===================================================================== *)

Lemma fnmatch_star_suffix p x s :
  fnmatch p s = true → fnmatch (String "*" p) (x +:+ s) = true.
Proof.
  intros Hs. induction x as [|c x IH].
  - change ("" +:+ s) with s. destruct s; simpl; simpl in Hs; by rewrite Hs.
  - change (String c x +:+ s) with (String c (x +:+ s)).
    simpl. simpl in IH. rewrite IH. apply orb_true_r.
Qed.

Section DefaultNames.
Context {libs : Libs}.

(** X7.  The default names.  When the configuration names neither a backup
    directory nor a log file, a completed run that is not a dry run
    reports the names [get_default_backup_dir] and [get_default_log_file]
    give for two successive readings of the clock, taken before anything
    is renamed; the last components match the patterns [backup_*] and
    [rename_log_*.json] by which undo looks for them. *)
Theorem default_names_match_the_patterns
    (config : Config.t) (w : world) (res : Result.t) (w' : world) :
  rename_files config w = (Ok res, w') →
  Config.dry_run config = false →
  truthy (Config.backup_dir config) = false →
  truthy (Config.log_file config) = false →
  ∃ bname lname,
    Utils.get_default_backup_dir (Config.directory config) w
    = (Ok (OsPath.join (Config.directory config) bname), advance w)
    ∧ Result.backup_dir res = Some (OsPath.join (Config.directory config) bname)
    ∧ Utils.get_default_log_file (Config.directory config) (advance w)
      = (Ok (OsPath.join (Config.directory config) lname), advance (advance w))
    ∧ Result.log_file res = Some (OsPath.join (Config.directory config) lname)
    ∧ fnmatch "backup_*" bname = true
    ∧ fnmatch "rename_log_*.json" lname = true.
Proof.
  intros Hrun Hwet Hbd Hlf.
  apply rename_files_Ok in Hrun as (files & bd & lf & w1 & w2 & Hprep & _ & Hfin).
  apply finish_Ok in Hfin as (_ & _ & _ & Hrbd & Hrlf). rewrite Hwet in Hrbd, Hrlf.
  pose proof (prepare_Ok _ _ _ _ _ _ Hprep) as (Hval & Hcol & Hne & _).
  unfold prepare in Hprep.
  rewrite (bind_Ok_eq _ _ _ _ _ Hval), (bind_Ok_eq _ _ _ _ _ Hcol) in Hprep.
  destruct files as [|f files]; [done|].
  rewrite Hbd, Hlf in Hprep. cbv [bind time_time ret] in Hprep.
  injection Hprep as <- <- _.
  exists ("backup_" +:+ Py.str (now w)),
         ("rename_log_" +:+ Py.str (now (advance w)) +:+ ".json").
  split; [done|]. split; [done|]. split; [done|]. split; [done|]. split.
  - change (fnmatch "backup_*" ("backup_" +:+ Py.str (now w)))
      with (fnmatch "*" (Py.str (now w))).
    rewrite <- (string_app_empty_r (Py.str (now w))).
    by apply fnmatch_star_suffix.
  - change (fnmatch "rename_log_*.json"
              ("rename_log_" +:+ Py.str (now (advance w)) +:+ ".json"))
      with (fnmatch "*.json" (Py.str (now (advance w)) +:+ ".json")).
    by apply fnmatch_star_suffix.
Qed.

End DefaultNames.

Lemma default_names_match_the_patterns_witness :
  rename_files (libs := example_libs) photos_config photos_world
  = (Ok photos_result, photos_after)
  ∧ Config.dry_run photos_config = false
  ∧ truthy (Config.backup_dir photos_config) = false
  ∧ truthy (Config.log_file photos_config) = false
  ∧ ∃ bname lname,
      Utils.get_default_backup_dir (Config.directory photos_config) photos_world
      = (Ok (OsPath.join (Config.directory photos_config) bname), advance photos_world)
      ∧ Result.backup_dir photos_result
        = Some (OsPath.join (Config.directory photos_config) bname)
      ∧ Utils.get_default_log_file (Config.directory photos_config)
          (advance photos_world)
        = (Ok (OsPath.join (Config.directory photos_config) lname),
           advance (advance photos_world))
      ∧ Result.log_file photos_result
        = Some (OsPath.join (Config.directory photos_config) lname)
      ∧ fnmatch "backup_*" bname = true
      ∧ fnmatch "rename_log_*.json" lname = true.
Proof.
  assert ((rename_files (libs := example_libs) photos_config photos_world).1
          = Ok photos_result) as Hrun by (vm_compute; reflexivity).
  apply run_by_outcome in Hrun. fold photos_after in Hrun.
  split; [exact Hrun|]. split; [reflexivity|]. split; [reflexivity|].
  split; [reflexivity|].
  exact (default_names_match_the_patterns (libs := example_libs)
           photos_config photos_world photos_result photos_after
           Hrun eq_refl eq_refl eq_refl).
Defined.

(* ===================================================================== *)
(** * What a run leaves on disk *)
(* ===================================================================== *)

Section OnDisk.
Context {libs : Libs}.

(** X2.  What a run leaves on disk.  After a completed run that is not a
    dry run, whose records are separate on disk, every renamed record has
    the file that was at its original path, contents and modification
    time, both at its destination and in the backup directory under its
    original name, and nothing at its original path; the log exists; and
    every file outside the records' locations and the log is as it
    was. *)
Theorem run_moves_and_backs_up
    (config : Config.t) (w : world) (res : Result.t) (w' : world) (bd lf : string) :
  rename_files config w = (Ok res, w') →
  Config.dry_run config = false →
  Result.backup_dir res = Some bd →
  Result.log_file res = Some lf →
  separate w bd lf (Result.records res) →
  (∀ r, r ∈ Result.records res → renamed r = true →
     ∃ d, file_at (fs w) (orig_key w r) = Some d
          ∧ file_at (fs w') (orig_key w r) = None
          ∧ file_at (fs w') (new_key w r) = Some d
          ∧ file_at (fs w') (backup_key w bd r) = Some d)
  ∧ is_Some (file_at (fs w') (resolve w lf))
  ∧ (∀ k, k ∉ resolve w lf :: (Result.records res ≫= locations w bd) →
       file_at (fs w') k = file_at (fs w) k).
Proof.
  intros Hrun Hwet Hbd Hlf (Hnd & Hpfx & Hbakdir).
  apply rename_files_Ok in Hrun as (files & bd' & lf' & w1 & w2 & Hprep & Hloop & Hfin).
  pose proof (finish_Ok _ _ _ _ _ _ _ Hfin) as (_ & _ & _ & Hbd' & Hlf').
  rewrite Hwet in Hbd', Hlf'.
  assert (bd' = bd) as -> by congruence. assert (lf' = lf) as -> by congruence.
  clear Hbd Hlf Hbd' Hlf'.
  remember (Result.records res) as recs eqn:Hrecs_def.
  pose proof (prepare_Ok _ _ _ _ _ _ Hprep) as (_ & _ & _ & Hfs1 & Hcwd1 & _).
  apply NoDup_cons in Hnd as [Hlog Hnd].
  rewrite Forall_forall in Hpfx. rewrite Forall_forall in Hbakdir.
  destruct (run_on_disk w config bd Hwet w1 files _ recs w2 Hcwd1 Hloop Hnd)
    as (Hcwd2 & Hf2 & _ & Hall).
  { apply Forall_forall. intros r Hr Hren. rewrite Hfs1. split; [by apply Hbakdir|].
    apply Hpfx, list_elem_of_bind. exists r. split; [|done].
    rewrite (locations_renamed _ _ _ Hren).
    apply list_elem_of_further, list_elem_of_further, list_elem_of_here. }
  rewrite Forall_forall in Hall.
  unfold finish in Hfin. rewrite Hwet in Hfin. simpl in Hfin.
  apply bind_Ok_inv in Hfin as ([] & w3 & Hwrite & Hret). injection Hret as _ <-.
  unfold _write_log in Hwrite.
  apply bind_Ok_inv in Hwrite as (stamp & w2' & Hstamp & Hwrite).
  injection Hstamp as <- <-.
  apply write_json_Ok in Hwrite as (_ & _ & Hfiles & _).
  rewrite (resolve_cwd (advance w2) w lf Hcwd2) in Hfiles.
  assert (∀ k, k ≠ resolve w lf →
            file_at (fs w3) k = foldl (apply_effect w bd) (file_at (fs w)) recs k)
    as Hf3.
  { intros k Hk. rewrite Hfiles, decide_False by done. simpl.
    by rewrite Hf2, Hfs1. }
  split; [|split].
  - intros r Hr Hren. destruct (Hall r Hr) as [_ Hu].
    destruct (Hu Hren) as [_ [d Hd]]. rewrite Hfs1 in Hd. exists d. split; [done|].
    assert (∀ k, k ∈ locations w bd r → k ≠ resolve w lf) as Hne.
    { intros k Hk ->. apply Hlog, list_elem_of_bind. eauto. }
    rewrite (locations_renamed _ _ _ Hren) in Hne.
    destruct (apply_effects_record w bd recs (file_at (fs w)) r Hnd Hr Hren)
      as [Hb Hn].
    rewrite !Hf3, Hb, Hn, (apply_effects_orig w bd recs _ r Hnd Hr Hren), Hd;
      [done|apply Hne..].
    + apply list_elem_of_further, list_elem_of_further, list_elem_of_here.
    + apply list_elem_of_further, list_elem_of_here.
    + apply list_elem_of_here.
  - rewrite Hfiles, decide_True by done. eauto.
  - intros k [Hk Hloc]%not_elem_of_cons.
    by rewrite Hf3, apply_effects_frame.
Qed.

End OnDisk.

Lemma run_moves_and_backs_up_witness :
  rename_files (libs := example_libs) photos_config photos_world
  = (Ok photos_result, photos_after)
  ∧ separate photos_world "/photos/backup_1700000000"
      "/photos/rename_log_1700000001.json" (Result.records photos_result)
  ∧ (∀ r, r ∈ Result.records photos_result → renamed r = true →
       ∃ d, file_at (fs photos_world) (orig_key photos_world r) = Some d
            ∧ file_at (fs photos_after) (orig_key photos_world r) = None
            ∧ file_at (fs photos_after) (new_key photos_world r) = Some d
            ∧ file_at (fs photos_after)
                (backup_key photos_world "/photos/backup_1700000000" r) = Some d)
  ∧ is_Some (file_at (fs photos_after)
               (resolve photos_world "/photos/rename_log_1700000001.json"))
  ∧ (∀ k, k ∉ resolve photos_world "/photos/rename_log_1700000001.json"
              :: (Result.records photos_result
                  ≫= locations photos_world "/photos/backup_1700000000") →
       file_at (fs photos_after) k = file_at (fs photos_world) k).
Proof.
  assert ((rename_files (libs := example_libs) photos_config photos_world).1
          = Ok photos_result) as Hrun by (vm_compute; reflexivity).
  apply run_by_outcome in Hrun. fold photos_after in Hrun.
  assert (separate photos_world "/photos/backup_1700000000"
            "/photos/rename_log_1700000001.json" (Result.records photos_result))
    as Hsep.
  { unfold separate. split; [|split]; apply (bool_decide_unpack _); vm_compute; exact I. }
  split; [exact Hrun|]. split; [exact Hsep|].
  exact (run_moves_and_backs_up (libs := example_libs) photos_config photos_world
           photos_result photos_after "/photos/backup_1700000000"
           "/photos/rename_log_1700000001.json" Hrun eq_refl eq_refl eq_refl Hsep).
Defined.

(* ===================================================================== *)
(** * The backup directory undo takes *)
(* ===================================================================== *)



(* ===================================================================== *)
(** * Paths as strings *)
(* ===================================================================== *)

Lemma len_app a b : Py.len (a +:+ b) = Py.len a + Py.len b.
Proof.
  unfold Py.len. induction a as [|c a IH]; [done|].
  rewrite string_app_cons. simpl String.length. lia.
Qed.

Lemma rfind_from_none i c s :
  Py.contains_char c s = false → Py.rfind_from i c s = -1.
Proof.
  revert i. induction s as [|a s IH]; intros i; [done|]. simpl.
  intros [Ha Hs]%orb_false_iff. rewrite (IH _ Hs). simpl. by rewrite Ha.
Qed.

Lemma rfind_from_bounds i c s :
  0 ≤ i → Py.rfind_from i c s = -1 ∨ i ≤ Py.rfind_from i c s < i + Py.len s.
Proof.
  revert i. induction s as [|a s IH]; intros i Hi; [by left|].
  assert (Py.len (String a s) = Py.len s + 1) as ->
    by (unfold Py.len; simpl String.length; lia).
  assert (0 ≤ Py.len s) by (unfold Py.len; lia).
  cbn [Py.rfind_from].
  destruct (IH (i + 1)) as [->|Hr]; [lia| |].
  - change (0 <=? -1) with false. cbv iota.
    case_bool_decide; [right; lia | by left].
  - right. destruct (Z.leb_spec 0 (Py.rfind_from (i + 1) c s)); lia.
Qed.

Lemma rfind_from_last i c x n :
  0 ≤ i → Py.contains_char c n = false →
  Py.rfind_from i c (x +:+ String c n) = i + Py.len x.
Proof.
  intros Hi Hn. revert i Hi. induction x as [|a x IH]; intros i Hi.
  - change ("" +:+ String c n) with (String c n). cbn [Py.rfind_from].
    rewrite (rfind_from_none _ _ _ Hn). change (0 <=? -1) with false. cbv iota.
    rewrite bool_decide_eq_true_2 by done. unfold Py.len. simpl. lia.
  - rewrite string_app_cons. cbn [Py.rfind_from]. rewrite IH by lia.
    assert (Py.len (String a x) = Py.len x + 1) as ->
      by (unfold Py.len; simpl String.length; lia).
    assert (0 ≤ Py.len x) by (unfold Py.len; lia).
    destruct (Z.leb_spec 0 (i + 1 + Py.len x)); lia.
Qed.

Lemma substring_all s : String.substring 0 (String.length s) s = s.
Proof. induction s as [|c s IH]; [done|]. simpl. by rewrite IH. Qed.

Lemma substring_drop x n :
  String.substring (String.length x) (String.length n) (x +:+ n) = n.
Proof.
  induction x as [|c x IH].
  - change ("" +:+ n) with n. apply substring_all.
  - rewrite string_app_cons. simpl. done.
Qed.

Lemma substring_split s (k : nat) :
  (k ≤ String.length s)%nat →
  String.substring 0 k s +:+ String.substring k (String.length s - k) s = s.
Proof.
  revert k. induction s as [|c s IH]; intros k Hk.
  - simpl in Hk. assert (k = 0%nat) as -> by lia. done.
  - destruct k as [|k].
    + simpl. change ("" +:+ ?x) with x. by rewrite substring_all.
    + simpl in *. rewrite string_app_cons. rewrite IH by lia. done.
Qed.

Lemma slice_from_drop x n :
  Py.slice_from (Py.len x) (x +:+ n) = n.
Proof.
  unfold Py.slice_from, Py.slice. rewrite len_app.
  replace (Py.len x + Py.len n - Py.len x) with (Py.len n) by lia.
  unfold Py.len. rewrite !Nat2Z.id. apply substring_drop.
Qed.

(** The last component of a path that ends in a name without a slash. *)
Lemma basename_plain n : plain n = true → OsPath.basename n = n.
Proof.
  intros Hn%negb_true_iff. unfold OsPath.basename, OsPath.split, Py.rfind. simpl.
  rewrite (rfind_from_none _ _ _ Hn). simpl.
  exact (slice_from_drop "" n).
Qed.

Lemma basename_after_slash x n :
  plain n = true → OsPath.basename (x +:+ String "/" n) = n.
Proof.
  intros Hn%negb_true_iff. unfold OsPath.basename, OsPath.split, Py.rfind. simpl.
  rewrite (rfind_from_last 0 "/" x n) by done.
  replace (x +:+ String "/" n) with ((x +:+ "/") +:+ n)
    by (by rewrite string_app_assoc).
  replace (0 + Py.len x + 1) with (Py.len (x +:+ "/"))
    by (rewrite len_app; unfold Py.len; simpl; lia).
  apply slice_from_drop.
Qed.

Lemma rev_app_app s acc : String.rev_app s acc = String.rev s +:+ acc.
Proof.
  unfold String.rev. revert acc. induction s as [|a s IH]; intros acc; [done|].
  simpl. rewrite (IH (String a acc)), (IH (String a "")).
  by rewrite string_app_assoc.
Qed.

Lemma endswith_slash d :
  Py.endswith "/" d = true → ∃ d', d = d' +:+ "/".
Proof.
  unfold Py.endswith. change (String.rev "/") with "/".
  induction d as [|a d IH]; [done|].
  unfold String.rev. simpl. rewrite rev_app_app.
  destruct (String.rev d) as [|b r] eqn:Hrev.
  - change ("" +:+ ?x) with x. simpl. rewrite andb_true_r.
    intros Ha%bool_decide_eq_true_1. subst a.
    assert (d = "") as ->.
    { destruct d as [|c d]; [done|]. unfold String.rev in Hrev. simpl in Hrev.
      rewrite rev_app_app in Hrev. by destruct (String.rev d). }
    by exists "".
  - rewrite string_app_cons. simpl. rewrite andb_true_r. intros Hb.
    destruct IH as [d' ->]; [by simpl; rewrite andb_true_r|].
    exists (String a d'). by rewrite string_app_cons.
Qed.

Lemma plain_not_absolute n : plain n = true → Py.startswith "/" n = false.
Proof.
  unfold plain. destruct n as [|c n]; [done|]. simpl.
  intros [Hc _]%negb_true_iff%orb_false_iff.
  apply bool_decide_eq_false in Hc. rewrite andb_true_r.
  apply bool_decide_eq_false. congruence.
Qed.

(** [os.path.basename(os.path.join(d, name))] is [name] for a name
    without a slash. *)
Lemma basename_join d n : plain n = true → OsPath.basename (OsPath.join d n) = n.
Proof.
  intros Hn. unfold OsPath.join. rewrite (plain_not_absolute n Hn).
  destruct (bool_decide (d = "")) eqn:Hd; simpl.
  - apply bool_decide_eq_true_1 in Hd. subst d. change ("" +:+ n) with n.
    by apply basename_plain.
  - destruct (Py.endswith "/" d) eqn:Hend.
    + apply endswith_slash in Hend as [d' ->].
      rewrite string_app_assoc. by apply basename_after_slash.
    + replace (d +:+ "/" +:+ n) with (d +:+ String "/" n) by done.
      by apply basename_after_slash.
Qed.

(** The two halves [os.path.splitext] returns make up the path. *)
Lemma splitext_join p : (OsPath.splitext p).1 +:+ (OsPath.splitext p).2 = p.
Proof.
  unfold OsPath.splitext.
  destruct (_ && _) eqn:Hcond; simpl; [|apply string_app_empty_r].
  apply andb_true_iff in Hcond as [Hlt%Z.ltb_lt _].
  unfold Py.rfind in *.
  assert (0 ≤ Py.rfind_from 0 "." p < Py.len p) as Hdot.
  { destruct (rfind_from_bounds 0 "/" p) as [Hslash|Hslash]; [lia| |];
      destruct (rfind_from_bounds 0 "." p) as [Hdot|Hdot]; lia. }
  set (dot := Py.rfind_from 0 "." p) in *.
  unfold Py.slice_from, Py.slice. rewrite Z.sub_0_r.
  assert (Z.to_nat (Py.len p - dot) = (String.length p - Z.to_nat dot)%nat) as ->
    by (unfold Py.len in *; lia).
  apply substring_split. unfold Py.len in *. lia.
Qed.

(* ===================================================================== *)
(** * A configuration without a rule *)
(* ===================================================================== *)

Section NoRule.
Context {libs : Libs}.

Lemma _build_new_name_no_rule name config counter w s w' :
  no_rule config →
  _build_new_name name config counter w = (Ok s, w') → s = name ∧ w' = w.
Proof.
  intros (Hpre & Hsuf & Hnum & Hts & Hre) Hname.
  apply _build_new_name_Ok in Hname as (stem' & stamp & Hsub & _ & -> & Hstamp).
  unfold substituted in Hsub. rewrite Hre in Hsub. injection Hsub as <-.
  rewrite Hts in Hstamp. destruct Hstamp as [-> ->].
  rewrite Hpre, Hsuf, Hnum. split; [|done].
  change ("" +:+ ?x) with x. rewrite !string_app_empty_r.
  apply splitext_join.
Qed.

Lemma loop_run_no_rule config bd files counter w1 recs w2 :
  Config.dry_run config = false → no_rule config →
  Forall (fun f => ∃ name, plain name = true
                           ∧ f = OsPath.join (Config.directory config) name) files →
  loop_run config bd files counter w1 recs w2 →
  w2 = w1
  ∧ Forall (fun r => skipped r = Some "Name unchanged."
                     ∧ new_name r = original_name r
                     ∧ new_path r = original_path r) recs.
Proof.
  intros Hwet Hrule Hfiles Hrun.
  induction Hrun as [c w1|f files c w1 r w1' recs w2 Hone Hrun IH].
  - split; [done|constructor].
  - apply Forall_cons in Hfiles as [(name & Hplain & ->) Hfiles].
    apply rename_one_Ok in Hone as (wn & Hname & Hon & Hop & Hnp & Hkind).
    apply (_build_new_name_no_rule _ _ _ _ _ _ Hrule) in Hname as [Hnn ->].
    rewrite (basename_join _ _ Hplain) in Hnn, Hon.
    assert (new_path r = original_path r) as Hsame by congruence.
    assert (w1' = w1 ∧ skipped r = Some "Name unchanged.") as [-> Hs].
    { destruct Hkind as [Hdry _ _ _ | _ _ Hs _ -> | ? ? ? _ Habs _ _ _ _ _ _ _].
      - congruence.
      - done.
      - destruct Habs. by rewrite Hsame. }
    destruct (IH Hfiles) as [-> Hall]. split; [done|].
    constructor; [|done]. split; [done|]. split; [congruence|done].
Qed.

(** X6.  A configuration without a rule.  When the configuration has no
    prefix, suffix, numbering, timestamp or regular expression, a
    completed run that is not a dry run leaves every file where it is:
    each record is marked skipped with the new name and path equal to the
    original ones, no backup directory is made, and the one call that
    changes the file system is the writing of the log.  (The names in the
    file system are taken to hold no slash.) *)
Theorem no_rule_renames_nothing
    (config : Config.t) (w : world) (res : Result.t) (w' : world) :
  rename_files config w = (Ok res, w') →
  Config.dry_run config = false →
  no_rule config →
  plain_names (fs w) →
  Forall (fun r => skipped r = Some "Name unchanged."
                   ∧ new_name r = original_name r
                   ∧ new_path r = original_path r) (Result.records res)
  ∧ ∃ lf,
      Result.log_file res = Some lf
      ∧ trace w' = trace w ++ [EvWrite (resolve w lf)]
      ∧ (∀ k, k ≠ resolve w lf → file_at (fs w') k = file_at (fs w) k)
      ∧ (∀ k, dir_at (fs w') k = dir_at (fs w) k).
Proof.
  intros Hrun Hwet Hrule Hplain.
  apply rename_files_Ok in Hrun as (files & bd & lf & w1 & w2 & Hprep & Hloop & Hfin).
  pose proof (finish_Ok _ _ _ _ _ _ _ Hfin) as (_ & _ & _ & _ & Hlf).
  rewrite Hwet in Hlf.
  apply prepare_Ok in Hprep as (_ & Hcol & _ & Hfs1 & Hcwd1 & Htr1 & _).
  apply _collect_files_inv in Hcol as (_ & _ & ->).
  apply (loop_run_no_rule _ _ _ _ _ _ _ Hwet Hrule) in Hloop as [-> Hall].
  2:{ apply Forall_forall. intros f Hf. rewrite (proj2 (sorted_spec _)) in Hf.
    apply list_elem_of_fmap in Hf as (entry & -> & Hin).
    apply list_elem_of_In, filter_In in Hin as [Hin _].
    apply list_elem_of_In, list_elem_of_fmap in Hin as ([name n] & -> & Hin).
    apply elem_of_children in Hin. exists name. split; [|done].
    apply Hplain in Hin. apply Forall_app in Hin as [_ Hname].
    by inversion Hname. }
  split; [done|]. exists lf. split; [done|].
  unfold finish in Hfin. rewrite Hwet in Hfin. simpl in Hfin.
  apply bind_Ok_inv in Hfin as ([] & w3 & Hwrite & Hret). injection Hret as _ <-.
  unfold _write_log in Hwrite.
  apply bind_Ok_inv in Hwrite as (stamp & w2' & Hstamp & Hwrite).
  injection Hstamp as <- <-.
  apply write_json_Ok in Hwrite as (_ & _ & Hfiles & Hdirs & _ & _ & Ht3).
  rewrite (resolve_cwd (advance w1) w lf Hcwd1) in Hfiles, Ht3.
  split; [by rewrite Ht3; simpl; rewrite Htr1|]. split.
  - intros k Hk. rewrite Hfiles, decide_False by done. simpl. by rewrite Hfs1.
  - intros k. rewrite Hdirs. simpl. by rewrite Hfs1.
Qed.

End NoRule.

Lemma plain_names_by_entries (f : gmap path node) :
  map_Forall (fun k _ => Forall (fun c => plain c = true) k) f → plain_names f.
Proof. intros Hall k n Hk. exact (Hall k n Hk). Qed.

Lemma no_rule_renames_nothing_witness :
  rename_files (libs := example_libs) (default_config "/photos") photos_world
  = (Ok photos_unchanged_result, photos_unchanged)
  ∧ Config.dry_run (default_config "/photos") = false
  ∧ no_rule (default_config "/photos")
  ∧ plain_names (fs photos_world)
  ∧ Forall (fun r => skipped r = Some "Name unchanged."
                     ∧ new_name r = original_name r
                     ∧ new_path r = original_path r)
      (Result.records photos_unchanged_result)
  ∧ ∃ lf,
      Result.log_file photos_unchanged_result = Some lf
      ∧ trace photos_unchanged = trace photos_world ++ [EvWrite (resolve photos_world lf)]
      ∧ (∀ k, k ≠ resolve photos_world lf →
           file_at (fs photos_unchanged) k = file_at (fs photos_world) k)
      ∧ (∀ k, dir_at (fs photos_unchanged) k = dir_at (fs photos_world) k).
Proof.
  assert ((rename_files (libs := example_libs) (default_config "/photos")
             photos_world).1 = Ok photos_unchanged_result) as Hrun
    by (vm_compute; reflexivity).
  apply run_by_outcome in Hrun. fold photos_unchanged in Hrun.
  assert (no_rule (default_config "/photos")) as Hrule by (by repeat split).
  assert (plain_names (fs photos_world)) as Hplain.
  { apply plain_names_by_entries. apply (bool_decide_unpack _). vm_compute. exact I. }
  split; [exact Hrun|]. split; [reflexivity|]. split; [exact Hrule|].
  split; [exact Hplain|].
  exact (no_rule_renames_nothing (libs := example_libs) (default_config "/photos")
           photos_world photos_unchanged_result photos_unchanged
           Hrun eq_refl Hrule Hplain).
Defined.

(* ===================================================================== *)
(** * Paths in a directory *)
(* ===================================================================== *)

Lemma string_snoc (d : string) : d ≠ "" → ∃ x c, d = x +:+ String c "".
Proof.
  induction d as [|a d IH]; [done|]. intros _.
  destruct d as [|b d].
  - by exists "", a.
  - destruct IH as (x & c & ->); [done|]. exists (String a x), c.
    by rewrite string_app_cons.
Qed.

Lemma rev_snoc x c : String.rev (x +:+ String c "") = String c (String.rev x).
Proof.
  unfold String.rev.
  assert (∀ acc, String.rev_app (x +:+ String c "") acc
                 = String c (String.rev_app x acc)) as Hgen; [|apply Hgen].
  induction x as [|a x IH]; intros acc; [done|].
  rewrite string_app_cons. simpl. by rewrite IH.
Qed.

Lemma endswith_snoc x c :
  Py.endswith "/" (x +:+ String c "") = bool_decide (c = "/"%char).
Proof.
  unfold Py.endswith. rewrite rev_snoc. change (String.rev "/") with "/".
  simpl. rewrite andb_true_r. apply bool_decide_ext. split; congruence.
Qed.

(** A clean directory ends in a character that is not a slash. *)
Lemma clean_snoc d : clean d → ∃ x c, d = x +:+ String c "" ∧ c ≠ "/"%char.
Proof.
  intros (Hne & Hend & _). destruct (string_snoc d Hne) as (x & c & ->).
  rewrite endswith_snoc in Hend. apply bool_decide_eq_false in Hend. eauto.
Qed.

Lemma join_clean d n :
  clean d → plain n = true → OsPath.join d n = d +:+ String "/" n.
Proof.
  intros (Hne & Hend & _) Hn. unfold OsPath.join.
  rewrite (plain_not_absolute n Hn), Hend, bool_decide_eq_false_2 by done.
  done.
Qed.

Lemma rstrip_slash_slash y : Py.rstrip_slash (y +:+ "/") = Py.rstrip_slash y.
Proof.
  induction y as [|a y IH]; [done|]. rewrite string_app_cons. simpl. by rewrite IH.
Qed.

Lemma rstrip_slash_snoc x c :
  c ≠ "/"%char → Py.rstrip_slash (x +:+ String c "") = x +:+ String c "".
Proof.
  intros Hc. induction x as [|a x IH].
  - change ("" +:+ String c "") with (String c ""). simpl.
    by rewrite bool_decide_eq_false_2.
  - rewrite string_app_cons. simpl. rewrite IH.
    destruct x; by rewrite ?string_app_cons.
Qed.

Lemma all_slashes_snoc x c y :
  c ≠ "/"%char → Py.all_slashes (x +:+ String c y) = false.
Proof.
  intros Hc. induction x as [|a x IH].
  - change ("" +:+ String c y) with (String c y). simpl.
    by rewrite bool_decide_eq_false_2.
  - rewrite string_app_cons. simpl. rewrite IH. apply andb_false_r.
Qed.

Lemma substring_take x y :
  String.substring 0 (String.length x) (x +:+ y) = x.
Proof.
  induction x as [|a x IH].
  - change ("" +:+ y) with y. by destruct y.
  - rewrite string_app_cons. simpl. by rewrite IH.
Qed.

(** [os.path.split] takes a path in a clean directory apart where [join]
    put it together. *)
Lemma split_join_clean d n :
  clean d → plain n = true → OsPath.split (OsPath.join d n) = (d, n).
Proof.
  intros Hd Hn. rewrite (join_clean d n Hd Hn).
  destruct (clean_snoc d Hd) as (x & c & -> & Hc).
  unfold OsPath.split, Py.rfind.
  pose proof Hn as Hn'. apply negb_true_iff in Hn'.
  rewrite (rfind_from_last 0 "/" _ n) by done.
  set (d := x +:+ String c "").
  assert (0 + Py.len d + 1 = Py.len (d +:+ "/")) as ->
    by (rewrite len_app; unfold Py.len; simpl; lia).
  assert (d +:+ String "/" n = (d +:+ "/") +:+ n) as ->
    by (by rewrite string_app_assoc).
  rewrite slice_from_drop.
  assert (Py.slice 0 (Py.len (d +:+ "/")) ((d +:+ "/") +:+ n) = d +:+ "/") as ->.
  { unfold Py.slice. rewrite Z.sub_0_r. unfold Py.len. rewrite Nat2Z.id.
    apply substring_take. }
  assert (bool_decide (d +:+ "/" = "") = false) as ->.
  { apply bool_decide_eq_false. unfold d. by destruct x. }
  assert (Py.all_slashes (d +:+ "/") = false) as ->.
  { unfold d. rewrite string_app_assoc. by apply all_slashes_snoc. }
  simpl. rewrite rstrip_slash_slash. unfold d. by rewrite rstrip_slash_snoc.
Qed.

Lemma split_slash_cons s : ∃ h t, Py.split_slash s = h :: t.
Proof.
  induction s as [|c s (h & t & IH)]; cbn [Py.split_slash]; [eauto|].
  case_bool_decide; [eauto|]. rewrite IH. eauto.
Qed.

Lemma split_slash_plain n : plain n = true → Py.split_slash n = [n].
Proof.
  unfold plain. induction n as [|c n IH]; [done|].
  cbn [Py.contains_char Py.split_slash].
  intros [Hc Hn]%negb_true_iff%orb_false_iff.
  rewrite Hc, IH; [done|]. by apply negb_true_iff.
Qed.

Lemma split_slash_app x y :
  Py.split_slash (x +:+ String "/" y) = Py.split_slash x ++ Py.split_slash y.
Proof.
  induction x as [|c x IH].
  - change ("" +:+ String "/" y) with (String "/" y).
    cbn [Py.split_slash]. by rewrite bool_decide_eq_true_2.
  - rewrite string_app_cons. cbn [Py.split_slash]. rewrite IH.
    case_bool_decide; [done|].
    by destruct (split_slash_cons x) as (h & t & ->).
Qed.

Lemma norm_comps_snoc stack l n :
  n ≠ "" → n ≠ "." → n ≠ ".." →
  norm_comps stack (l ++ [n]) = norm_comps stack l ++ [n].
Proof.
  intros H1 H2 H3. revert stack. induction l as [|c l IH]; intros stack; simpl.
  - by rewrite !bool_decide_eq_false_2.
  - repeat case_match; apply IH.
Qed.

(** The entry a name in a directory resolves to. *)
Lemma resolve_join w d n :
  clean d → component n → resolve w (OsPath.join d n) = resolve w d ++ [n].
Proof.
  intros Hd (Hn & H1 & H2 & H3). rewrite (join_clean d n Hd Hn).
  unfold resolve. rewrite split_slash_app, (split_slash_plain n Hn).
  rewrite norm_comps_snoc by done. do 2 f_equal.
  destruct Hd as (Hne & _). destruct d as [|a d]; [done|].
  by rewrite string_app_cons.
Qed.

(* ===================================================================== *)
(** * [glob] in a clean directory *)
(* ===================================================================== *)

Lemma contains_char_app c x y :
  Py.contains_char c (x +:+ y) = Py.contains_char c x || Py.contains_char c y.
Proof.
  induction x as [|a x IH]; [done|]. rewrite string_app_cons. simpl.
  by rewrite IH, orb_assoc.
Qed.

Lemma has_magic_join d pat :
  clean d → plain pat = true → has_magic pat = true →
  has_magic (OsPath.join d pat) = true.
Proof.
  intros Hd Hp Hm. rewrite (join_clean d pat Hd Hp).
  unfold has_magic in *. rewrite !contains_char_app. simpl.
  apply orb_true_iff in Hm as [[Hm|Hm]%orb_true_iff|Hm]; rewrite Hm;
    by rewrite ?orb_true_r.
Qed.

Lemma glob_in_clean_directory d pat w :
  clean d → plain pat = true → has_magic pat = true →
  Py.contains_char "[" pat = false → Py.startswith "." pat = false →
  glob_glob (OsPath.join d pat) w
  = (Ok (map (OsPath.join d) (selected pat (listing w d))), w).
Proof.
  intros Hd Hp Hm Hb Hdot. unfold glob_glob.
  rewrite (split_join_clean d pat Hd Hp), (has_magic_join d pat Hd Hp Hm).
  destruct Hd as (Hne & _ & Hmd). rewrite Hmd, Hb, Hdot. simpl.
  by rewrite bool_decide_eq_false_2.
Qed.

(* ===================================================================== *)
(** * The listing of a directory *)
(* ===================================================================== *)

Lemma listing_children w d m :
  lookup_path w d = Ok (Dir m) →
  listing w d = map fst (children (fs w) (resolve w d)).
Proof.
  intros Hd. unfold listing, os_scandir. rewrite Hd.
  rewrite map_map. apply map_ext. by intros [name n].
Qed.

Lemma elem_of_children_names (f : gmap path node) k name :
  name ∈ map fst (children f k) ↔ is_Some (f !! (k ++ [name])).
Proof.
  rewrite list_elem_of_fmap. split.
  - intros ([name' n] & -> & Hin%elem_of_children). eauto.
  - intros [n Hn]. exists (name, n). split; [done|]. by apply elem_of_children.
Qed.

Lemma NoDup_children_names (f : gmap path node) k :
  NoDup (map fst (children f k)).
Proof.
  unfold children.
  pose proof (NoDup_fst_map_to_list f) as Hnd.
  assert (∀ kn, kn ∈ map_to_list f → f !! kn.1 = Some kn.2) as Hin.
  { intros [k' n] Hkn. by apply elem_of_map_to_list. }
  clear Hin. induction (map_to_list f) as [|[k' n] l IH]; [constructor|].
  simpl in Hnd. apply NoDup_cons in Hnd as [Hk' Hnd]. specialize (IH Hnd).
  simpl.
  destruct k' as [|c k''] eqn:Hk; [done|]. rewrite <- Hk in *.
  case_bool_decide as Hparent; [|done]. simpl.
  apply NoDup_cons. split; [|done].
  intros ([name' n'] & Hname & Hin)%list_elem_of_fmap. simpl in Hname.
  apply list_elem_of_omap in Hin as ([k2 n2] & Hin2 & Hsome).
  assert (k2 ≠ []) as Hne2 by (by destruct k2).
  assert ((if bool_decide (removelast k2 = k)
           then Some (List.last k2 "", n2) else None) = Some (name', n')) as Hif
    by (by destruct k2).
  case_bool_decide as Hparent2; [|discriminate]. injection Hif as <- <-.
  apply Hk'. apply list_elem_of_fmap. exists (k2, n2). split; [|done]. simpl.
  assert (k' ≠ []) as Hne by (by rewrite Hk).
  rewrite (app_removelast_last "" Hne), (app_removelast_last "" Hne2).
  by rewrite Hparent, Hparent2, Hname.
Qed.

Lemma NoDup_singleton_by_elements {A} (l : list A) (a : A) :
  NoDup l → (∀ x, x ∈ l ↔ x = a) → l = [a].
Proof.
  intros Hnd Hl. destruct l as [|x l].
  - assert (a ∈ @nil A) as Hin by (by apply Hl). inversion Hin.
  - assert (x = a) as -> by (apply Hl, list_elem_of_here).
    apply NoDup_cons in Hnd as [Hx Hnd]. f_equal.
    destruct l as [|y l]; [done|].
    assert (y = a) as -> by (apply Hl, list_elem_of_further, list_elem_of_here).
    destruct Hx. apply list_elem_of_here.
Qed.

Lemma elem_of_selected pat names name :
  name ∈ selected pat names
  ↔ name ∈ names ∧ Py.startswith "." name = false ∧ fnmatch pat name = true.
Proof.
  unfold selected.
  rewrite list_elem_of_In, !filter_In, <- list_elem_of_In, negb_true_iff.
  tauto.
Qed.

Lemma NoDup_selected pat names : NoDup names → NoDup (selected pat names).
Proof.
  intros Hnd%NoDup_ListNoDup. apply NoDup_ListNoDup. unfold selected.
  by do 2 apply List.NoDup_filter.
Qed.

(* ===================================================================== *)
(** * The file system stays a tree *)
(* ===================================================================== *)

#[local] Instance keeps_tree_preorder : PreOrder keeps_tree.
Proof.
  split; [intros w Ht; exact Ht|]. intros w1 w2 w3 H12 H23 Ht. by apply H23, H12.
Qed.

Lemma is_tree_touch t k f : is_tree f → is_tree (touch t k f).
Proof.
  intros Ht k' n Hk'. rewrite dir_at_touch.
  unfold touch in Hk'. destruct (f !! k) as [[c m|m]|] eqn:Hk; [by eapply Ht| |by eapply Ht].
  destruct (decide (k' = k)) as [->|Hne]; [by eapply Ht|].
  rewrite lookup_insert_ne in Hk' by done. by eapply Ht.
Qed.

Lemma is_tree_insert f k n :
  is_tree f →
  dir_at (<[k := n]> f) (removelast k) = true →
  (dir_at f k = true → dir_at (<[k := n]> f) k = true) →
  is_tree (<[k := n]> f).
Proof.
  intros Ht Hparent Hkeep k' n' Hk'.
  destruct (decide (k' = k)) as [->|Hne]; [done|].
  rewrite lookup_insert_ne in Hk' by done.
  pose proof (Ht _ _ Hk') as Hd.
  destruct (decide (removelast k' = k)) as [Heq|Hne'].
  - rewrite Heq in *. by apply Hkeep.
  - unfold dir_at. by rewrite lookup_insert_ne.
Qed.

Lemma is_tree_delete f k : is_tree f → dir_at f k = false → is_tree (delete k f).
Proof.
  intros Ht Hk k' n' Hk'. apply lookup_delete_Some in Hk' as [Hne Hk'].
  pose proof (Ht _ _ Hk') as Hd.
  unfold dir_at. rewrite lookup_delete_ne; [done|]. intros ->. congruence.
Qed.

Lemma store_tree w p c m f' :
  store w p (File c m) = Ok f' → is_tree (fs w) → is_tree f'.
Proof.
  unfold store. intros Hst Ht.
  destruct (fs w !! resolve w p) as [[c0 m0|m0]|] eqn:Hk.
  - destruct (wants_dir p); [discriminate|]. injection Hst as <-.
    assert (dir_at (fs w) (resolve w p) = false) as Hnd by (unfold dir_at; by rewrite Hk).
    apply is_tree_insert; [done| |congruence].
    rewrite dir_at_insert_file by done. by eapply Ht.
  - discriminate.
  - case_bool_decide; [discriminate|]. destruct (wants_dir p); [discriminate|].
    destruct (fs w !! removelast (resolve w p)) as [[c1 m1|m1]|] eqn:Hp; try discriminate.
    injection Hst as <-.
    assert (dir_at (fs w) (resolve w p) = false) as Hnd by (unfold dir_at; by rewrite Hk).
    apply is_tree_insert; [by apply is_tree_touch| |by rewrite dir_at_touch, Hnd].
    rewrite dir_at_insert_file, dir_at_touch by (by rewrite dir_at_touch).
    unfold dir_at. by rewrite Hp.
Qed.

Lemma mkdir_chain_tree t pre rest f :
  is_tree f → is_tree (mkdir_chain t pre rest f).2.
Proof.
  revert pre f. induction rest as [|c rest IH]; intros pre f Ht; simpl; [done|].
  destruct (f !! (pre ++ [c])) as [[c0 m0|m0]|] eqn:Hk.
  - done.
  - destruct rest; [done|]. by apply IH.
  - destruct (f !! pre) as [[c1 m1|m1]|] eqn:Hp; [done| |done].
    apply IH. apply is_tree_insert; [by apply is_tree_touch| |].
    + rewrite removelast_last. unfold dir_at.
      rewrite lookup_insert_ne by (intros Heq; apply (f_equal length) in Heq;
                                    rewrite length_app in Heq; simpl in Heq; lia).
      fold (dir_at (touch t pre f) pre). rewrite dir_at_touch. unfold dir_at. by rewrite Hp.
    + intros _. unfold dir_at. by rewrite lookup_insert_eq.
Qed.

Lemma os_makedirs_tree p : preserves keeps_tree (os_makedirs p).
Proof.
  intros w Ht. unfold os_makedirs. case_bool_decide; [done|].
  destruct (resolve w p) as [|c k] eqn:Hk; [done|].
  pose proof (mkdir_chain_tree (now w) [] (c :: k) (fs w) Ht) as Hc.
  by destruct (mkdir_chain _ _ _ _) as [r f'].
Qed.

Lemma shutil_copy2_tree src dst : preserves keeps_tree (shutil_copy2 src dst).
Proof.
  intros w Ht. unfold shutil_copy2.
  destruct (lookup_path w src) as [[c m|m]|e]; try done;
    destruct (_ && _); try done.
  destruct (store w _ (File c m)) as [f'|e] eqn:Hst; [|done].
  simpl. by eapply store_tree.
Qed.

Lemma os_replace_tree src dst : preserves keeps_tree (os_replace src dst).
Proof.
  intros w Ht. unfold os_replace.
  destruct (lookup_path w src) as [[c m|m]|e] eqn:Hsrc; try done.
  destruct (_ && _); [done|].
  destruct (store w dst (File c m)) as [f'|e] eqn:Hst; [|done].
  simpl. apply is_tree_touch, is_tree_delete; [by eapply store_tree|].
  apply lookup_path_file in Hsrc as (_ & _ & Hfile).
  apply store_Ok in Hst as (_ & _ & _ & _ & Hdirs).
  rewrite Hdirs. by eapply file_at_dir_at.
Qed.

Lemma os_remove_tree p : preserves keeps_tree (os_remove p).
Proof.
  intros w Ht. unfold os_remove.
  destruct (lookup_path w p) as [[c m|m]|e] eqn:Hp; try done.
  simpl. apply is_tree_touch, is_tree_delete; [done|].
  apply lookup_path_file in Hp as (_ & _ & Hfile). by eapply file_at_dir_at.
Qed.

Lemma write_json_tree p data : preserves keeps_tree (write_json p data).
Proof.
  intros w Ht. unfold write_json.
  destruct (store w p _) as [f'|e] eqn:Hst; [|done].
  simpl. by eapply store_tree.
Qed.

Lemma same_disk_keeps_tree {A} (m : M A) :
  preserves same_disk m → preserves keeps_tree m.
Proof. intros Hm w Ht. destruct (Hm w) as (Hfs & _). by rewrite Hfs. Qed.

Ltac keeps_tree_step :=
  first
    [ apply os_makedirs_tree
    | apply shutil_copy2_tree
    | apply os_replace_tree
    | apply os_remove_tree
    | apply write_json_tree
    | apply same_disk_keeps_tree;
      solve [ apply os_path_exists_same
            | apply same_abspath_same
            | apply time_time_same
            | apply time_strftime_same
            | apply print_same
            | apply validate_same
            | apply _collect_files_same
            | apply _build_new_name_same
            | apply find_latest_log_same
            | apply find_backup_dir_same
            | apply load_rename_log_same ]
    | preserves_step ].

Ltac keeps_tree := repeat keeps_tree_step.

Lemma restore_one_tree bd record : preserves keeps_tree (restore_one bd record).
Proof. unfold restore_one, py_get, py_path. keeps_tree. Qed.

Lemma restore_loop_tree bd records restored skipped details :
  preserves keeps_tree (restore_loop bd records restored skipped details).
Proof.
  revert restored skipped details.
  induction records as [|record records IH]; intros restored skipped details; simpl.
  - keeps_tree.
  - apply preserves_bind; [apply _ | apply restore_one_tree |].
    intros [[] detail]; apply IH.
Qed.

Section Tree.
Context {libs : Libs}.

Lemma rename_one_tree config bd f counter :
  preserves keeps_tree (rename_one config bd f counter).
Proof. unfold rename_one, _ensure_directory. keeps_tree. Qed.

Lemma rename_loop_tree config bd files counter acc :
  preserves keeps_tree (rename_loop config bd files counter acc).
Proof.
  revert counter acc. induction files as [|f files IH]; intros counter acc; simpl.
  - keeps_tree.
  - apply preserves_bind; [apply _ | apply rename_one_tree | intros r; apply IH].
Qed.

(** X20.  The file system stays a tree.  If, before the call, every entry of
    the file system is in a directory, then so is every entry after
    [rename_files], whatever its outcome: a run that is aborted half-way
    leaves no file without the directory it is in, and puts nothing below
    a regular file. *)
Theorem run_keeps_the_tree (config : Config.t) (w : world) :
  is_tree (fs w) → is_tree (fs (rename_files config w).2).
Proof.
  revert w. change (preserves keeps_tree (rename_files config)).
  unfold rename_files, _write_log.
  repeat first [apply rename_loop_tree | keeps_tree_step].
Qed.

End Tree.

(** X21.  Undo keeps the tree.  If every entry of the file system is in a
    directory before [undo_rename], then so is every entry after it,
    whatever it returns: removing the renamed files leaves nothing behind
    below them, and the copies go into directories that exist. *)
Theorem undo_keeps_the_tree (directory : string) (log_file : option string)
    (w : world) :
  is_tree (fs w) → is_tree (fs (undo_rename directory log_file w).2).
Proof.
  revert w. change (preserves keeps_tree (undo_rename directory log_file)).
  unfold undo_rename, py_get, py_first, py_iter, py_path.
  repeat first [apply restore_loop_tree | keeps_tree_step].
Qed.

(* ===================================================================== *)
(** * The names a run gives its backup directory and its log *)
(* ===================================================================== *)

Lemma every_contains p c s :
  every p s = true → p c = false → Py.contains_char c s = false.
Proof.
  intros Hs Hc. induction s as [|a s IH]; [done|]. simpl in *.
  apply andb_true_iff in Hs as [Ha Hs]. rewrite IH by done.
  rewrite bool_decide_eq_false_2; [done|]. intros ->. congruence.
Qed.

Lemma uint_numeral u : every numeral (NilEmpty.string_of_uint u) = true.
Proof. induction u as [|u IH|u IH|u IH|u IH|u IH|u IH|u IH|u IH|u IH|u IH]; simpl; done. Qed.

Lemma uint_numeral_zero u : every numeral (NilZero.string_of_uint u) = true.
Proof. destruct u; simpl; try done; apply uint_numeral. Qed.

Lemma str_numeral n : every numeral (Py.str n) = true.
Proof.
  unfold Py.str, NilZero.string_of_int.
  destruct (Z.to_int n) as [u|u]; [|cbn [every]]; apply uint_numeral_zero.
Qed.

Lemma str_without c n : numeral c = false → Py.contains_char c (Py.str n) = false.
Proof. intros Hc. apply (every_contains numeral); [apply str_numeral | done]. Qed.

Lemma component_by_first c rest :
  c ≠ "."%char → plain (String c rest) = true → component (String c rest).
Proof.
  intros Hc Hp. split; [done|]. split; [done|]. split; intros [= -> _]; done.
Qed.

Lemma backup_name t :
  component ("backup_" +:+ Py.str t)
  ∧ has_magic ("backup_" +:+ Py.str t) = false
  ∧ Py.startswith "." ("backup_" +:+ Py.str t) = false
  ∧ fnmatch "backup_*" ("backup_" +:+ Py.str t) = true
  ∧ fnmatch "rename_log_*.json" ("backup_" +:+ Py.str t) = false.
Proof.
  assert (plain ("backup_" +:+ Py.str t) = true) as Hp.
  { unfold plain. by rewrite contains_char_app, str_without. }
  split.
  { change ("backup_" +:+ Py.str t) with (String "b" ("ackup_" +:+ Py.str t)) in *.
    by apply component_by_first. }
  split.
  { unfold has_magic. by rewrite !contains_char_app, !str_without. }
  split; [done|]. split; [|done].
  change (fnmatch "backup_*" ("backup_" +:+ Py.str t)) with (fnmatch "*" (Py.str t)).
  rewrite <- (string_app_empty_r (Py.str t)). by apply fnmatch_star_suffix.
Qed.

Lemma log_name t :
  component ("rename_log_" +:+ Py.str t +:+ ".json")
  ∧ has_magic ("rename_log_" +:+ Py.str t +:+ ".json") = false
  ∧ Py.startswith "." ("rename_log_" +:+ Py.str t +:+ ".json") = false
  ∧ fnmatch "rename_log_*.json" ("rename_log_" +:+ Py.str t +:+ ".json") = true
  ∧ fnmatch "backup_*" ("rename_log_" +:+ Py.str t +:+ ".json") = false.
Proof.
  assert (plain ("rename_log_" +:+ Py.str t +:+ ".json") = true) as Hp.
  { unfold plain. by rewrite !contains_char_app, str_without. }
  split.
  { change ("rename_log_" +:+ Py.str t +:+ ".json")
      with (String "r" ("ename_log_" +:+ Py.str t +:+ ".json")) in *.
    by apply component_by_first. }
  split.
  { unfold has_magic. by rewrite !contains_char_app, !str_without. }
  split; [done|]. split; [|done].
  change (fnmatch "rename_log_*.json" ("rename_log_" +:+ Py.str t +:+ ".json"))
    with (fnmatch "*.json" (Py.str t +:+ ".json")).
  by apply fnmatch_star_suffix.
Qed.

Lemma plain_snoc n :
  plain n = true → n ≠ "" → ∃ x c, n = x +:+ String c "" ∧ c ≠ "/"%char.
Proof.
  intros Hp Hne. destruct (string_snoc n Hne) as (x & c & ->).
  exists x, c. split; [done|]. intros ->.
  unfold plain in Hp. rewrite contains_char_app in Hp. simpl in Hp.
  by rewrite orb_true_r in Hp.
Qed.

(** A subdirectory of a clean directory is a clean directory. *)
Lemma clean_join d n :
  clean d → component n → has_magic n = false → clean (OsPath.join d n).
Proof.
  intros Hd (Hp & Hne & _) Hm. rewrite (join_clean d n Hd Hp).
  destruct (plain_snoc n Hp Hne) as (x & c & -> & Hc).
  destruct Hd as (Hdne & _ & Hdm). split; [by destruct d|]. split.
  - assert (d +:+ String "/" (x +:+ String c "") = (d +:+ String "/" x) +:+ String c "")
      as -> by (by rewrite !string_app_assoc).
    rewrite endswith_snoc. by apply bool_decide_eq_false.
  - unfold has_magic in *. rewrite !contains_char_app. cbn [Py.contains_char].
    apply orb_false_iff in Hdm as [[Hd1 Hd2]%orb_false_iff Hd3].
    apply orb_false_iff in Hm as [[Hm1 Hm2]%orb_false_iff Hm3].
    by rewrite Hd1, Hd2, Hd3, Hm1, Hm2, Hm3.
Qed.

(* ===================================================================== *)
(** * The directory after a run *)
(* ===================================================================== *)

Section CompletedTree.
Context {libs : Libs}.

Lemma loop_run_tree config bd files counter w recs w' :
  loop_run config bd files counter w recs w' → is_tree (fs w) → is_tree (fs w').
Proof.
  induction 1 as [|f files c w r w1 recs w' Hone _ IH]; [done|]. intros Ht.
  apply IH. pose proof (rename_one_tree config bd f c w Ht) as Ht1.
  by rewrite Hone in Ht1.
Qed.

Lemma completed_run_tree config w res w' :
  rename_files config w = (Ok res, w') → is_tree (fs w) → is_tree (fs w').
Proof.
  intros (files & bd & lf & w1 & w2 & Hprep & Hloop & Hfin)%rename_files_Ok Ht.
  apply prepare_Ok in Hprep as (_ & _ & _ & Hfs1 & _).
  assert (is_tree (fs w2)) as Ht2.
  { eapply loop_run_tree; [exact Hloop|]. by rewrite Hfs1. }
  assert (preserves keeps_tree (finish config bd lf (Result.records res))) as Hfinish.
  { unfold finish, _write_log. keeps_tree. }
  specialize (Hfinish w2 Ht2). by rewrite Hfin in Hfinish.
Qed.

Lemma loop_run_skipped config bd files counter w1 recs w2 :
  Config.dry_run config = false →
  loop_run config bd files counter w1 recs w2 →
  Forall (fun r => renamed r = false) recs → same_disk w1 w2.
Proof.
  intros Hwet Hrun.
  induction Hrun as [c w1|f files c w1 r w1' recs w2 Hone Hrun IH]; intros Hall.
  - by split.
  - apply Forall_cons in Hall as [Hr Hall].
    apply rename_one_Ok in Hone as (wn & Hname & _ & _ & _ & Hkind).
    pose proof (_build_new_name_same (OsPath.basename f) config c w1) as Hsame.
    rewrite Hname in Hsame. simpl in Hsame.
    assert (w1' = wn) as ->.
    { destruct Hkind as [Hdry _ _ _ | _ _ _ _ -> | ? ? ? _ _ _ _ _ _ Hs _ _];
        [congruence|done|].
      unfold renamed in Hr. by rewrite Hs in Hr. }
    destruct Hsame as (?&?&?&?), (IH Hall) as (?&?&?&?). repeat split; congruence.
Qed.

(** A run that renames nothing makes no directory. *)
Lemma run_without_renames_dirs config w res w' :
  rename_files config w = (Ok res, w') →
  Config.dry_run config = false →
  Forall (fun r => renamed r = false) (Result.records res) →
  ∀ k, dir_at (fs w') k = dir_at (fs w) k.
Proof.
  intros (files & bd & lf & w1 & w2 & Hprep & Hloop & Hfin)%rename_files_Ok Hwet Hall k.
  apply prepare_Ok in Hprep as (_ & _ & _ & Hfs1 & _).
  apply (loop_run_skipped _ _ _ _ _ _ _ Hwet Hloop) in Hall as (Hfs2 & _).
  destruct (finish_on_disk _ _ _ _ _ _ _ Hwet Hfin) as (_ & Hd' & _).
  by rewrite Hd', Hfs2, Hfs1.
Qed.

(** The records of a completed run are about entries of the directory. *)
Lemma run_records_in_directory config w res w' :
  rename_files config w = (Ok res, w') →
  (∃ m, lookup_path w (Config.directory config) = Ok (Dir m))
  ∧ ∀ r, r ∈ Result.records res →
      original_name r = OsPath.basename (original_path r)
      ∧ new_path r = OsPath.join (Config.directory config) (new_name r)
      ∧ ∃ name, name ∈ listing w (Config.directory config)
                ∧ original_path r = OsPath.join (Config.directory config) name.
Proof.
  intros (files & bd & lf & w1 & w2 & Hprep & Hloop & Hfin)%rename_files_Ok.
  apply prepare_Ok in Hprep as (_ & Hcol & _).
  apply _collect_files_inv in Hcol as (_ & [m Hdir] & Hfiles).
  split; [eauto|]. intros r Hr.
  assert (Forall (fun r => original_name r = OsPath.basename (original_path r)
                           ∧ new_path r
                             = OsPath.join (Config.directory config) (new_name r))
            (Result.records res)) as Hall.
  { eapply loop_run_Forall; [|exact Hloop]. intros f c wa r' wb Hone.
    apply rename_one_Ok in Hone as (wn & _ & Hn & Hp & Hnp & _). by rewrite Hn, Hp. }
  rewrite Forall_forall in Hall. destruct (Hall r Hr) as [Hn Hnp].
  split; [done|]. split; [done|].
  assert (original_path r ∈ files) as Hin.
  { rewrite <- (loop_run_paths _ _ _ _ _ _ _ Hloop). apply list_elem_of_fmap. eauto. }
  rewrite Hfiles, (proj2 (sorted_spec _)) in Hin.
  apply list_elem_of_fmap in Hin as (e & He & Hin).
  apply list_elem_of_In, filter_In in Hin as [Hin _]. apply list_elem_of_In in Hin.
  apply list_elem_of_fmap in Hin as ([name n] & -> & Hin).
  exists name. split; [|done].
  rewrite (listing_children _ _ _ Hdir). apply list_elem_of_fmap. by exists (name, n).
Qed.

End CompletedTree.

Section AfterARun.
Context (w w' : world) (d bname lname : string) (recs : list RenameRecord).
Context (Hd : clean d) (Hb : component bname) (Hl : component lname).
Context (Hbm : has_magic bname = false).
Context (Hleft : left_by_run w (OsPath.join d bname) (OsPath.join d lname) recs w').
Context (Hshape : ∀ r, r ∈ recs → renamed r = true →
           component (original_name r) ∧ component (new_name r)
           ∧ original_path r = OsPath.join d (original_name r)
           ∧ new_path r = OsPath.join d (new_name r)).

Lemma keys_of_record r :
  r ∈ recs → renamed r = true →
  orig_key w r = resolve w d ++ [original_name r]
  ∧ new_key w r = resolve w d ++ [new_name r]
  ∧ backup_key w (OsPath.join d bname) r = resolve w d ++ [bname; original_name r].
Proof.
  intros Hr Hren. destruct (Hshape r Hr Hren) as (Ho & Hn & Hop & Hnp).
  unfold orig_key, new_key, backup_key. rewrite Hop, Hnp.
  rewrite !resolve_join by (done || by apply clean_join).
  by rewrite <- app_assoc.
Qed.

(** What there is in the directory after the run: the log, the backup
    directory, the new names, and what was there before. *)
Lemma entry_after_run name :
  is_Some (fs w' !! (resolve w d ++ [name])) →
  name = lname ∨ name = bname
  ∨ (∃ r, r ∈ recs ∧ renamed r = true ∧ name = new_name r)
  ∨ is_Some (fs w !! (resolve w d ++ [name])).
Proof.
  intros [n Hn]. destruct Hleft as (Hcwd & _ & Hthere & Hframe & Hlog & Hdirs & Hnew).
  destruct n as [c m|m].
  - destruct (decide (resolve w d ++ [name]
                      ∈ resolve w (OsPath.join d lname)
                        :: (recs ≫= locations w (OsPath.join d bname)))) as [Hin|Hout].
    + apply elem_of_cons in Hin as [Heq|Hin].
      * left. rewrite resolve_join in Heq by done.
        apply app_inv_head in Heq. by injection Heq.
      * apply list_elem_of_bind in Hin as (r & Hk & Hr).
        destruct (renamed r) eqn:Hren;
          [|unfold locations in Hk; rewrite Hren in Hk; inversion Hk].
        destruct (keys_of_record r Hr Hren) as (Ho & Hnw & Hbk).
        rewrite (locations_renamed _ _ _ Hren) in Hk.
        apply elem_of_cons in Hk as [Hk|Hk];
          [|apply elem_of_cons in Hk as [Hk|Hk];
            [|apply list_elem_of_singleton in Hk]].
        -- exfalso. destruct (Hthere r Hr Hren) as (_ & Hnone & _).
           rewrite <- Hk in Hnone. unfold file_at in Hnone. by rewrite Hn in Hnone.
        -- right; right; left. exists r. rewrite Hnw in Hk.
           apply app_inv_head in Hk. by injection Hk.
        -- exfalso. rewrite Hbk in Hk. apply app_inv_head in Hk. discriminate.
    + right; right; right. specialize (Hframe _ Hout).
      unfold file_at in Hframe. rewrite Hn in Hframe.
      by destruct (fs w !! (resolve w d ++ [name])) as [[]|].
  - assert (dir_at (fs w') (resolve w d ++ [name]) = true) as Hdir
      by (unfold dir_at; by rewrite Hn).
    apply Hnew in Hdir as [Hdir|Hdir].
    + right; right; right. apply dir_at_lookup in Hdir as [m' ->]. eauto.
    + right; left. rewrite resolve_join in Hdir by done.
      apply prefix_app_inv in Hdir as [k Hk]. by injection Hk.
Qed.

End AfterARun.

(* ===================================================================== *)
(** * What undo finds after a first run *)
(* ===================================================================== *)

Lemma wants_dir_join d n : clean d → component n → wants_dir (OsPath.join d n) = false.
Proof.
  intros Hd (Hp & H1 & H2 & _). rewrite (join_clean d n Hd Hp).
  unfold wants_dir. rewrite split_slash_app, (split_slash_plain n Hp), last_last.
  by rewrite !bool_decide_eq_false_2.
Qed.

Lemma mtime_at_entry w p :
  p ≠ "" → wants_dir p = false → is_Some (fs w !! resolve w p) → is_Some (mtime_at w p).
Proof.
  intros Hp Hw [n Hn]. unfold mtime_at, lookup_path.
  rewrite bool_decide_eq_false_2, Hn, Hw by done. by destruct n.
Qed.

Lemma sort_by_mtime_desc_singleton p w :
  is_Some (mtime_at w p) → sort_by_mtime_desc [p] w = (Ok [p], w).
Proof.
  intros [t Ht]. unfold mtime_at in Ht.
  unfold sort_by_mtime_desc, mapM, bind, os_path_getmtime, ret.
  by destruct (lookup_path w p) as [[c m|m]|e].
Qed.

Section Discovery.
Context {libs : Libs}.

Lemma default_names config w res w' :
  rename_files config w = (Ok res, w') →
  Config.dry_run config = false →
  truthy (Config.backup_dir config) = false →
  truthy (Config.log_file config) = false →
  ∃ tb tl,
    Result.backup_dir res
    = Some (OsPath.join (Config.directory config) ("backup_" +:+ Py.str tb))
    ∧ Result.log_file res
      = Some (OsPath.join (Config.directory config)
                ("rename_log_" +:+ Py.str tl +:+ ".json")).
Proof.
  intros Hrun Hwet Hbd Hlf.
  apply rename_files_Ok in Hrun as (files & bd & lf & w1 & w2 & Hprep & _ & Hfin).
  apply finish_Ok in Hfin as (_ & _ & _ & Hrbd & Hrlf). rewrite Hwet in Hrbd, Hrlf.
  pose proof (prepare_Ok _ _ _ _ _ _ Hprep) as (Hval & Hcol & Hne & _).
  unfold prepare in Hprep.
  rewrite (bind_Ok_eq _ _ _ _ _ Hval), (bind_Ok_eq _ _ _ _ _ Hcol) in Hprep.
  destruct files as [|f files]; [done|].
  rewrite Hbd, Hlf in Hprep. cbv [bind time_time ret] in Hprep.
  injection Hprep as <- <- _. eauto.
Qed.

(** X22.  Undo finds the run.  Take a completed run that is not a dry run,
    with the default names for the backup directory and the log, in a
    directory given by a clean path (not empty, no trailing slash, none
    of the characters [glob] gives a meaning to), on a file system that
    is a tree.  Suppose the names in the directory are plain components,
    none of them matches [backup_*] or [rename_log_*.json] (a first run),
    the new names are plain components that match neither pattern, and
    the records are separate on disk.  Then, after the run,
    [find_latest_log] on the directory returns the log of this run; and
    the search beside the first record's original path returns the backup
    directory of this run if a file was renamed, and nothing if none was:
    the backup directory the result names is then never made. *)
Theorem undo_finds_the_run
    (config : Config.t) (w : world) (res : Result.t) (w' : world) (bd lf : string) :
  rename_files config w = (Ok res, w') →
  Config.dry_run config = false →
  truthy (Config.backup_dir config) = false →
  truthy (Config.log_file config) = false →
  Result.backup_dir res = Some bd →
  Result.log_file res = Some lf →
  clean (Config.directory config) →
  is_tree (fs w) →
  Forall component (listing w (Config.directory config)) →
  first_run w (Config.directory config) →
  separate w bd lf (Result.records res) →
  Forall (fun r => renamed r = true → fresh_name (new_name r)) (Result.records res) →
  find_latest_log (Config.directory config) w' = (Ok (Some lf), w')
  ∧ ∀ r0, head (Result.records res) = Some r0 →
          find_backup_dir (original_path r0) w'
          = (Ok (if existsb renamed (Result.records res) then Some bd else None), w').
Proof.
  intros Hrun Hwet Hnobd Hnolf Hbd Hlf Hclean Htree Hnames [Hfirst_b Hfirst_l]
    Hsep Hfresh.
  destruct (run_leaves_restorable _ _ _ _ _ _ Hrun Hwet Hbd Hlf Htree Hsep)
    as (Hleft & _).
  pose proof (completed_run_tree _ _ _ _ Hrun Htree) as Htree'.
  pose proof (run_without_renames_dirs _ _ _ _ Hrun Hwet) as Hnodirs.
  destruct (run_records_in_directory _ _ _ _ Hrun) as ([m Hdir] & Hrecs).
  destruct (default_names _ _ _ _ Hrun Hwet Hnobd Hnolf) as (tb & tl & Hbd' & Hlf').
  assert (bd = OsPath.join (Config.directory config) ("backup_" +:+ Py.str tb))
    as -> by congruence.
  assert (lf = OsPath.join (Config.directory config)
                 ("rename_log_" +:+ Py.str tl +:+ ".json")) as -> by congruence.
  clear Hbd' Hlf'.
  destruct (backup_name tb) as (Hbc & Hbm & Hbdot & Hbb & Hbl).
  destruct (log_name tl) as (Hlc & Hlm & Hldot & Hll & Hlb).
  remember (Config.directory config) as d eqn:Hd_def.
  remember ("backup_" +:+ Py.str tb) as bname eqn:Hbname.
  remember ("rename_log_" +:+ Py.str tl +:+ ".json") as lname eqn:Hlname.
  remember (Result.records res) as recs eqn:Hrecs_def.
  rewrite Forall_forall in Hnames. rewrite Forall_forall in Hfresh.
  (* the records are about names in the directory *)
  assert (∀ r, r ∈ recs → renamed r = true →
            component (original_name r) ∧ component (new_name r)
            ∧ original_path r = OsPath.join d (original_name r)
            ∧ new_path r = OsPath.join d (new_name r)) as Hshape.
  { intros r Hr Hren. destruct (Hrecs r Hr) as (Hn & Hnp & name & Hname & Hop).
    pose proof (Hnames name Hname) as Hc.
    assert (original_name r = name) as Hon.
    { rewrite Hn, Hop. apply basename_join, Hc. }
    destruct (Hfresh r Hr Hren) as (Hnc & _). rewrite Hon. done. }
  (* the directory after the run *)
  pose proof Hleft as (Hcwd & _ & Hthere & Hframe & Hlogfile & Hdirs & _).
  assert (∃ m', lookup_path w' d = Ok (Dir m')) as [m' Hdir'].
  { pose proof (lookup_path_dir _ _ _ Hdir) as Hdd. apply Hdirs in Hdd.
    apply dir_at_lookup in Hdd as [m' Hm']. exists m'. unfold lookup_path.
    rewrite bool_decide_eq_false_2 by apply Hclean.
    by rewrite (resolve_cwd w' w d Hcwd), Hm'. }
  assert (∀ name, name ∈ listing w' d ↔ is_Some (fs w' !! (resolve w d ++ [name])))
    as Hlist'.
  { intros name. rewrite (listing_children _ _ _ Hdir'), (resolve_cwd w' w d Hcwd).
    apply elem_of_children_names. }
  assert (∀ name, name ∈ listing w d ↔ is_Some (fs w !! (resolve w d ++ [name])))
    as Hlist.
  { intros name. rewrite (listing_children _ _ _ Hdir). apply elem_of_children_names. }
  assert (NoDup (listing w' d)) as Hnd'.
  { rewrite (listing_children _ _ _ Hdir'). apply NoDup_children_names. }
  assert (∀ pat name, name ∈ selected pat (listing w d) → selected pat (listing w d) = [] →
            False) as Hnone.
  { intros pat name Hsel Hnil. rewrite Hnil in Hsel. inversion Hsel. }
  pose proof (entry_after_run w w' d bname lname recs Hclean Hbc Hlc Hbm Hleft Hshape)
    as Hentries.
  split.
  - (* the log *)
    assert (is_Some (fs w' !! (resolve w d ++ [lname]))) as Hlog_there.
    { rewrite resolve_join in Hlogfile by done. destruct Hlogfile as [x Hx].
      unfold file_at in Hx. by destruct (fs w' !! (resolve w d ++ [lname])). }
    assert (selected "rename_log_*.json" (listing w' d) = [lname]) as Hsel.
    { apply NoDup_singleton_by_elements; [by apply NoDup_selected|].
      intros name. rewrite elem_of_selected, Hlist'. split; [|by intros ->].
      intros (Hin & Hdot & Hmatch).
      destruct (Hentries name Hin) as [->|[->|[(r & Hr & Hren & ->)|Hold]]].
      - done.
      - congruence.
      - destruct (Hfresh r Hr Hren) as (_ & _ & Hno). congruence.
      - destruct (Hnone "rename_log_*.json" name); [|done].
        apply elem_of_selected. by rewrite Hlist. }
    unfold find_latest_log.
    rewrite (bind_Ok_eq _ _ _ _ _
               (glob_in_clean_directory d "rename_log_*.json" w' Hclean
                  eq_refl eq_refl eq_refl eq_refl)).
    rewrite Hsel. cbn [map].
    assert (is_Some (mtime_at w' (OsPath.join d lname))) as Hmtime.
    { apply mtime_at_entry; [by apply join_nonempty, Hclean | by apply wants_dir_join |].
      by rewrite (resolve_cwd w' w _ Hcwd), resolve_join. }
    by rewrite (bind_Ok_eq _ _ _ _ _
                  (sort_by_mtime_desc_singleton (OsPath.join d lname) w' Hmtime)).
  - (* the backup directory *)
    intros r0 Hr0.
    assert (r0 ∈ recs) as Hin0 by (destruct recs; simplify_eq/=; apply list_elem_of_here).
    destruct (Hrecs r0 Hin0) as (_ & _ & name0 & Hname0 & ->).
    unfold find_backup_dir, OsPath.dirname.
    rewrite (split_join_clean d name0 Hclean) by apply (Hnames name0 Hname0).
    cbn [fst].
    rewrite (bind_Ok_eq _ _ _ _ _
               (glob_in_clean_directory d "backup_*" w' Hclean
                  eq_refl eq_refl eq_refl eq_refl)).
    destruct (existsb renamed recs) eqn:Hex.
    + (* a file was renamed: its backup copy is in the directory *)
      apply existsb_exists in Hex as (r & Hr%list_elem_of_In & Hren).
      assert (dir_at (fs w') (resolve w d ++ [bname]) = true) as Hbak_dir.
      { destruct (Hthere r Hr Hren) as ([x Hx] & _ & _ & Hb).
        destruct (keys_of_record w d bname recs Hclean Hbc Hbm Hshape r Hr Hren)
          as (_ & _ & Hbk).
        rewrite Hbk, Hx in Hb. unfold file_at in Hb.
        destruct (fs w' !! (resolve w d ++ [bname; original_name r])) as [n|] eqn:Hn;
          [|done].
        apply Htree' in Hn.
        change (resolve w d ++ [bname; original_name r])
          with (resolve w d ++ [bname] ++ [original_name r]) in Hn.
        by rewrite app_assoc, removelast_last in Hn. }
      destruct (dir_at_lookup _ _ Hbak_dir) as [mb Hmb].
      assert (selected "backup_*" (listing w' d) = [bname]) as Hsel.
      { apply NoDup_singleton_by_elements; [by apply NoDup_selected|].
        intros name. rewrite elem_of_selected, Hlist'. split.
        - intros (Hin & Hdot & Hmatch).
          destruct (Hentries name Hin) as [->|[->|[(r' & Hr' & Hren' & ->)|Hold]]].
          + congruence.
          + done.
          + destruct (Hfresh r' Hr' Hren') as (_ & Hno & _). congruence.
          + destruct (Hnone "backup_*" name); [|done].
            apply elem_of_selected. by rewrite Hlist.
        - intros ->. rewrite Hmb. eauto. }
      rewrite Hsel. cbn [map].
      assert (is_Some (mtime_at w' (OsPath.join d bname))) as Hmtime.
      { unfold mtime_at, lookup_path.
        rewrite bool_decide_eq_false_2 by (by apply join_nonempty, Hclean).
        rewrite (resolve_cwd w' w _ Hcwd), resolve_join, Hmb by done. eauto. }
      by rewrite (bind_Ok_eq _ _ _ _ _
                    (sort_by_mtime_desc_singleton (OsPath.join d bname) w' Hmtime)).
    + (* nothing was renamed: the directory holds what it held, and the log *)
      assert (Forall (fun r => renamed r = false) recs) as Hall.
      { apply Forall_forall. intros r Hr. destruct (renamed r) eqn:Hren; [|done].
        assert (existsb renamed recs = true) as Hyes; [|congruence].
        apply existsb_exists. exists r. split; [by apply list_elem_of_In | done]. }
      specialize (Hnodirs Hall). rewrite Forall_forall in Hall.
      assert (selected "backup_*" (listing w' d) = []) as Hsel.
      { destruct (selected "backup_*" (listing w' d)) as [|name l] eqn:Hsel; [done|].
        exfalso.
        assert (name ∈ selected "backup_*" (listing w' d)) as Hin
          by (rewrite Hsel; apply list_elem_of_here).
        apply elem_of_selected in Hin as (Hin & Hdot & Hmatch).
        apply Hlist' in Hin.
        destruct (Hentries name Hin) as [->|[->|[(r' & Hr' & Hren' & ->)|Hold]]].
        - congruence.
        - apply (Hnone "backup_*" bname); [|done].
          apply elem_of_selected. split; [|done]. apply Hlist.
          destruct Hin as [[c mf|md] Hn].
          + assert (file_at (fs w') (resolve w d ++ [bname]) = Some (c, mf)) as Hfile
              by (unfold file_at; by rewrite Hn).
            rewrite Hframe in Hfile.
            * unfold file_at in Hfile.
              by destruct (fs w !! (resolve w d ++ [bname])) as [[]|].
            * rewrite resolve_join by done. intros [Heq|Hloc]%elem_of_cons.
              -- apply app_inv_head in Heq. injection Heq as Heq. congruence.
              -- apply list_elem_of_bind in Hloc as (r & Hk & Hr).
                 unfold locations in Hk. rewrite (Hall r Hr) in Hk. inversion Hk.
          + assert (dir_at (fs w') (resolve w d ++ [bname]) = true) as Hd
              by (unfold dir_at; by rewrite Hn).
            rewrite Hnodirs in Hd. apply dir_at_lookup in Hd as [mb ->]. eauto.
        - rewrite (Hall r' Hr') in Hren'. discriminate.
        - apply (Hnone "backup_*" name); [|done].
          apply elem_of_selected. by rewrite Hlist. }
      by rewrite Hsel.
Qed.

End Discovery.


Lemma run_keeps_the_tree_witness :
  is_tree (fs inbox_world)
  ∧ is_tree (fs (rename_files (libs := example_libs) inbox_config inbox_world).2).
Proof.
  assert (is_tree (fs inbox_world)) as Htree.
  { apply is_tree_by_entries. apply (bool_decide_unpack _). vm_compute. exact I. }
  split; [exact Htree|].
  exact (run_keeps_the_tree (libs := example_libs) inbox_config inbox_world Htree).
Defined.

Lemma undo_keeps_the_tree_witness :
  is_tree (fs photos_after)
  ∧ is_tree (fs (undo_rename "/photos" None photos_after).2).
Proof.
  assert (is_tree (fs photos_after)) as Htree.
  { apply is_tree_by_entries. apply (bool_decide_unpack _). vm_compute. exact I. }
  split; [exact Htree|].
  exact (undo_keeps_the_tree "/photos" None photos_after Htree).
Defined.

Lemma undo_finds_the_run_witness :
  rename_files (libs := example_libs) photos_config photos_world
  = (Ok photos_result, photos_after)
  ∧ clean "/photos"
  ∧ is_tree (fs photos_world)
  ∧ Forall component (listing photos_world "/photos")
  ∧ first_run photos_world "/photos"
  ∧ separate photos_world "/photos/backup_1700000000"
      "/photos/rename_log_1700000001.json" (Result.records photos_result)
  ∧ Forall (fun r => renamed r = true → fresh_name (new_name r))
      (Result.records photos_result)
  ∧ find_latest_log "/photos" photos_after
    = (Ok (Some "/photos/rename_log_1700000001.json"), photos_after)
  ∧ ∀ r0, head (Result.records photos_result) = Some r0 →
          find_backup_dir (original_path r0) photos_after
          = (Ok (Some "/photos/backup_1700000000"), photos_after).
Proof.
  assert (clean "/photos") as Hclean by done.
  assert (is_tree (fs photos_world)) as Htree.
  { apply is_tree_by_entries. apply (bool_decide_unpack _). vm_compute. exact I. }
  assert (Forall component (listing photos_world "/photos")) as Hnames.
  { assert (listing photos_world "/photos" = ["notes.txt"; "IMG_001.jpg"]) as ->
      by (vm_compute; reflexivity).
    repeat constructor; done. }
  assert (first_run photos_world "/photos") as Hfirst.
  { split; vm_compute; reflexivity. }
  assert (separate photos_world "/photos/backup_1700000000"
            "/photos/rename_log_1700000001.json" (Result.records photos_result))
    as Hsep.
  { unfold separate. split; [|split]; apply (bool_decide_unpack _); vm_compute; exact I. }
  assert (Forall (fun r => renamed r = true → fresh_name (new_name r))
            (Result.records photos_result)) as Hfresh.
  { repeat constructor; done. }
  assert ((rename_files (libs := example_libs) photos_config photos_world).1
          = Ok photos_result) as Hrun by (vm_compute; reflexivity).
  apply run_by_outcome in Hrun. fold photos_after in Hrun.
  split; [exact Hrun|]. split; [exact Hclean|]. split; [exact Htree|].
  split; [exact Hnames|]. split; [exact Hfirst|]. split; [exact Hsep|].
  split; [exact Hfresh|].
  exact (undo_finds_the_run (libs := example_libs) photos_config photos_world
           photos_result photos_after "/photos/backup_1700000000"
           "/photos/rename_log_1700000001.json"
           Hrun eq_refl eq_refl eq_refl eq_refl eq_refl
           Hclean Htree Hnames Hfirst Hsep Hfresh).
Defined.

(* ===================================================================== *)
(** * Undo with nothing to restore *)
(* ===================================================================== *)

Lemma restore_one_nothing bd r w :
  nothing_to_restore w r →
  ∃ detail, restore_one bd (record_to_json r) w = (Ok (false, detail), w)
            ∧ Detail.status detail ≠ RestoredSuccessfully.
Proof.
  intros Hgone.
  destruct (record_fields r) as (fields & -> & Hon & Hnn & Hop & Hnp & Hsk).
  unfold restore_one.
  rewrite (bind_Ok_eq _ _ _ _ _ (py_get_field _ _ _ _ w Hon)).
  rewrite (bind_Ok_eq _ _ _ _ _ (py_get_field _ _ _ _ w Hnn)).
  rewrite (bind_Ok_eq _ _ _ _ _ (py_get_field _ _ _ _ w Hop)).
  rewrite (bind_Ok_eq _ _ _ _ _ (py_get_field _ _ _ _ w Hnp)).
  assert (py_get (JObj fields) "skipped" JNull w
          = (Ok (default JNull (JStr <$> skipped r)), w)) as Hskip.
  { unfold py_get, ret. by rewrite Hsk. }
  rewrite (bind_Ok_eq _ _ _ _ _ Hskip).
  destruct (py_truthy (default JNull (JStr <$> skipped r))) eqn:Hmark.
  { eexists. split; [reflexivity|done]. }
  destruct Hgone as [(s & Hs & Hne)|Hgone].
  { rewrite Hs in Hmark. simpl in Hmark. by rewrite bool_decide_eq_false_2 in Hmark. }
  assert (py_path (JStr (original_name r)) w = (Ok (original_name r), w)) as Hname
    by reflexivity.
  rewrite (bind_Ok_eq _ _ _ _ _ Hname).
  rewrite (bind_Ok_eq _ _ _ _ _ (os_path_exists_pure _ w)).
  destruct (negb _).
  { eexists. split; [reflexivity|done]. }
  assert (py_path (JStr (new_path r)) w = (Ok (new_path r), w)) as Hcur by reflexivity.
  rewrite (bind_Ok_eq _ _ _ _ _ Hcur), (bind_Ok_eq _ _ _ _ _ Hgone).
  eexists. split; [reflexivity|done].
Qed.

Lemma restore_loop_nothing bd recs w restored skipped details :
  Forall (nothing_to_restore w) recs →
  ∃ details',
    restore_loop bd (map record_to_json recs) restored skipped details w
    = (Ok (restored, skipped + Z.of_nat (length recs), details ++ details'), w)
    ∧ Forall (fun d => Detail.status d ≠ RestoredSuccessfully) details'.
Proof.
  intros Hall. revert skipped details.
  induction Hall as [|r recs Hr _ IH]; intros skipped details.
  - exists []. simpl. by rewrite Z.add_0_r, app_nil_r.
  - destruct (restore_one_nothing bd r w Hr) as (detail & Hone & Hst).
    destruct (IH (skipped + 1) (details ++ [detail])) as (ds & Hloop & Hds).
    exists (detail :: ds). cbn [map restore_loop].
    rewrite (bind_Ok_eq _ _ _ _ _ Hone), Hloop. split; [|by constructor].
    rewrite <- app_assoc.
    replace (skipped + Z.of_nat (length (r :: recs)))
      with (skipped + 1 + Z.of_nat (length recs)); [done|].
    simpl length. lia.
Qed.

(** X23.  Nothing to restore.  Let the log [undo_rename] works from hold
    records of which each is marked skipped or has no file at its new
    path.  Then undo changes nothing at all, whatever its outcome; and if
    it returns, it reports failure: no file restored, an error message,
    and no detail with the status "Restored successfully".  So a second
    undo after an undo that restored every record does nothing. *)
Theorem undo_with_nothing_to_restore
    (directory : string) (log_file : option string) (w : world)
    (lf stamp : string) (recs : list RenameRecord) :
  chosen_log directory log_file w lf →
  load_rename_log lf w
  = (Ok (JObj [("renamed_files", JList (map record_to_json recs));
               ("generated_at", JStr stamp)]), w) →
  Forall (nothing_to_restore w) recs →
  (undo_rename directory log_file w).2 = w
  ∧ ∀ ures, (undo_rename directory log_file w).1 = Ok ures →
      UndoResult.success ures = false
      ∧ UndoResult.restored_count ures = 0
      ∧ UndoResult.error_message ures ≠ None
      ∧ Forall (fun d => Detail.status d ≠ RestoredSuccessfully)
          (UndoResult.details ures).
Proof.
  intros Hchosen Hload Hgone.
  rewrite (undo_rename_chosen _ _ _ _ Hchosen), (bind_Ok_eq _ _ _ _ _ Hload).
  assert (py_get (JObj [("renamed_files", JList (map record_to_json recs));
                        ("generated_at", JStr stamp)]) "renamed_files" (JList []) w
          = (Ok (JList (map record_to_json recs)), w)) as Hget
    by reflexivity.
  rewrite (bind_Ok_eq _ _ _ _ _ Hget).
  destruct recs as [|r0 recs'].
  { split; [done|]. by intros ures [= <-]. }
  change (negb (py_truthy (JList (map record_to_json (r0 :: recs'))))) with false.
  cbv iota.
  assert (py_first (JList (map record_to_json (r0 :: recs'))) w
          = (Ok (record_to_json r0), w)) as Hfirst by reflexivity.
  rewrite (bind_Ok_eq _ _ _ _ _ Hfirst).
  destruct (record_fields r0) as (fields0 & Hjson0 & _ & _ & Hop0 & _).
  assert (py_get (record_to_json r0) "original_path" (JStr "") w
          = (Ok (JStr (original_path r0)), w)) as Hpath.
  { rewrite Hjson0. unfold py_get, ret. by rewrite Hop0. }
  rewrite (bind_Ok_eq _ _ _ _ _ Hpath).
  destruct (decide (original_path r0 = "")) as [Hemp|Hop].
  { rewrite Hemp. split; [done|]. by intros ures [= <-]. }
  assert (negb (py_truthy (JStr (original_path r0))) = false) as ->.
  { simpl. by rewrite bool_decide_eq_false_2. }
  assert (py_path (JStr (original_path r0)) w = (Ok (original_path r0), w)) as Hstr
    by reflexivity.
  rewrite (bind_Ok_eq _ _ _ _ _ Hstr).
  pose proof (find_backup_dir_unchanged (original_path r0) w) as Hsame.
  destruct (find_backup_dir (original_path r0) w) as [[[bd|]|e] w1] eqn:Hfind;
    unfold unchanged in Hsame; simpl in Hsame; subst w1.
  - rewrite (bind_Ok_eq _ _ _ _ _ Hfind).
    rewrite (bind_Ok_eq _ _ _ _ _ (os_path_exists_pure bd w)).
    destruct (negb _).
    { split; [done|]. by intros ures [= <-]. }
    assert (py_iter (JList (map record_to_json (r0 :: recs'))) w
            = (Ok (map record_to_json (r0 :: recs')), w)) as Hiter by reflexivity.
    rewrite (bind_Ok_eq _ _ _ _ _ Hiter).
    destruct (restore_loop_nothing bd (r0 :: recs') w 0 0 [] Hgone) as (ds & Hloop & Hds).
    rewrite (bind_Ok_eq _ _ _ _ _ Hloop).
    split; [done|]. by intros ures [= <-].
  - rewrite (bind_Ok_eq _ _ _ _ _ Hfind). split; [done|]. by intros ures [= <-].
  - rewrite (bind_Raise_eq _ _ _ _ _ Hfind). split; [done|]. by intros ures [=].
Qed.

Lemma undo_with_nothing_to_restore_witness :
  chosen_log "/photos" None photos_undone "/photos/rename_log_1700000001.json"
  ∧ load_rename_log "/photos/rename_log_1700000001.json" photos_undone
    = (Ok (JObj [("renamed_files",
                  JList (map record_to_json (Result.records photos_result)));
                 ("generated_at", JStr "%Y-%m-%d %H:%M:%S@1700000006")]),
       photos_undone)
  ∧ Forall (nothing_to_restore photos_undone) (Result.records photos_result)
  ∧ (undo_rename "/photos" None photos_undone).2 = photos_undone
  ∧ ∀ ures, (undo_rename "/photos" None photos_undone).1 = Ok ures →
      UndoResult.success ures = false
      ∧ UndoResult.restored_count ures = 0
      ∧ UndoResult.error_message ures ≠ None
      ∧ Forall (fun d => Detail.status d ≠ RestoredSuccessfully)
          (UndoResult.details ures).
Proof.
  assert (chosen_log "/photos" None photos_undone "/photos/rename_log_1700000001.json")
    as Hchosen.
  { right. split; [reflexivity|].
    apply read_only_run; [vm_compute; reflexivity | apply find_latest_log_unchanged]. }
  assert (load_rename_log "/photos/rename_log_1700000001.json" photos_undone
          = (Ok (JObj [("renamed_files",
                        JList (map record_to_json (Result.records photos_result)));
                       ("generated_at", JStr "%Y-%m-%d %H:%M:%S@1700000006")]),
             photos_undone)) as Hload.
  { apply read_only_run; [vm_compute; reflexivity | apply load_rename_log_unchanged]. }
  assert (Forall (nothing_to_restore photos_undone) (Result.records photos_result))
    as Hgone.
  { apply Forall_cons. split.
    - right. apply read_only_run; [vm_compute; reflexivity | reflexivity].
    - apply Forall_cons. split; [|apply Forall_nil; exact I].
      left. exists "Name unchanged.". split; [reflexivity | discriminate]. }
  split; [exact Hchosen|]. split; [exact Hload|]. split; [exact Hgone|].
  exact (undo_with_nothing_to_restore "/photos" None photos_undone
           "/photos/rename_log_1700000001.json" "%Y-%m-%d %H:%M:%S@1700000006"
           (Result.records photos_result) Hchosen Hload Hgone).
Defined.

(* ===================================================================== *)
(** * Directories are kept *)
(* ===================================================================== *)

#[local] Instance keeps_dirs_preorder : PreOrder keeps_dirs.
Proof.
  split; [by split|]. intros w1 w2 w3 [Hc1 Hd1] [Hc2 Hd2].
  split; [congruence|]. intros k Hk. by apply Hd2, Hd1.
Qed.

Lemma same_disk_keeps_dirs {A} (m : M A) :
  preserves same_disk m → preserves keeps_dirs m.
Proof.
  intros Hm w. destruct (Hm w) as (Hfs & Hcwd & _). split; [done|].
  intros k. by rewrite Hfs.
Qed.

Lemma _ensure_directory_dirs p : preserves keeps_dirs (_ensure_directory p).
Proof.
  intros w. destruct (_ensure_directory p w) as [r w'] eqn:Hcall. simpl.
  by apply _ensure_directory_spec in Hcall as (_ & Hdirs & _ & Hcwd & _).
Qed.

Lemma shutil_copy2_dirs src dst : preserves keeps_dirs (shutil_copy2 src dst).
Proof.
  intros w. destruct (shutil_copy2 src dst w) as [[[]|e] w'] eqn:Hcall; simpl.
  - apply shutil_copy2_Ok in Hcall
      as (d & dst' & _ & _ & _ & _ & _ & _ & _ & _ & Hdirs & Hcwd & _).
    split; [done|]. intros k. by rewrite Hdirs.
  - apply shutil_copy2_Raise in Hcall as (Hfs & ev & _ & Hcwd & _).
    split; [done|]. intros k. by rewrite Hfs.
Qed.

Lemma os_replace_dirs src dst : preserves keeps_dirs (os_replace src dst).
Proof.
  intros w. destruct (os_replace src dst w) as [[[]|e] w'] eqn:Hcall; simpl.
  - apply os_replace_Ok in Hcall as (d & _ & _ & _ & _ & _ & _ & Hdirs & Hcwd & _).
    split; [done|]. intros k. by rewrite Hdirs.
  - apply os_replace_Raise in Hcall as (Hfs & ev & _ & Hcwd & _).
    split; [done|]. intros k. by rewrite Hfs.
Qed.

Lemma write_json_dirs p data : preserves keeps_dirs (write_json p data).
Proof.
  intros w. unfold write_json.
  destruct (store w p _) as [f'|e] eqn:Hst; simpl; [|done].
  apply store_Ok in Hst as (_ & _ & _ & _ & Hdirs).
  split; [done|]. intros k. by rewrite Hdirs.
Qed.

Ltac keeps_dirs_step :=
  first
    [ apply _ensure_directory_dirs
    | apply shutil_copy2_dirs
    | apply os_replace_dirs
    | apply write_json_dirs
    | apply same_disk_keeps_dirs;
      solve [ apply os_path_exists_same
            | apply same_abspath_same
            | apply time_time_same
            | apply time_strftime_same
            | apply print_same
            | apply validate_same
            | apply _collect_files_same
            | apply _build_new_name_same ]
    | preserves_step ].

Section Directories.
Context {libs : Libs}.

Lemma rename_one_dirs config bd f counter :
  preserves keeps_dirs (rename_one config bd f counter).
Proof. unfold rename_one. repeat keeps_dirs_step. Qed.

Lemma rename_loop_dirs config bd files counter acc :
  preserves keeps_dirs (rename_loop config bd files counter acc).
Proof.
  revert counter acc. induction files as [|f files IH]; intros counter acc; simpl.
  - repeat keeps_dirs_step.
  - apply preserves_bind; [apply _ | apply rename_one_dirs | intros r; apply IH].
Qed.

(** X24.  Directories are kept.  Whatever its outcome, [rename_files]
    removes no directory and leaves the working directory where it was:
    every directory there before the call is a directory after it. *)
Theorem run_removes_no_directory (config : Config.t) (w : world) :
  cwd (rename_files config w).2 = cwd w
  ∧ ∀ k, dir_at (fs w) k = true → dir_at (fs (rename_files config w).2) k = true.
Proof.
  revert w. change (preserves keeps_dirs (rename_files config)).
  unfold rename_files, _write_log.
  repeat first [apply rename_loop_dirs | keeps_dirs_step].
Qed.

Lemma loop_run_dirs config bd files counter w recs w' :
  loop_run config bd files counter w recs w' → keeps_dirs w w'.
Proof.
  induction 1 as [|f files c w r w1 recs w' Hone _ IH]; [reflexivity|].
  pose proof (rename_one_dirs config bd f c w) as H1. rewrite Hone in H1.
  by etrans.
Qed.

Lemma default_log_name config w res w' :
  rename_files config w = (Ok res, w') →
  Config.dry_run config = false →
  truthy (Config.log_file config) = false →
  ∃ t, Result.log_file res
       = Some (OsPath.join (Config.directory config)
                 ("rename_log_" +:+ Py.str t +:+ ".json")).
Proof.
  intros Hrun Hwet Hlf.
  apply rename_files_Ok in Hrun as (files & bd & lf & w1 & w2 & Hprep & _ & Hfin).
  apply finish_Ok in Hfin as (_ & _ & _ & _ & Hrlf). rewrite Hwet in Hrlf.
  pose proof (prepare_Ok _ _ _ _ _ _ Hprep) as (Hval & Hcol & Hne & _).
  unfold prepare in Hprep.
  rewrite (bind_Ok_eq _ _ _ _ _ Hval), (bind_Ok_eq _ _ _ _ _ Hcol) in Hprep.
  destruct files as [|f files]; [done|].
  rewrite Hlf in Hprep.
  destruct (truthy (Config.backup_dir config)); cbv [bind time_time ret] in Hprep;
    injection Hprep as <- <- _; eauto.
Qed.

(** X25.  The next run takes the log.  After a completed run that is not a
    dry run, with the default name for the log, in a directory given by a
    clean path, the log of the run is a regular file of the directory like
    any other: discovery in the state the run leaves returns it among the
    files to rename, for every extension filter that lets its name
    through, no filter included.  So the next run renames the log of this
    one as it renames the other files. *)
Theorem next_run_takes_the_log
    (config : Config.t) (w : world) (res : Result.t) (w' : world) (lf : string)
    (extensions : option (list string)) :
  rename_files config w = (Ok res, w') →
  Config.dry_run config = false →
  truthy (Config.log_file config) = false →
  Result.log_file res = Some lf →
  clean (Config.directory config) →
  wanted extensions (OsPath.basename lf) = true →
  ∃ files,
    _collect_files (Config.directory config) extensions w' = (Ok files, w')
    ∧ lf ∈ files.
Proof.
  intros Hrun Hwet Hnolf Hlf Hclean Hwanted.
  destruct (default_log_name _ _ _ _ Hrun Hwet Hnolf) as (t & Hlf').
  assert (lf = OsPath.join (Config.directory config)
                 ("rename_log_" +:+ Py.str t +:+ ".json")) as -> by congruence.
  destruct (log_name t) as (Hlc & _).
  remember ("rename_log_" +:+ Py.str t +:+ ".json") as lname eqn:Hlname.
  remember (Config.directory config) as d eqn:Hd_def.
  rewrite (basename_join d lname) in Hwanted by apply Hlc.
  apply rename_files_Ok in Hrun as (files & bd & lf0 & w1 & w2 & Hprep & Hloop & Hfin).
  pose proof (finish_Ok _ _ _ _ _ _ _ Hfin) as (_ & _ & _ & _ & Hlf0).
  rewrite Hwet, Hlf in Hlf0. injection Hlf0 as <-.
  apply prepare_Ok in Hprep as (Hval & _ & _ & Hfs1 & Hcwd1 & _).
  apply validate_Ok in Hval as (_ & _ & [m Hdir] & _). rewrite <- Hd_def in Hdir.
  apply loop_run_dirs in Hloop as [Hcwd2 Hdirs2].
  destruct (finish_on_disk _ _ _ _ _ _ _ Hwet Hfin) as (Hcwd' & Hd' & _ & stamp & Hload).
  assert (cwd w' = cwd w) as Hcwd by congruence.
  (* the directory is still there *)
  assert (∃ m', lookup_path w' d = Ok (Dir m')) as [m' Hdir'].
  { apply lookup_path_dir in Hdir. rewrite <- Hfs1 in Hdir. apply Hdirs2 in Hdir.
    rewrite <- Hd' in Hdir. apply dir_at_lookup in Hdir as [m' Hm'].
    exists m'. unfold lookup_path. rewrite bool_decide_eq_false_2 by apply Hclean.
    by rewrite (resolve_cwd w' w d Hcwd), Hm'. }
  (* the log is a regular file in it *)
  assert (∃ c mt, fs w' !! (resolve w' d ++ [lname]) = Some (File c mt))
    as (c & mt & Hfile).
  { rewrite load_rename_log_read in Hload. unfold read_file in Hload.
    destruct (lookup_path w' (OsPath.join d lname)) as [[c mt|mt]|e] eqn:Hlook.
    - apply lookup_path_file in Hlook as (_ & _ & Hfile).
      rewrite resolve_join in Hfile by done. unfold file_at in Hfile.
      destruct (fs w' !! (resolve w' d ++ [lname])) as [[c' mt'|]|]; try done. eauto.
    - discriminate.
    - by destruct e as [| |[]| | | | | | |]. }
  exists (sorted (matching extensions
                    (map (fun '(name, n) =>
                            {| entry_name := name;
                               entry_path := OsPath.join d name;
                               entry_is_file := if n is File _ _ then true else false |})
                         (children (fs w') (resolve w' d))))).
  split.
  { apply _collect_files_matching. unfold os_scandir. by rewrite Hdir'. }
  rewrite (proj2 (sorted_spec _)). unfold matching. apply list_elem_of_fmap.
  exists {| entry_name := lname; entry_path := OsPath.join d lname;
            entry_is_file := true |}.
  split; [done|]. apply list_elem_of_In, filter_In. split.
  - apply list_elem_of_In, list_elem_of_fmap. exists (lname, File c mt).
    split; [done|]. by apply elem_of_children.
  - unfold keeps. simpl. exact Hwanted.
Qed.

End Directories.

(* ===================================================================== *)
(** * No log when the run fails *)
(* ===================================================================== *)

Lemma write_json_Raise_world p data w e w' :
  write_json p data w = (Raise e, w') →
  fs w' = fs w ∧ cwd w' = cwd w ∧ trace w' = trace w ++ [EvWrite (resolve w p)].
Proof.
  unfold write_json. destruct (store w p _) as [f'|e0]; [discriminate|].
  by intros [= _ <-].
Qed.

Section FailedRuns.
Context {libs : Libs}.

(** X26.  No log when the run fails.  When [rename_files] raises, whatever
    the exception, every regular file then on disk is a copy (contents and
    modification time) of a file that was there before the call, so no
    log of this run exists; no call of the run but the last is a write.
    Whatever [load_rename_log] can load afterwards is a document that was
    on disk before. *)
Theorem no_log_when_the_run_fails
    (config : Config.t) (w : world) (e : exn) (w' : world) :
  rename_files config w = (Raise e, w') →
  (∀ k d, file_at (fs w') k = Some d → ∃ k', file_at (fs w) k' = Some d)
  ∧ (∃ calls, trace w' = trace w ++ calls
              ∧ Forall (fun c => is_write c = false) (removelast calls))
  ∧ ∀ (p : string) (data : json) (w'' : world),
      load_rename_log p w' = (Ok data, w'') → data ≠ JNull →
      ∃ k m, file_at (fs w) k = Some (JsonDoc data, m).
Proof.
  intros Hrun.
  assert ((∀ k d, file_at (fs w') k = Some d → ∃ k', file_at (fs w) k' = Some d)
          ∧ ∃ calls, trace w' = trace w ++ calls
                     ∧ Forall (fun c => is_write c = false) (removelast calls))
    as [Hfiles Hcalls].
  { rewrite rename_files_unfold in Hrun.
    pose proof (prepare_same config w) as Hprep.
    apply bind_Raise_inv in Hrun as [Hp|([[files bd] lf] & w1 & Hp & Hrest)].
    { rewrite Hp in Hprep. destruct Hprep as (Hfs & _ & Htr & _). simpl in *.
      split; [rewrite Hfs; eauto|]. exists []. rewrite app_nil_r. by split. }
    rewrite Hp in Hprep. destruct Hprep as (Hfs1 & _ & Htr1 & _). simpl in *.
    pose proof (rename_loop_no_new config bd files (Config.numbering_start config) [] w1)
      as Hloop.
    apply bind_Raise_inv in Hrest as [Hl|(recs & w2 & Hl & Hfin)].
    - rewrite Hl in Hloop. destruct Hloop as (_ & (calls & Htr & Hnw) & Hold).
      simpl in *. split.
      + intros k d Hk. apply Hold in Hk. by rewrite Hfs1 in Hk.
      + exists calls. rewrite Htr, Htr1. split; [done|].
        clear -Hnw. induction Hnw as [|c calls Hc Hnw IH]; [constructor|].
        destruct calls; [constructor|]. by constructor.
    - rewrite Hl in Hloop. destruct Hloop as (_ & (calls & Htr & Hnw) & Hold).
      simpl in *. unfold finish in Hfin.
      apply bind_Raise_inv in Hfin as [Hlog|([] & w3 & _ & Hret)]; [|discriminate].
      destruct (negb (Config.dry_run config)); [|discriminate].
      unfold _write_log in Hlog.
      apply bind_Raise_inv in Hlog as [Hts|(ts & w3 & Hts & Hwrite)]; [discriminate|].
      injection Hts as _ <-.
      apply write_json_Raise_world in Hwrite as (Hfs' & _ & Htr').
      split.
      + intros k d Hk. rewrite Hfs' in Hk. apply Hold in Hk. by rewrite Hfs1 in Hk.
      + exists (calls ++ [EvWrite (resolve (advance w2) lf)]).
        rewrite Htr'. simpl. rewrite Htr, Htr1, <- app_assoc. split; [done|].
        by rewrite removelast_last. }
  split; [done|]. split; [done|].
  intros p data w'' Hload Hdata.
  unfold load_rename_log, try_except, bind, read_file in Hload.
  destruct (lookup_path w' p) as [[c m|m]|e0] eqn:Hlook.
  - apply lookup_path_file in Hlook as (_ & _ & Hfile).
    destruct c as [raw|j]; simpl in Hload; [by injection Hload as <-|].
    injection Hload as <- _. apply Hfiles in Hfile as [k Hk]. eauto.
  - simpl in Hload. discriminate.
  - simpl in Hload. revert Hload. unfold ret.
    repeat case_match; intros; simplify_eq; done.
Qed.

End FailedRuns.

(* ===================================================================== *)
(** * What a run prints *)
(* ===================================================================== *)

#[local] Instance quiet_preorder : PreOrder quiet.
Proof. split; [done|]. intros w1 w2 w3 H12 H23. unfold quiet in *. congruence. Qed.

Lemma os_path_exists_quiet p : preserves quiet (os_path_exists p).
Proof. by intros w. Qed.
Lemma os_path_isdir_quiet p : preserves quiet (os_path_isdir p).
Proof. by intros w. Qed.
Lemma same_abspath_quiet p q : preserves quiet (same_abspath p q).
Proof. by intros w. Qed.
Lemma os_scandir_quiet p : preserves quiet (os_scandir p).
Proof. intros w. unfold os_scandir. by destruct (lookup_path w p) as [[]|]. Qed.
Lemma time_time_quiet : preserves quiet time_time.
Proof. by intros w. Qed.
Lemma time_strftime_quiet {libs : Libs} f : preserves quiet (time_strftime f).
Proof. by intros w. Qed.
Lemma os_makedirs_quiet p : preserves quiet (os_makedirs p).
Proof.
  intros w. unfold os_makedirs. case_bool_decide; [done|].
  destruct (resolve w p); [done|]. by destruct (mkdir_chain _ _ _ _).
Qed.
Lemma shutil_copy2_quiet src dst : preserves quiet (shutil_copy2 src dst).
Proof. intros w. unfold shutil_copy2. by repeat case_match. Qed.
Lemma os_replace_quiet src dst : preserves quiet (os_replace src dst).
Proof. intros w. unfold os_replace. by repeat case_match. Qed.
Lemma write_json_quiet p data : preserves quiet (write_json p data).
Proof. intros w. unfold write_json. by destruct (store w p _). Qed.

Ltac quiet_step :=
  first
    [ apply os_path_exists_quiet
    | apply os_path_isdir_quiet
    | apply same_abspath_quiet
    | apply os_scandir_quiet
    | apply time_time_quiet
    | apply time_strftime_quiet
    | apply os_makedirs_quiet
    | apply shutil_copy2_quiet
    | apply os_replace_quiet
    | apply write_json_quiet
    | preserves_step ].

Lemma validate_quiet config : preserves quiet (Config.validate config).
Proof. unfold Config.validate. repeat quiet_step. Qed.

Lemma _collect_files_quiet d exts : preserves quiet (_collect_files d exts).
Proof. unfold _collect_files. repeat quiet_step. Qed.

Section Printed.
Context {libs : Libs}.

Lemma _build_new_name_quiet n config c : preserves quiet (_build_new_name n config c).
Proof. unfold _build_new_name. repeat quiet_step. Qed.

Lemma rename_one_quiet config bd f counter :
  Config.dry_run config = false → preserves quiet (rename_one config bd f counter).
Proof.
  intros Hwet. unfold rename_one, _ensure_directory. rewrite Hwet.
  repeat first [apply _build_new_name_quiet | quiet_step].
Qed.

Lemma rename_loop_quiet config bd files counter acc :
  Config.dry_run config = false →
  preserves quiet (rename_loop config bd files counter acc).
Proof.
  intros Hwet. revert counter acc.
  induction files as [|f files IH]; intros counter acc; simpl.
  - repeat quiet_step.
  - apply preserves_bind; [apply _ | by apply rename_one_quiet | intros r; apply IH].
Qed.

Lemma loop_run_preview config bd files counter w recs w' :
  Config.dry_run config = true →
  loop_run config bd files counter w recs w' →
  stdout w' = stdout w ++ map preview_line recs.
Proof.
  intros Hdry. induction 1 as [c w|f files c w r w1 recs w' Hone _ IH].
  - by rewrite app_nil_r.
  - apply rename_one_Ok in Hone as (wn & Hname & _ & _ & _ & Hkind).
    pose proof (_build_new_name_quiet (OsPath.basename f) config c w) as Hq.
    rewrite Hname in Hq. unfold quiet in Hq. simpl in Hq.
    destruct Hkind as [_ _ _ -> | Hwet _ _ _ _ | ? ? ? Hwet _ _ _ _ _ _ _ _];
      [|congruence..].
    rewrite IH. simpl. rewrite Hq, <- app_assoc. done.
Qed.

(** X27.  What a run prints.  A completed dry run prints one line for each
    record of the plan, in plan order, [[DRY-RUN] original -> new], and
    nothing else.  A run that is not a dry run prints nothing, whether it
    returns or raises. *)
Theorem run_prints_the_plan (config : Config.t) (w : world) :
  match rename_files config w with
  | (Ok res, w') =>
      stdout w' = stdout w ++ (if Config.dry_run config
                               then map preview_line (Result.records res) else [])
  | (Raise _, w') => Config.dry_run config = false → stdout w' = stdout w
  end.
Proof.
  assert (Config.dry_run config = false → stdout (rename_files config w).2 = stdout w)
    as Hquiet.
  { intros Hwet. revert w. change (preserves quiet (rename_files config)).
    unfold rename_files, _write_log. rewrite Hwet.
    repeat first [ apply validate_quiet | apply _collect_files_quiet
                 | by apply rename_loop_quiet | quiet_step ]. }
  destruct (rename_files config w) as [[res|e] w'] eqn:Hrun; [|exact Hquiet].
  destruct (Config.dry_run config) eqn:Hdry; [|rewrite app_nil_r; by apply Hquiet].
  apply rename_files_Ok in Hrun as (files & bd & lf & w1 & w2 & Hprep & Hloop & Hfin).
  apply (loop_run_preview _ _ _ _ _ _ _ Hdry) in Hloop.
  assert (stdout w1 = stdout w) as Hq1.
  { assert (preserves quiet (prepare config)) as Hq.
    { unfold prepare.
      repeat first [apply validate_quiet | apply _collect_files_quiet | quiet_step]. }
    specialize (Hq w). by rewrite Hprep in Hq. }
  unfold finish in Hfin. rewrite Hdry in Hfin. simpl in Hfin.
  injection Hfin as _ <-. by rewrite Hloop, Hq1.
Qed.

End Printed.

(* ===================================================================== *)
(** * Undo copies before it removes *)
(* ===================================================================== *)

Lemma copies_first_app a b : copies_first a → copies_first b → copies_first (a ++ b).
Proof.
  induction 1 as [|s d rest _ IH|s d k rest _ IH]; intros Hb; simpl.
  - done.
  - apply copies_first_copy. by apply IH.
  - apply copies_first_copy_remove. by apply IH.
Qed.

#[local] Instance restoring_preorder : PreOrder restoring.
Proof.
  split.
  - intros w. exists []. rewrite app_nil_r. split; [done|constructor].
  - intros w1 w2 w3 (c1 & H1 & Hc1) (c2 & H2 & Hc2). exists (c1 ++ c2).
    rewrite H2, H1, <- app_assoc. split; [done|]. by apply copies_first_app.
Qed.

Lemma unchanged_restoring {A} (m : M A) : preserves unchanged m → preserves restoring m.
Proof. intros Hm w. rewrite (Hm w). reflexivity. Qed.

Lemma shutil_copy2_trace src dst w :
  ∃ s d, trace (shutil_copy2 src dst w).2 = trace w ++ [EvCopy s d].
Proof.
  unfold shutil_copy2.
  exists (resolve w src),
         (resolve w (if lookup_path w dst is Ok (Dir _)
                     then OsPath.join dst (OsPath.basename src) else dst)).
  destruct (lookup_path w src) as [[c m|m]|e]; try done;
    destruct (_ && _); try done.
  by destruct (store _ _ _).
Qed.

Lemma os_remove_trace p w :
  trace (os_remove p w).2 = trace w ++ [EvRemove (resolve w p)].
Proof. unfold os_remove. by repeat case_match. Qed.

(** The calls of the body of [try] in the loop of [undo_rename]. *)
Lemma restore_body_restoring {A} (backup_file_path current : string)
    (original_path : json) (a : A) :
  preserves restoring
    (let* target := py_path original_path in
     shutil_copy2 backup_file_path target;;
     let* still := os_path_exists current in
     (if still && negb (bool_decide (current = target))
      then os_remove current else ret tt);;
     ret a).
Proof.
  intros w.
  assert (restoring w w) as Hrefl by reflexivity.
  destruct original_path as [|b|n|target|items|fields]; try exact Hrefl.
  change (restoring w
            ((shutil_copy2 backup_file_path target;;
              let* still := os_path_exists current in
              (if still && negb (bool_decide (current = target))
               then os_remove current else ret tt);;
              ret a) w).2).
  unfold bind at 1.
  destruct (shutil_copy2_trace backup_file_path target w) as (s & d & Hcopy).
  destruct (shutil_copy2 backup_file_path target w) as [[[]|e] w1]; simpl in Hcopy.
  2:{ exists [EvCopy s d]. split; [done|]. by repeat constructor. }
  unfold bind at 1. unfold os_path_exists at 1.
  destruct (_ && _).
  - unfold bind at 1. pose proof (os_remove_trace current w1) as Hrm.
    destruct (os_remove current w1) as [[[]|e] w2]; simpl in Hrm;
      (exists [EvCopy s d; EvRemove (resolve w1 current)];
       split; [simpl; by rewrite Hrm, Hcopy, <- app_assoc|by repeat constructor]).
  - exists [EvCopy s d]. split; [done|]. by repeat constructor.
Qed.

Lemma py_path_restoring j : preserves restoring (py_path j).
Proof. intros w. destruct j; reflexivity. Qed.

Ltac restoring_step :=
  first
    [ apply py_path_restoring
    | apply preserves_try;
      [apply _ | apply restore_body_restoring | intros ?; apply preserves_ret; apply _]
    | apply unchanged_restoring;
      first [ apply os_path_exists_unchanged
            | apply find_latest_log_unchanged
            | apply find_backup_dir_unchanged
            | apply load_rename_log_unchanged ]
    | preserves_step ].

Lemma restore_one_restoring bd record : preserves restoring (restore_one bd record).
Proof. unfold restore_one, py_get. repeat restoring_step. Qed.

Lemma restore_loop_restoring bd records restored skipped details :
  preserves restoring (restore_loop bd records restored skipped details).
Proof.
  revert restored skipped details.
  induction records as [|record records IH]; intros restored skipped details; simpl.
  - repeat restoring_step.
  - apply preserves_bind; [apply _ | apply restore_one_restoring |].
    intros [[] detail]; apply IH.
Qed.

(** X28.  Undo copies before it removes.  Whatever its outcome, the calls
    [undo_rename] issues are copies and removals in which every removal
    comes directly after a copy: no file is removed unless a copy was
    called for just before. *)
Theorem undo_copies_before_it_removes (directory : string) (log_file : option string)
    (w : world) :
  ∃ calls,
    trace (undo_rename directory log_file w).2 = trace w ++ calls
    ∧ copies_first calls.
Proof.
  revert w. change (preserves restoring (undo_rename directory log_file)).
  unfold undo_rename, py_get, py_first, py_iter, py_path.
  repeat first [apply restore_loop_restoring | restoring_step].
Qed.

Lemma next_run_takes_the_log_witness :
  rename_files (libs := example_libs) photos_config photos_world
  = (Ok photos_result, photos_after)
  ∧ clean "/photos"
  ∧ wanted (Some [".json"]) (OsPath.basename "/photos/rename_log_1700000001.json") = true
  ∧ ∃ files,
      _collect_files "/photos" (Some [".json"]) photos_after = (Ok files, photos_after)
      ∧ "/photos/rename_log_1700000001.json" ∈ files.
Proof.
  assert (clean "/photos") as Hclean by done.
  assert (wanted (Some [".json"]) (OsPath.basename "/photos/rename_log_1700000001.json")
          = true) as Hwanted by (vm_compute; reflexivity).
  assert ((rename_files (libs := example_libs) photos_config photos_world).1
          = Ok photos_result) as Hrun by (vm_compute; reflexivity).
  apply run_by_outcome in Hrun. fold photos_after in Hrun.
  split; [exact Hrun|]. split; [exact Hclean|]. split; [exact Hwanted|].
  exact (next_run_takes_the_log (libs := example_libs) photos_config photos_world
           photos_result photos_after "/photos/rename_log_1700000001.json"
           (Some [".json"]) Hrun eq_refl eq_refl eq_refl Hclean Hwanted).
Defined.

Lemma no_log_when_the_run_fails_witness :
  rename_files (libs := example_libs) photos_config_log_on_directory photos_world
  = (Raise (OSError EISDIR),
     (rename_files (libs := example_libs) photos_config_log_on_directory photos_world).2)
  ∧ (∀ k d,
       file_at (fs (rename_files (libs := example_libs)
                      photos_config_log_on_directory photos_world).2) k = Some d →
       ∃ k', file_at (fs photos_world) k' = Some d)
  ∧ (∃ calls,
       trace (rename_files (libs := example_libs)
                photos_config_log_on_directory photos_world).2
       = trace photos_world ++ calls
       ∧ Forall (fun c => is_write c = false) (removelast calls))
  ∧ ∀ (p : string) (data : json) (w'' : world),
      load_rename_log p (rename_files (libs := example_libs)
                           photos_config_log_on_directory photos_world).2
      = (Ok data, w'') → data ≠ JNull →
      ∃ k m, file_at (fs photos_world) k = Some (JsonDoc data, m).
Proof.
  assert (rename_files (libs := example_libs) photos_config_log_on_directory photos_world
          = (Raise (OSError EISDIR),
             (rename_files (libs := example_libs)
                photos_config_log_on_directory photos_world).2)) as Hrun.
  { apply run_by_outcome. vm_compute. reflexivity. }
  split; [exact Hrun|].
  exact (no_log_when_the_run_fails (libs := example_libs)
           photos_config_log_on_directory photos_world (OSError EISDIR) _ Hrun).
Defined.
